(** * TextAlchemy backend: model selection, request fallback and HTTP routes

    A shallow embedding of the two server programs of the repository:

    - the auto-selecting server ([AutoSelect]): [listAvailableModels],
      [tryModelGenerate], [ensureWorkingModel], [callGemini] and the three
      routes, with the process-wide [cachedModel];
    - the plain server of [backend/server.js] ([Backend]): [callGeminiAPI]
      and its three routes.

    Asynchronous functions are programs over four kinds of events (an
    outbound [fetch], a read and a write of [cachedModel], a console line);
    [run] executes one program to completion against a network, and
    [run_schedule] interleaves several pending requests at their [fetch]
    points, the way the event loop does. *)

From Stdlib Require Import String Ascii List ZArith Bool Lia DecimalString.
Import ListNotations.

#[local] Set Warnings "-register-all".

Local Open Scope list_scope.
Local Open Scope string_scope.

(* ================================================================== *)
(** ** JavaScript values produced by [JSON.parse] *)

Module JS.

(** A number is carried by its canonical rendering [String(n)]; no
    arithmetic is done on response data, only truthiness and printing.
    An object is the list of its own properties; the first binding of a
    key is the property.  Characters of a string stand for its code
    units. *)
Inductive json : Type :=
| JNull
| JBool (b : bool)
| JNum (repr : string)
| JStr (s : string)
| JArr (items : list json)
| JObj (props : list (string * json)).

(** A value or [undefined]. *)
Definition jsval : Type := option json.

Definition undefined : jsval := None.

(** ToBoolean. *)
Definition truthy (v : json) : bool :=
  match v with
  | JNull => false
  | JBool b => b
  | JNum r => negb (r =? "0")
  | JStr s => negb (s =? "")
  | JArr _ => true
  | JObj _ => true
  end.

Definition truthy_val (v : jsval) : bool :=
  match v with
  | Some x => truthy x
  | None => false
  end.

(** [a || b]. *)
Definition or_else (a b : jsval) : jsval :=
  if truthy_val a then a else b.

Fixpoint own (k : string) (props : list (string * json)) : jsval :=
  match props with
  | [] => None
  | (k', v) :: rest => if k' =? k then Some v else own k rest
  end.

(** [v.k] for a value that is neither [null] nor [undefined], where [k]
    is one of the identifiers the servers read ([candidates], [content],
    [parts], [text], [output], [message], [error], [models], [model],
    [name], [id], [mode]).  None of them exists on the prototypes of
    objects, arrays, strings, numbers or booleans, so only an own
    property of an object answers. *)
Definition get_prop (v : json) (k : string) : jsval :=
  match v with
  | JObj props => own k props
  | _ => None
  end.

(** [v[0]] for a value that is neither [null] nor [undefined]. *)
Definition get_first (v : json) : jsval :=
  match v with
  | JArr items => hd_error items
  | JStr (String c _) => Some (JStr (String c EmptyString))
  | JObj props => own "0" props
  | _ => None
  end.

(** [v?.k] and [v?.[0]]. *)
Definition opt_prop (v : jsval) (k : string) : jsval :=
  match v with
  | None | Some JNull => None
  | Some x => get_prop x k
  end.

Definition opt_first (v : jsval) : jsval :=
  match v with
  | None | Some JNull => None
  | Some x => get_first x
  end.

(** ToString, as applied by template literals, [new Error(x)] and
    [RegExp.prototype.test]; [None] is a thrown TypeError.  An object
    with an own [toString] property (never callable in parsed JSON) has
    no primitive value; any other object prints as [[object Object]];
    an array joins its elements with commas, [null] printing empty. *)
Fixpoint to_string (v : json) : option string :=
  match v with
  | JNull => Some "null"
  | JBool true => Some "true"
  | JBool false => Some "false"
  | JNum r => Some r
  | JStr s => Some s
  | JArr items =>
      (fix join (l : list json) : option string :=
         match l with
         | [] => Some ""
         | x :: rest =>
             let elem := match x with
                         | JNull => Some ""
                         | _ => to_string x
                         end in
             match rest with
             | [] => elem
             | _ :: _ =>
                 match elem, join rest with
                 | Some a, Some b => Some (a ++ "," ++ b)
                 | _, _ => None
                 end
             end
         end) items
  | JObj props =>
      match own "toString" props with
      | Some _ => None
      | None => Some "[object Object]"
      end
  end.

(** ASCII case folding, the only folding [/gemini/i] can use to reach
    the letters of its pattern. *)
Definition fold_case (c : ascii) : ascii :=
  let n := nat_of_ascii c in
  if (65 <=? n)%nat && (n <=? 90)%nat then ascii_of_nat (n + 32) else c.

Fixpoint prefix_ci (p s : string) : bool :=
  match p, s with
  | EmptyString, _ => true
  | String _ _, EmptyString => false
  | String a p', String b s' =>
      Ascii.eqb (fold_case a) (fold_case b) && prefix_ci p' s'
  end.

Fixpoint contains_ci (p s : string) : bool :=
  prefix_ci p s ||
  match s with
  | EmptyString => false
  | String _ s' => contains_ci p s'
  end.

(** [v === s] for a string literal [s]. *)
Definition strict_eq_string (v : json) (s : string) : bool :=
  match v with
  | JStr x => x =? s
  | _ => false
  end.

(** Whether a value is a string other than the empty one. *)
Definition nonempty_string (v : jsval) : bool :=
  match v with
  | Some (JStr s) => negb (s =? "")
  | _ => false
  end.

(** [s.slice(0, n)]. *)
Definition slice0 (n : nat) (s : string) : string := substring 0 n s.

(** Decimal rendering of an integer, as a template literal prints it. *)
Definition show_Z (z : Z) : string := NilZero.string_of_int (Z.to_int z).

Definition nl : string := String "010"%char EmptyString.

End JS.

(* ================================================================== *)
(** ** Asynchronous programs *)

Module Async.
Import JS.

(** A thrown error object: only its class name and [message] are read. *)
Record js_error : Type := { err_name : string; message : string }.

Definition Error (msg : string) : js_error :=
  {| err_name := "Error"; message := msg |}.

(** The TypeError of a failed ToString. *)
Definition TypeError_primitive : js_error :=
  {| err_name := "TypeError";
     message := "Cannot convert object to primitive value" |}.

(** The SyntaxError of [JSON.parse] on a body that is not JSON. *)
Definition SyntaxError_json : js_error :=
  {| err_name := "SyntaxError"; message := "Unexpected token in JSON" |}.

(** An outbound request.  The body of a POST is the value handed to
    [JSON.stringify]. *)
Inductive request : Type :=
| GET (url : string) (headers : list (string * string))
| POST (url : string) (headers : list (string * string)) (body : json).

(** What [await fetch(..)] followed by [await res.text()] gives: either
    one of the two rejects (network failure, timeout), or a status and
    the raw body. *)
Inductive fetch_outcome : Type :=
| NetError (e : js_error)
| Response (status : Z) (raw : string).

(** [res.ok]. *)
Definition status_ok (status : Z) : bool :=
  ((200 <=? status) && (status <? 300))%Z.

Inductive log_level : Type := LogInfo | LogWarn | LogError.

Inductive log_arg : Type :=
| ArgVal (v : json)
| ArgErr (e : js_error).

(** One call of [console.log], [console.warn] or [console.error] with
    its arguments. *)
Record log_entry : Type := { level : log_level; args : list log_arg }.

Definition line (l : log_level) (text : string) (rest : list log_arg)
  : log_entry :=
  {| level := l; args := ArgVal (JStr text) :: rest |}.

Inductive prog (A : Type) : Type :=
| Ret (a : A)
| Throw (e : js_error)
| Fetch (r : request) (k : fetch_outcome -> prog A)
| ReadCache (k : json -> prog A)
| WriteCache (m : json) (k : prog A)
| Console (e : log_entry) (k : prog A).

Arguments Ret {A} a.
Arguments Throw {A} e.
Arguments Fetch {A} r k.
Arguments ReadCache {A} k.
Arguments WriteCache {A} m k.
Arguments Console {A} e k.

Fixpoint bind {A B : Type} (p : prog A) (f : A -> prog B) : prog B :=
  match p with
  | Ret a => f a
  | Throw e => Throw e
  | Fetch r k => Fetch r (fun o => bind (k o) f)
  | ReadCache k => ReadCache (fun c => bind (k c) f)
  | WriteCache m k => WriteCache m (bind k f)
  | Console e k => Console e (bind k f)
  end.

(** [try { p } catch (err) { h err }]. *)
Fixpoint try_catch {A : Type} (p : prog A) (h : js_error -> prog A)
  : prog A :=
  match p with
  | Ret a => Ret a
  | Throw e => h e
  | Fetch r k => Fetch r (fun o => try_catch (k o) h)
  | ReadCache k => ReadCache (fun c => try_catch (k c) h)
  | WriteCache m k => WriteCache m (try_catch k h)
  | Console e k => Console e (try_catch k h)
  end.

Declare Scope prog_scope.
Delimit Scope prog_scope with prog.
Bind Scope prog_scope with prog.

Notation "x <- p ;; q" := (bind p (fun x => q))
  (at level 61, p at next level, right associativity) : prog_scope.
Notation "p ;; q" := (bind p (fun _ => q))
  (at level 61, right associativity) : prog_scope.

(** The operators of optional chaining and of [||] on values. *)
Notation "a '||' b" := (or_else a b) (at level 50, left associativity)
  : prog_scope.
Notation "v '?.' k" := (opt_prop v k) (at level 1, left associativity,
  k at level 0) : prog_scope.
Notation "v '?.[0]'" := (opt_first v) (at level 1, left associativity)
  : prog_scope.

(** [await fetch(..)] then [await res.text()]. *)
Definition fetch (r : request) : prog (Z * string) :=
  Fetch r (fun o =>
    match o with
    | NetError e => Throw e
    | Response status raw => Ret (status, raw)
    end).

Definition read_cache : prog json := ReadCache (fun c => Ret c).
Definition write_cache (m : json) : prog unit := WriteCache m (Ret tt).
Definition log (e : log_entry) : prog unit := Console e (Ret tt).

(** A template literal hole [${v}]. *)
Definition template (v : json) : prog string :=
  match to_string v with
  | Some s => Ret s
  | None => Throw TypeError_primitive
  end.

Inductive result (A : Type) : Type :=
| Returned (a : A)
| Thrown (e : js_error).

Arguments Returned {A} a.
Arguments Thrown {A} e.

(** The process and its surroundings: the module variable
    [cachedModel], the network, and two ghost components, the exchanges
    made so far and the console lines written so far (oldest first). *)
Record state (W : Type) : Type := {
  cachedModel : json;
  net : W;
  trace : list (request * fetch_outcome);
  console : list log_entry
}.

Arguments cachedModel {W} s.
Arguments net {W} s.
Arguments trace {W} s.
Arguments console {W} s.

Section Run.
Context {W : Type}.
(** The network: how it answers a request, and what it becomes. *)
Variable respond : W -> request -> fetch_outcome * W.

Definition exchange (r : request) (s : state W) : fetch_outcome * state W :=
  let (o, w) := respond (net s) r in
  (o, {| cachedModel := cachedModel s; net := w;
         trace := (trace s ++ [(r, o)])%list; console := console s |}).

Definition set_cache (m : json) (s : state W) : state W :=
  {| cachedModel := m; net := net s; trace := trace s;
     console := console s |}.

Definition print (e : log_entry) (s : state W) : state W :=
  {| cachedModel := cachedModel s; net := net s; trace := trace s;
     console := (console s ++ [e])%list |}.

Definition prints (l : list log_entry) (s : state W) : state W :=
  {| cachedModel := cachedModel s; net := net s; trace := trace s;
     console := (console s ++ l)%list |}.

(** One program run to completion, nothing else running meanwhile. *)
Fixpoint run {A : Type} (p : prog A) (s : state W) : result A * state W :=
  match p with
  | Ret a => (Returned a, s)
  | Throw e => (Thrown e, s)
  | Fetch r k => let (o, s') := exchange r s in run (k o) s'
  | ReadCache k => run (k (cachedModel s)) s
  | WriteCache m k => run k (set_cache m s)
  | Console e k => run k (print e s)
  end.

(** Synchronous execution up to the next [fetch]. *)
Fixpoint settle {A : Type} (p : prog A) (s : state W) : prog A * state W :=
  match p with
  | ReadCache k => settle (k (cachedModel s)) s
  | WriteCache m k => settle k (set_cache m s)
  | Console e k => settle k (print e s)
  | _ => (p, s)
  end.

(** The answer to a pending [fetch] arrives. *)
Definition deliver {A : Type} (p : prog A) (s : state W) : prog A * state W :=
  match p with
  | Fetch r k => let (o, s') := exchange r s in settle (k o) s'
  | _ => (p, s)
  end.

(** Events of the event loop: a new call starts, or the answer for
    the [i]-th call in flight arrives. *)
Inductive tick (A : Type) : Type :=
| Start (p : prog A)
| Deliver (i : nat).

Fixpoint deliver_nth {A : Type} (i : nat) (pool : list (prog A))
    (s : state W) : list (prog A) * state W :=
  match pool, i with
  | [], _ => ([], s)
  | p :: rest, O => let (p', s') := deliver p s in (p' :: rest, s')
  | p :: rest, S j =>
      let (rest', s') := deliver_nth j rest s in (p :: rest', s')
  end.

Fixpoint run_schedule {A : Type} (ticks : list (tick A))
    (pool : list (prog A)) (s : state W) : list (prog A) * state W :=
  match ticks with
  | [] => (pool, s)
  | Start _ p :: rest =>
      let (p', s') := settle p s in
      run_schedule rest (pool ++ [p'])%list s'
  | Deliver _ i :: rest =>
      let (pool', s') := deliver_nth i pool s in
      run_schedule rest pool' s'
  end.

(** The exchanges made between an earlier state and a later one. *)
Definition added (s s' : state W) : list (request * fetch_outcome) :=
  skipn (length (trace s)) (trace s').

(** The answers of the network to a sequence of requests. *)
Fixpoint replies (w : W) (rs : list request) : list fetch_outcome * W :=
  match rs with
  | [] => ([], w)
  | r :: rs' =>
      let (o, w1) := respond w r in
      let (os, w2) := replies w1 rs' in
      (o :: os, w2)
  end.
End Run.

(** Every request a program can send satisfies [P], whatever the
    answers. *)
Inductive sends (P : request -> Prop) {A : Type} : prog A -> Prop :=
| sends_Ret : forall a, sends P (Ret a)
| sends_Throw : forall e, sends P (Throw e)
| sends_Fetch : forall r k,
    P r -> (forall o, sends P (k o)) -> sends P (Fetch r k)
| sends_ReadCache : forall k,
    (forall c, sends P (k c)) -> sends P (ReadCache k)
| sends_WriteCache : forall m k, sends P k -> sends P (WriteCache m k)
| sends_Console : forall e k, sends P k -> sends P (Console e k).

(** Every value a program can store in [cachedModel] satisfies [P]. *)
Inductive stores (P : json -> Prop) {A : Type} : prog A -> Prop :=
| stores_Ret : forall a, stores P (Ret a)
| stores_Throw : forall e, stores P (Throw e)
| stores_Fetch : forall r k,
    (forall o, stores P (k o)) -> stores P (Fetch r k)
| stores_ReadCache : forall k,
    (forall c, stores P (k c)) -> stores P (ReadCache k)
| stores_WriteCache : forall m k,
    P m -> stores P k -> stores P (WriteCache m k)
| stores_Console : forall e k, stores P k -> stores P (Console e k).

(** The body both servers post: [{ contents: [{ parts: [{ text:
    prompt }] }] }]. *)
Definition prompt_body (prompt : string) : json :=
  JObj [("contents",
         JArr [JObj [("parts", JArr [JObj [("text", JStr prompt)]])]])].

(** A generation request, if [r] is one, carries the prompt [p]. *)
Definition carries (p : string) (r : request) : Prop :=
  match r with
  | POST _ _ body => body = prompt_body p
  | GET _ _ => True
  end.

(** A generation request, if [r] is one, carries a prompt that is not
    empty. *)
Definition carries_text (r : request) : Prop :=
  match r with
  | POST _ _ body => exists p, body = prompt_body p /\ p <> ""
  | GET _ _ => True
  end.

Definition is_truthy (m : json) : Prop := truthy m = true.

Definition is_post (r : request) : bool :=
  match r with
  | POST _ _ _ => true
  | GET _ _ => false
  end.

(** The generation requests among some exchanges. *)
Definition posts (tr : list (request * fetch_outcome)) : list request :=
  filter is_post (map fst tr).

Arguments Start {A} p.
Arguments Deliver {A} i.

(** What the programs take from the runtime and the process
    environment: [JSON.parse] ([None] for a thrown SyntaxError) and the
    API key ([process.env.GEMINI_API_KEY], possibly unset). *)
Class Env : Type := {
  JSON_parse : string -> option json;
  GEMINI_API_KEY : option string
}.

End Async.

(* ================================================================== *)
(** ** The HTTP surface *)

Module Express.
Import JS Async.

(** What a route handler sends: [res.status(n).json(body)], the status
    being 200 for a bare [res.json(body)]. *)
Record response : Type := { status : Z; body : json }.

(** An object literal sent with [res.json]: a property whose value is
    [undefined] is left out by [JSON.stringify]. *)
Fixpoint literal (fields : list (string * jsval)) : list (string * json) :=
  match fields with
  | [] => []
  | (k, Some v) :: rest => (k, v) :: literal rest
  | (k, None) :: rest => literal rest
  end.

(** [const { k } = req.body].  What [express.json()] leaves in
    [req.body] for a request without a JSON body depends on the version
    of Express, which the repository does not fix here: the empty
    object, or [undefined].  Destructuring [undefined] or [null]
    throws. *)
Definition destructure (req_body : jsval) (k : string) : prog jsval :=
  match req_body with
  | None =>
      Throw {| err_name := "TypeError";
               message := "Cannot destructure property of undefined" |}
  | Some JNull =>
      Throw {| err_name := "TypeError";
               message := "Cannot destructure property of null" |}
  | Some b => Ret (get_prop b k)
  end.

(** [err.message || err], as a console argument and as a JSON field (an
    Error object has no enumerable property of its own). *)
Definition message_or_self_arg (err : js_error) : log_arg :=
  if message err =? "" then ArgErr err else ArgVal (JStr (message err)).

Definition message_or_self (err : js_error) : json :=
  if message err =? "" then JObj [] else JStr (message err).

End Express.

(* ================================================================== *)
(** ** The auto-selecting server *)

Module AutoSelect.
Import JS Async Express.
Local Open Scope prog_scope.

Section Server.
Context {env : Env}.

(** [${API_KEY}]; the process exits at start-up when the key is unset. *)
Definition API_KEY : string :=
  match GEMINI_API_KEY with
  | Some k => k
  | None => "undefined"
  end.

Definition CANDIDATE_MODELS : list string :=
  [ "gemini-2.5-pro";
    "gemini-2.5-flash";
    "gemini-1.5-pro";
    "gemini-1.5-flash";
    "gemini-1.0" ].

Definition list_endpoints : list string :=
  [ "https://generativelanguage.googleapis.com/v1beta/models";
    "https://generativelanguage.googleapis.com/v1/models" ].

(** The GET of [listAvailableModels]. *)
Definition list_request (url : string) : request :=
  GET url [("x-goog-api-key", API_KEY)].

(** [data.models || data] once one of [data?.models], [data?.model] is
    truthy. *)
Definition models_of (data : json) : json :=
  match get_prop data "models" with
  | Some v => if truthy v then v else data
  | None => data
  end.

(** One endpoint of [listAvailableModels]: [Some v] is [return v],
    [None] falls through to the next endpoint.  The second console line
    of a listing prints the JSON text of a value; the entry carries the
    value. *)
Definition list_one (url : string) : prog (option json) :=
  try_catch
    (res <- fetch (list_request url) ;;
     let text := snd res in
     match JSON_parse text with
     | Some data =>
         if truthy_val ((Some data)?."models" || (Some data)?."model")
         then
           log (line LogInfo (nl ++ "ℹ️ Models response from " ++ url ++ ":") []) ;;
           log {| level := LogInfo; args := [ArgVal (models_of data)] |} ;;
           Ret (Some (models_of data))
         else Ret None
     | None =>
         log (line LogWarn ("⚠️ Non-JSON models response from " ++ url ++ ":")
                [ArgVal (JStr (slice0 300 text))]) ;;
         Ret None
     end)
    (fun err =>
       log (line LogWarn ("⚠️ Could not list models from " ++ url ++ ":")
              [ArgVal (JStr (message err))]) ;;
       Ret None).

Fixpoint list_from (endpoints : list string) : prog json :=
  match endpoints with
  | [] =>
      log (line LogWarn
             "⚠️ Could not fetch the list of models from v1beta or v1." []) ;;
      Ret JNull
  | url :: rest =>
      r <- list_one url ;;
      match r with
      | Some v => Ret v
      | None => list_from rest
      end
  end.

Definition listAvailableModels : prog json := list_from list_endpoints.

(** The object [tryModelGenerate] returns; an absent field is
    [undefined]. *)
Record attempt : Type := {
  ok : bool;
  text : jsval;
  error : jsval;
  raw : option string;
  data : jsval
}.

Definition generate_url (modelId : string) : string :=
  "https://generativelanguage.googleapis.com/v1beta/models/" ++ modelId
    ++ ":generateContent?key=" ++ API_KEY.

Definition generate_request (modelId prompt : string) : request :=
  POST (generate_url modelId)
       [("Content-Type", "application/json"); ("x-goog-api-key", API_KEY)]
       (prompt_body prompt).

(** The paths [alt1] to [alt7] of [tryModelGenerate]. *)
Definition alt1 (d : jsval) : jsval :=
  d?."candidates"?.[0]?."content"?."parts"?.[0]?."text".
Definition alt2 (d : jsval) : jsval :=
  d?."candidates"?.[0]?."content"?.[0]?."text".
Definition alt3 (d : jsval) : jsval :=
  d?."candidates"?.[0]?."content"?."parts"?.[0]?."text".
Definition alt4 (d : jsval) : jsval :=
  d?."candidates"?.[0]?."text".
Definition alt5 (d : jsval) : jsval :=
  d?."output"?.[0]?."content"?.[0]?."text".
Definition alt6 (d : jsval) : jsval :=
  d?."content"?.[0]?."parts"?.[0]?."text".
Definition alt7 (d : jsval) : jsval :=
  d?."candidates"?.[0]?."message"?."content"?."parts"?.[0]?."text".

(** The paths in the order in which they are tried. *)
Definition alts (d : jsval) : list jsval :=
  [alt1 d; alt2 d; alt3 d; alt4 d; alt5 d; alt6 d; alt7 d].

(** [alt1 || alt2 || alt3 || alt4 || alt5 || alt6 || alt7 || null]. *)
Definition extract_text (data : json) : json :=
  let d := Some data in
  match alt1 d || alt2 d || alt3 d || alt4 d || alt5 d || alt6 d || alt7 d
        || Some JNull with
  | Some v => v
  | None => JNull
  end.

(** [tryModelGenerate] from [JSON.parse(raw)] to its [return]s inside
    the [try]: no effect happens there. *)
Definition parse_response (status : Z) (raw : string) : attempt :=
  match JSON_parse raw with
  | None =>
      {| ok := false; text := undefined;
         error := Some (JStr "Invalid JSON response");
         raw := Some raw; data := undefined |}
  | Some data =>
      let text := extract_text data in
      if status_ok status && truthy text then
        {| ok := true; text := Some text; error := undefined;
           raw := Some raw; data := Some data |}
      else if truthy_val ((Some data)?."error") then
        {| ok := false; text := undefined;
           error := get_prop data "error";
           raw := Some raw; data := Some data |}
      else
        {| ok := false; text := undefined;
           error := Some (JStr "No text found in response");
           raw := Some raw; data := Some data |}
  end.

(** The two console lines after [await res.text()]. *)
Definition response_lines (modelId : string) (status : Z) (raw : string)
  : list log_entry :=
  [ line LogInfo
      (nl ++ "➡️ Tried model: " ++ modelId ++ " -> status " ++ show_Z status) [];
    line LogInfo "Raw response (first 800 chars):"
      [ArgVal (JStr (slice0 800 raw))] ].

(** The [return] of the outer [catch]. *)
Definition caught (err : js_error) : attempt :=
  {| ok := false; text := undefined; error := Some (JStr (message err));
     raw := None; data := undefined |}.

Definition tryModelGenerate (modelId : json) (prompt : string)
  : prog attempt :=
  id <- template modelId ;;
  try_catch
    (res <- fetch (generate_request id prompt) ;;
     let raw := snd res in
     log (line LogInfo
            (nl ++ "➡️ Tried model: " ++ id ++ " -> status " ++ show_Z (fst res))
            []) ;;
     log (line LogInfo "Raw response (first 800 chars):"
            [ArgVal (JStr (slice0 800 raw))]) ;;
     Ret (parse_response (fst res) raw))
    (fun err => Ret (caught err)).

(** What an attempt makes of the outcome of its request, and whether
    it counts as a success. *)
Definition attempt_of (o : fetch_outcome) : attempt :=
  match o with
  | NetError err => caught err
  | Response status raw => parse_response status raw
  end.

Definition usable (o : fetch_outcome) : bool := ok (attempt_of o).

Definition attempt_lines (modelId : string) (o : fetch_outcome)
  : list log_entry :=
  match o with
  | NetError _ => []
  | Response status raw => response_lines modelId status raw
  end.

(** [attempt.error || "no-text"]. *)
Definition reason (a : attempt) : json :=
  match error a || Some (JStr "no-text") with
  | Some v => v
  | None => JStr "no-text"
  end.

Definition failure_line (model : string) (a : attempt) : log_entry :=
  line LogWarn ("✖ Model " ++ model ++ " failed:") [ArgVal (reason a)].

Definition found_line (model : string) : log_entry :=
  line LogInfo ("✅ Working model found: " ++ model) [].

(** The generation requests for some models, in order. *)
Definition attempts_on (models : list string) (prompt : string)
  : list request :=
  map (fun model => generate_request model prompt) models.

Definition all_unusable (outs : list fetch_outcome) : bool :=
  forallb (fun o => negb (usable o)) outs.

(** The test of [listed.find]: [/gemini/i.test(m?.name || m?.model ||
    m?.id || "")]; [None] when printing the argument throws. *)
Definition gemini_like (m : json) : option bool :=
  let v := (Some m)?."name" || (Some m)?."model" || (Some m)?."id"
           || Some (JStr "") in
  match v with
  | Some x => option_map (contains_ci "gemini") (to_string x)
  | None => Some false
  end.

(** [listed.find(..)]: the first element passing the test,
    [undefined] when there is none; the outer [None] is a throw of the
    test. *)
Fixpoint find_gemini (listed : list json) : option jsval :=
  match listed with
  | [] => Some undefined
  | m :: rest =>
      match gemini_like m with
      | None => None
      | Some true => Some (Some m)
      | Some false => find_gemini rest
      end
  end.

(** [geminiModel.name || geminiModel.model || geminiModel.id ||
    geminiModel] for a truthy [geminiModel]. *)
Definition id_of (geminiModel : json) : json :=
  match get_prop geminiModel "name" || get_prop geminiModel "model"
        || get_prop geminiModel "id" || Some geminiModel with
  | Some v => v
  | None => geminiModel
  end.

Definition no_usable_model : js_error :=
  Error "No usable Gemini model found for generateContent with this API key.".

(** The loop of [ensureWorkingModel] over the candidates; [rest] is
    the code after the loop. *)
Fixpoint try_candidates (models : list string) (promptForTest : string)
    (rest : prog json) : prog json :=
  match models with
  | [] => rest
  | model :: models' =>
      attempt <- tryModelGenerate (JStr model) promptForTest ;;
      if ok attempt then
        log (found_line model) ;;
        write_cache (JStr model) ;;
        Ret (JStr model)
      else
        log (failure_line model attempt) ;;
        try_candidates models' promptForTest rest
  end.

(** What the last resort settles on, from [Array.isArray(listed)] to
    the computation of [id]: nothing (a guard fails), a throw of the
    test of [find], or the [id] to try. *)
Inductive choice : Type :=
| NothingToTry
| TestThrew
| Chosen (id : json).

Definition choose (listed : json) : choice :=
  match listed with
  | JArr (first :: others) =>
      match find_gemini (first :: others) with
      | None => TestThrew
      | Some found =>
          match found || Some first with
          | Some geminiModel =>
              if truthy geminiModel then Chosen (id_of geminiModel)
              else NothingToTry
          | None => NothingToTry
          end
      end
  | _ => NothingToTry
  end.

Definition trying_line (shown : string) : log_entry :=
  line LogWarn ("⚠ Trying listed model id: " ++ shown) [].

Definition found_listed_line (shown : string) : log_entry :=
  line LogInfo ("✅ Working model found from list: " ++ shown) [].

(** The last resort of [ensureWorkingModel], after the loop. *)
Definition try_listed (promptForTest : string) : prog json :=
  listed <- listAvailableModels ;;
  match choose listed with
  | Chosen id =>
      shown <- template id ;;
      log (trying_line shown) ;;
      attempt2 <- tryModelGenerate id promptForTest ;;
      if ok attempt2 then
        write_cache id ;;
        log (found_listed_line shown) ;;
        Ret id
      else Throw no_usable_model
  | TestThrew => Throw TypeError_primitive
  | NothingToTry => Throw no_usable_model
  end.

(** [promptForTest] defaults to ["Say hello"] when the argument is
    [undefined]. *)
Definition ensureWorkingModel (promptForTest : option string) : prog json :=
  let promptForTest := match promptForTest with
                       | Some p => p
                       | None => "Say hello"
                       end in
  cached <- read_cache ;;
  if truthy cached then Ret cached
  else try_candidates CANDIDATE_MODELS promptForTest (try_listed promptForTest).

(** [new Error(v)]: the message is [String(v)]. *)
Definition new_Error (v : json) : prog js_error :=
  msg <- template v ;; Ret (Error msg).

Definition callGemini (prompt : string) : prog jsval :=
  modelId <- ensureWorkingModel (Some prompt) ;;
  result <- tryModelGenerate modelId prompt ;;
  if ok result then Ret (text result)
  else
    err <- new_Error match error result || Some (JStr "Gemini call failed") with
                     | Some v => v
                     | None => JStr "Gemini call failed"
                     end ;;
    Throw err.

(** What [callGemini] makes of the outcome of its own request: the
    text of the attempt, or the error it throws. *)
Definition thrown_for (a : attempt) : js_error :=
  let v := match error a || Some (JStr "Gemini call failed") with
           | Some v => v
           | None => JStr "Gemini call failed"
           end in
  match to_string v with
  | Some msg => Error msg
  | None => TypeError_primitive
  end.

Definition call_result (o : fetch_outcome) : result jsval :=
  if usable o then Returned (text (attempt_of o))
  else Thrown (thrown_for (attempt_of o)).

(** No generation attempt among these exchanges has succeeded. *)
Definition no_success (tr : list (request * fetch_outcome)) : Prop :=
  Forall (fun x => is_post (fst x) = true -> usable (snd x) = false) tr.

(** The one generation request of the last resort, if it makes one. *)
Definition last_resort (listed : json) (prompt : string) : list request :=
  match choose listed with
  | Chosen id =>
      match to_string id with
      | Some shown => [generate_request shown prompt]
      | None => []
      end
  | _ => []
  end.

Definition failed (where_ : string) (err : js_error) : prog response :=
  log (line LogError ("Error in " ++ where_ ++ ":") [message_or_self_arg err]) ;;
  Ret {| status := 500;
         body := JObj [("error", JStr "Gemini request failed");
                       ("details", message_or_self err)] |}.

Definition text_required : response :=
  {| status := 400; body := JObj [("error", JStr "Text required")] |}.

(** The prompt templates of the three routes, [shown] being
    [${text}]. *)
Definition humanize_prompt (shown : string) : string :=
  "Make this text sound natural and human-like:" ++ nl ++ nl ++ shown.

Definition summarize_prompt (shown : string) : string :=
  "Summarize this in 3-4 concise sentences:" ++ nl ++ nl ++ shown.

Definition tone_prompt (tone shown : string) : string :=
  "Rewrite the following text in a " ++ tone ++ " tone:" ++ nl ++ nl ++ shown.

(** POST /api/humanize *)
Definition humanize (req_body : jsval) : prog response :=
  text <- destructure req_body "text" ;;
  match text with
  | Some t =>
      if truthy t then
        try_catch
          (shown <- template t ;;
           let prompt := humanize_prompt shown in
           output <- callGemini prompt ;;
           Ret {| status := 200;
                  body := JObj (literal [("original", text);
                                         ("humanized", output)]) |})
          (failed "/api/humanize")
      else Ret text_required
  | None => Ret text_required
  end.

(** POST /api/summarize *)
Definition summarize (req_body : jsval) : prog response :=
  text <- destructure req_body "text" ;;
  match text with
  | Some t =>
      if truthy t then
        try_catch
          (shown <- template t ;;
           let prompt := summarize_prompt shown in
           output <- callGemini prompt ;;
           Ret {| status := 200;
                  body := JObj (literal [("original", text);
                                         ("summary", output)]) |})
          (failed "/api/summarize")
      else Ret text_required
  | None => Ret text_required
  end.

Definition text_and_mode_required : response :=
  {| status := 400; body := JObj [("error", JStr "Text and mode required")] |}.

(** [mode === "formal" ? "Formal" : "Casual"]. *)
Definition tone_of (mode : json) : string :=
  if strict_eq_string mode "formal" then "Formal" else "Casual".

(** POST /api/tone *)
Definition tone (req_body : jsval) : prog response :=
  text <- destructure req_body "text" ;;
  mode <- destructure req_body "mode" ;;
  match text, mode with
  | Some t, Some m =>
      if truthy t && truthy m then
        try_catch
          (let tone := tone_of m in
           shown <- template t ;;
           let prompt := tone_prompt tone shown in
           output <- callGemini prompt ;;
           Ret {| status := 200;
                  body := JObj (literal [("original", text);
                                         ("toned", output)]) |})
          (failed "/api/tone")
      else Ret text_and_mode_required
  | _, _ => Ret text_and_mode_required
  end.
End Server.

Section Calls.
Context {env : Env} {W : Type}.
Variable respond : W -> request -> fetch_outcome * W.

(** Calls of [callGemini] made one after the other, each one
    completing before the next starts: the state they leave. *)
Fixpoint run_calls (prompts : list string) (s : state W) : state W :=
  match prompts with
  | [] => s
  | p :: rest => run_calls rest (snd (run respond (callGemini p) s))
  end.

(** A schedule in which every call that starts is a call of
    [callGemini]. *)
Definition only_calls (ticks : list (tick jsval)) : Prop :=
  Forall (fun t => match t with
                   | Start p => exists prompt, p = callGemini prompt
                   | Deliver _ => True
                   end) ticks.

(** Either a model is returned and cached, its successful attempt
    being the last exchange and the first success, or the resolution
    throws, nothing has succeeded and [cachedModel] is as before. *)
Definition resolution_ends (p : string) (s : state W)
    (out : result json * state W) : Prop :=
  (exists (m : json) (id : string) (tr : list (request * fetch_outcome))
          (o : fetch_outcome),
      fst out = Returned m /\ to_string m = Some id /\ truthy m = true /\
      cachedModel (snd out) = m /\
      trace (snd out) = (trace s ++ tr ++ [(generate_request id p, o)])%list /\
      no_success tr /\ usable o = true) \/
  (exists (e : js_error) (tr : list (request * fetch_outcome)),
      fst out = Thrown e /\ cachedModel (snd out) = cachedModel s /\
      trace (snd out) = (trace s ++ tr)%list /\ no_success tr).
End Calls.
End AutoSelect.

(* ================================================================== *)
(** ** The plain server of backend/server.js *)

Module Backend.
Import JS Async Express.
Local Open Scope prog_scope.

Section Server.
Context {env : Env}.

(** [${GEMINI_API_KEY}]. *)
Definition key_text : string :=
  match GEMINI_API_KEY with
  | Some k => k
  | None => "undefined"
  end.

Definition GEMINI_MODELS : list string :=
  [ "gemini-pro:generateContent";
    "gemini-1.5-flash:generateContent" ].

Definition generate_request (model prompt : string) : request :=
  POST ("https://generativelanguage.googleapis.com/v1beta/models/" ++ model
          ++ "?key=" ++ key_text)
       [("Content-Type", "application/json")]
       (prompt_body prompt).

(** [data?.candidates?.[0]?.content?.parts?.[0]?.text]. *)
Definition result_of (data : json) : jsval :=
  (Some data)?."candidates"?.[0]?."content"?."parts"?.[0]?."text".

(** One turn of the loop of [callGeminiAPI]: [Some v] is [return v],
    [None] goes on with the next model. *)
Definition try_model (model prompt : string) : prog (option json) :=
  try_catch
    (response <- fetch (generate_request model prompt) ;;
     let raw := snd response in
     if negb (status_ok (fst response)) then
       log (line LogError
              ("❌ Gemini API Raw Response (model: " ++ model ++ "):")
              [ArgVal (JStr raw)]) ;;
       Ret None
     else
       match JSON_parse raw with
       | None => Throw SyntaxError_json
       | Some data =>
           match result_of data with
           | Some result => if truthy result then Ret (Some result) else Ret None
           | None => Ret None
           end
       end)
    (fun err =>
       log (line LogError ("❌ Network/Error with model " ++ model ++ ":")
              [ArgErr err]) ;;
       Ret None).

(** What a turn of the loop makes of the outcome of its request
    ([Some v]: [return v]), and the console lines it writes. *)
Definition verdict (o : fetch_outcome) : option json :=
  match o with
  | NetError _ => None
  | Response status raw =>
      if negb (status_ok status) then None
      else
        match JSON_parse raw with
        | None => None
        | Some data =>
            match result_of data with
            | Some result => if truthy result then Some result else None
            | None => None
            end
        end
  end.

Definition usable (o : fetch_outcome) : bool :=
  match verdict o with
  | Some _ => true
  | None => false
  end.

Definition error_line (model : string) (err : js_error) : log_entry :=
  line LogError ("❌ Network/Error with model " ++ model ++ ":") [ArgErr err].

Definition raw_line (model raw : string) : log_entry :=
  line LogError ("❌ Gemini API Raw Response (model: " ++ model ++ "):")
    [ArgVal (JStr raw)].

Definition turn_lines (model : string) (o : fetch_outcome)
  : list log_entry :=
  match o with
  | NetError err => [error_line model err]
  | Response status raw =>
      if negb (status_ok status) then [raw_line model raw]
      else
        match JSON_parse raw with
        | None => [error_line model SyntaxError_json]
        | Some _ => []
        end
  end.

Definition attempts_on (models : list string) (prompt : string)
  : list request :=
  map (fun model => generate_request model prompt) models.

(** No generation attempt among these exchanges has succeeded. *)
Definition no_success (tr : list (request * fetch_outcome)) : Prop :=
  Forall (fun x => is_post (fst x) = true -> usable (snd x) = false) tr.

Definition all_failed : js_error :=
  Error ("All Gemini models failed or returned no result. "
           ++ "Check your API key and internet connection.").

Fixpoint try_models (models : list string) (prompt : string) : prog json :=
  match models with
  | [] => Throw all_failed
  | model :: rest =>
      r <- try_model model prompt ;;
      match r with
      | Some result => Ret result
      | None => try_models rest prompt
      end
  end.

Definition callGeminiAPI (prompt : string) : prog json :=
  try_models GEMINI_MODELS prompt.

Definition failed (what : string) (error : js_error) : prog response :=
  log (line LogError (what ++ " Error:") [ArgErr error]) ;;
  Ret {| status := 500;
         body := JObj [("error", JStr "Error contacting Gemini API")] |}.

Definition text_required : response :=
  {| status := 400; body := JObj [("error", JStr "Text is required")] |}.

(** The prompt templates of the three routes, [shown] being
    [${text}]. *)
Definition humanize_prompt (shown : string) : string :=
  "Paraphrase this text to sound natural:" ++ nl ++ shown.

Definition summarize_prompt (shown : string) : string :=
  "Summarize this text in 3-4 concise sentences:" ++ nl ++ shown.

Definition tone_prompt (tone shown : string) : string :=
  "Rewrite this text in a " ++ tone ++ " tone:" ++ nl ++ shown.

(** POST /api/humanize *)
Definition humanize (req_body : jsval) : prog response :=
  try_catch
    (text <- destructure req_body "text" ;;
     match text with
     | Some t =>
         if truthy t then
           shown <- template t ;;
           result <- callGeminiAPI (humanize_prompt shown) ;;
           Ret {| status := 200; body := JObj [("result", result)] |}
         else Ret text_required
     | None => Ret text_required
     end)
    (failed "Humanize").

(** POST /api/summarize *)
Definition summarize (req_body : jsval) : prog response :=
  try_catch
    (text <- destructure req_body "text" ;;
     match text with
     | Some t =>
         if truthy t then
           shown <- template t ;;
           result <- callGeminiAPI (summarize_prompt shown) ;;
           Ret {| status := 200; body := JObj [("result", result)] |}
         else Ret text_required
     | None => Ret text_required
     end)
    (failed "Summarize").

Definition text_and_mode_required : response :=
  {| status := 400; body := JObj [("error", JStr "Text and mode required")] |}.

(** [mode === "formal" ? "formal" : "casual"]. *)
Definition tone_of (mode : json) : string :=
  if strict_eq_string mode "formal" then "formal" else "casual".

(** POST /api/tone *)
Definition tone (req_body : jsval) : prog response :=
  try_catch
    (text <- destructure req_body "text" ;;
     mode <- destructure req_body "mode" ;;
     match text, mode with
     | Some t, Some m =>
         if truthy t && truthy m then
           let tone := tone_of m in
           shown <- template t ;;
           result <- callGeminiAPI (tone_prompt tone shown) ;;
           Ret {| status := 200; body := JObj [("result", result)] |}
         else Ret text_and_mode_required
     | _, _ => Ret text_and_mode_required
     end)
    (failed "Tone").
End Server.
End Backend.

(* ================================================================== *)
(** ** A concrete runtime and concrete networks, for running the servers *)

Module Samples.
Import JS Async.

Definition dq : string := String "034"%char EmptyString.

(** Compact JSON text of a value whose strings need no escape. *)
Fixpoint stringify (v : json) : string :=
  match v with
  | JNull => "null"
  | JBool true => "true"
  | JBool false => "false"
  | JNum r => r
  | JStr s => dq ++ s ++ dq
  | JArr items =>
      "[" ++ (fix elems (l : list json) : string :=
                match l with
                | [] => ""
                | x :: rest =>
                    match rest with
                    | [] => stringify x
                    | _ :: _ => stringify x ++ "," ++ elems rest
                    end
                end) items ++ "]"
  | JObj props =>
      "{" ++ (fix members (l : list (string * json)) : string :=
                match l with
                | [] => ""
                | (k, x) :: rest =>
                    match rest with
                    | [] => dq ++ k ++ dq ++ ":" ++ stringify x
                    | _ :: _ => dq ++ k ++ dq ++ ":" ++ stringify x ++ ","
                                  ++ members rest
                    end
                end) props ++ "}"
  end.

(** A provider answer carrying [t] at the first path. *)
Definition answer (t : json) : json :=
  JObj [("candidates",
         JArr [JObj [("content", JObj [("parts", JArr [JObj [("text", t)]])])]])].

(** A provider answer carrying [t] at the fourth path only. *)
Definition short_answer (t : json) : json :=
  JObj [("candidates", JArr [JObj [("text", t)]])].

Definition unavailable : json :=
  JObj [("error", JObj [("code", JNum "503"); ("status", JStr "UNAVAILABLE")])].

Definition listing (names : list string) : json :=
  JObj [("models", JArr (map (fun n => JObj [("name", JStr n)]) names))].

(** The bodies the sample runtime can parse. *)
Definition bodies : list json :=
  [ answer (JStr "Hi there");
    answer (JStr "Something else");
    short_answer (JNum "42");
    JObj [];
    unavailable;
    listing ["models/text-bison"; "models/Gemini-nano"];
    listing ["models/text-bison"] ].

(** [JSON.parse] restricted to a table of bodies: the value whose JSON
    text is [raw]; any other text is treated as not being JSON. *)
Definition parse_table (table : list json) (raw : string) : option json :=
  find (fun v => stringify v =? raw) table.

Definition sample_env : Env :=
  {| JSON_parse := parse_table bodies; GEMINI_API_KEY := Some "KEY" |}.

(** A network that gives the listed outcomes to the successive requests,
    then refuses connections. *)
Definition refused : fetch_outcome := NetError (Error "connect ECONNREFUSED").

Definition scripted (w : list fetch_outcome) (r : request)
  : fetch_outcome * list fetch_outcome :=
  match w with
  | [] => (refused, [])
  | o :: w' => (o, w')
  end.

Definition boot {W : Type} (w : W) : state W :=
  {| cachedModel := JNull; net := w; trace := []; console := [] |}.

Definition ok200 (v : json) : fetch_outcome := Response 200 (stringify v).

Definition busy : fetch_outcome := Response 503 (stringify unavailable).

Definition hi_there : fetch_outcome := ok200 (answer (JStr "Hi there")).

Definition something_else : fetch_outcome :=
  ok200 (answer (JStr "Something else")).

(** The second candidate is the first to answer, and the request that
    follows the resolution gets another text. *)
Definition second_answers : state (list fetch_outcome) :=
  boot [busy; hi_there; something_else].

(** The first candidate answers at once; the next answer differs. *)
Definition first_answers : state (list fetch_outcome) :=
  boot [hi_there; something_else].

(** Nothing can be reached. *)
Definition offline : state (list fetch_outcome) := boot [].

(** A success status with a number where the text should be. *)
Definition number_for_text : state (list fetch_outcome) :=
  boot [ok200 (short_answer (JNum "42")); ok200 (short_answer (JNum "42"))].

(** A success status without any text, then a usable answer. *)
Definition empty_then_text : state (list fetch_outcome) :=
  boot [ok200 (JObj []); hi_there].

(** The five candidates are busy, the listing names two models, and the
    listed model answers. *)
Definition only_listed_answers : state (list fetch_outcome) :=
  boot [busy; busy; busy; busy; busy;
        ok200 (listing ["models/text-bison"; "models/Gemini-nano"]);
        hi_there].

(** Two calls in flight at once: both start before any answer arrives;
    the first call gets a usable answer from the first candidate, the
    second call gets 503 from the first candidate and then a usable
    answer from the second candidate. *)
Definition overlapping_calls (env : Env) : list (tick jsval) :=
  [ Start (@AutoSelect.callGemini env "first call");
    Start (@AutoSelect.callGemini env "second call");
    Deliver 0; Deliver 1; Deliver 1 ].

Definition overlapping_answers : state (list fetch_outcome) :=
  boot [hi_there; busy; hi_there].

End Samples.

(* ================================================================== *)
(** ** Bounds on what a program does *)

Module Limits.
Import JS Async.

(** On every path a program makes at most [n] exchanges, whatever the
    answers and the cached value. *)
Inductive within {A : Type} : nat -> prog A -> Prop :=
| within_Ret : forall n a, within n (Ret a)
| within_Throw : forall n e, within n (Throw e)
| within_Fetch : forall n r k,
    (forall o, within n (k o)) -> within (S n) (Fetch r k)
| within_ReadCache : forall n k,
    (forall c, within n (k c)) -> within n (ReadCache k)
| within_WriteCache : forall n m k, within n k -> within n (WriteCache m k)
| within_Console : forall n e k, within n k -> within n (Console e k).

(** A program neither reads nor writes [cachedModel]. *)
Inductive cacheless {A : Type} : prog A -> Prop :=
| cacheless_Ret : forall a, cacheless (Ret a)
| cacheless_Throw : forall e, cacheless (Throw e)
| cacheless_Fetch : forall r k,
    (forall o, cacheless (k o)) -> cacheless (Fetch r k)
| cacheless_Console : forall e k, cacheless k -> cacheless (Console e k).

(** Every value a program stores is [ok] of the exchanges it has made
    itself by then, and what it returns satisfies [post] of them;
    [seen] holds the exchanges it made before this point. *)
Inductive justified {A : Type}
    (ok : list (request * fetch_outcome) -> json -> Prop)
    (post : list (request * fetch_outcome) -> A -> Prop)
  : list (request * fetch_outcome) -> prog A -> Prop :=
| justified_Ret : forall seen a, post seen a -> justified ok post seen (Ret a)
| justified_Throw : forall seen e, justified ok post seen (Throw e)
| justified_Fetch : forall seen r k,
    (forall o, justified ok post (seen ++ [(r, o)])%list (k o)) ->
    justified ok post seen (Fetch r k)
| justified_ReadCache : forall seen k,
    (forall c, justified ok post seen (k c)) ->
    justified ok post seen (ReadCache k)
| justified_WriteCache : forall seen m k,
    ok seen m -> justified ok post seen k ->
    justified ok post seen (WriteCache m k)
| justified_Console : forall seen e k,
    justified ok post seen k -> justified ok post seen (Console e k).

(** The calls in flight, each having made exchanges of its own among
    the exchanges [tr] made so far. *)
Definition in_flight {A : Type}
    (ok : list (request * fetch_outcome) -> json -> Prop)
    (tr : list (request * fetch_outcome)) (pool : list (prog A)) : Prop :=
  Forall (fun p => exists seen, incl seen tr /\
                                justified ok (fun _ _ => True) seen p) pool.

(** Whatever a program returns satisfies [P]; it may throw. *)
Inductive returns {A : Type} (P : A -> Prop) : prog A -> Prop :=
| returns_Ret : forall a, P a -> returns P (Ret a)
| returns_Throw : forall e, returns P (Throw e)
| returns_Fetch : forall r k,
    (forall o, returns P (k o)) -> returns P (Fetch r k)
| returns_ReadCache : forall k,
    (forall c, returns P (k c)) -> returns P (ReadCache k)
| returns_WriteCache : forall m k, returns P k -> returns P (WriteCache m k)
| returns_Console : forall e k, returns P k -> returns P (Console e k).

(** A program throws nothing: every path ends in a [return], of a
    value that satisfies [P]. *)
Inductive answers {A : Type} (P : A -> Prop) : prog A -> Prop :=
| answers_Ret : forall a, P a -> answers P (Ret a)
| answers_Fetch : forall r k,
    (forall o, answers P (k o)) -> answers P (Fetch r k)
| answers_ReadCache : forall k,
    (forall c, answers P (k c)) -> answers P (ReadCache k)
| answers_WriteCache : forall m k, answers P k -> answers P (WriteCache m k)
| answers_Console : forall e k, answers P k -> answers P (Console e k).

(** The statuses the handlers send. *)
Definition known_status (resp : Express.response) : Prop :=
  Express.status resp = 200%Z \/ Express.status resp = 400%Z \/
  Express.status resp = 500%Z.

(** The statuses of a request that passed the validation. *)
Definition processed_status (resp : Express.response) : Prop :=
  Express.status resp = 200%Z \/ Express.status resp = 500%Z.

(** What a handler is, by the body it receives: on [undefined] and
    [null] the destructuring throws; a body that fails the validation
    gets the 400 response and nothing else happens; any other body
    gets an answer with status 200 or 500. *)
Definition handling (h : JS.jsval -> prog Express.response) (req_body : JS.jsval)
  : Prop :=
  (req_body = None \/ req_body = Some JS.JNull) \/
  (exists resp, h req_body = Ret resp /\ Express.status resp = 400%Z) \/
  ((exists b, req_body = Some b /\ b <> JS.JNull) /\
   answers processed_status (h req_body)).

End Limits.

(* ================================================================== *)
(** ** Registration of the routes and start-up *)

Module Wiring.
Import JS Async Express.
Local Open Scope prog_scope.

Section Server.
Context {env : Env}.

(** The [app.post] registrations of the auto-selecting server, in the
    order of the file. *)
Definition auto_select_routes : list (string * (jsval -> prog response)) :=
  [ ("/api/humanize", AutoSelect.humanize);
    ("/api/summarize", AutoSelect.summarize);
    ("/api/tone", AutoSelect.tone) ].

(** The [app.post] registrations of backend/server.js. *)
Definition backend_routes : list (string * (jsval -> prog response)) :=
  [ ("/api/humanize", Backend.humanize);
    ("/api/summarize", Backend.summarize);
    ("/api/tone", Backend.tone) ].

(** The callback of [app.listen] of the auto-selecting server; [port]
    is [${PORT}]. *)
Definition on_listen (port : string) : prog unit :=
  log (line LogInfo ("Server listening on http://localhost:" ++ port) []) ;;
  log (line LogInfo "Attempting to list available models (for debugging)..."
         []) ;;
  _ <- AutoSelect.listAvailableModels ;;
  Ret tt.

(** What one endpoint of [listAvailableModels] makes of the outcome of
    its GET ([Some v]: [return v]). *)
Definition listing_of (o : fetch_outcome) : option json :=
  match o with
  | NetError _ => None
  | Response _ raw =>
      match JSON_parse raw with
      | Some data =>
          if truthy_val ((Some data)?."models" || (Some data)?."model")
          then Some (AutoSelect.models_of data)
          else None
      | None => None
      end
  end.

(** The two GETs of [listAvailableModels]. *)
Definition v1beta : request :=
  AutoSelect.list_request
    "https://generativelanguage.googleapis.com/v1beta/models".

Definition v1 : request :=
  AutoSelect.list_request "https://generativelanguage.googleapis.com/v1/models".

Definition url_of (r : request) : string :=
  match r with
  | GET url _ => url
  | POST url _ _ => url
  end.

Definition headers_of (r : request) : list (string * string) :=
  match r with
  | GET _ headers => headers
  | POST _ headers _ => headers
  end.

(** The origin of every URL the servers build. *)
Definition provider : string := "https://generativelanguage.googleapis.com/".

(** The requests the auto-selecting server builds: a generation
    request for some model id, or one of the two listings. *)
Definition auto_select_request (r : request) : Prop :=
  (exists id prompt, r = AutoSelect.generate_request id prompt) \/
  In r (map AutoSelect.list_request AutoSelect.list_endpoints).

(** The requests the plain server builds. *)
Definition backend_request (r : request) : Prop :=
  exists model prompt,
    In model Backend.GEMINI_MODELS /\
    r = Backend.generate_request model prompt.

(** What [cachedModel] can be given, by the exchanges made: a truthy
    value that prints as the model id of a generation attempt among
    them that succeeded, and that is either the name of a candidate or
    the id chosen from the listing that one of the two listing requests
    among them returned. *)
Definition cacheable (seen : list (request * fetch_outcome)) (m : json)
  : Prop :=
  truthy m = true /\
  exists (id prompt : string) (o : fetch_outcome),
    to_string m = Some id /\
    In (AutoSelect.generate_request id prompt, o) seen /\
    AutoSelect.usable o = true /\
    ((In id AutoSelect.CANDIDATE_MODELS /\ m = JStr id) \/
     (exists (url : string) (o' : fetch_outcome) (listed : json),
         In url AutoSelect.list_endpoints /\
         In (AutoSelect.list_request url, o') seen /\
         listing_of o' = Some listed /\
         AutoSelect.choose listed = AutoSelect.Chosen m)).
End Server.
End Wiring.

(* ================================================================== *)
(** ** The page script, first variant *)

Module Frontend.
Import JS Async Express.
Local Open Scope prog_scope.

(** What the script takes from the browser: [JSON.stringify] on a
    value read with [res.json()], [String.prototype.trim], and the
    four [replace] calls that turn the text into HTML. *)
Class Page : Type := {
  JSON_stringify : json -> string;
  trim : string -> string;
  render : string -> string
}.

Section Script.
Context {page : Page}.

(** [if (data.k) return data.k]: [Some v] is the [return]. *)
Definition returned_field (data : json) (k : string) : option json :=
  match get_prop data k with
  | Some v => if truthy v then Some v else None
  | None => None
  end.

(** [c?.content?.parts?.[0]?.text || c?.content?.[0]?.text || c?.text]. *)
Definition nested_text (c : json) : jsval :=
  (Some c)?."content"?."parts"?.[0]?."text"
  || (Some c)?."content"?.[0]?."text"
  || (Some c)?."text".

(** The end of [extractTextFromResponse]: the [candidates] block and
    the fallback to [JSON.stringify(data)], which cannot throw on a
    value read from JSON. *)
Definition from_candidates (data : json) : json :=
  let fallback := JStr (JSON_stringify data) in
  match get_prop data "candidates" with
  | Some (JArr (c :: _)) =>
      if truthy c then
        match nested_text c with
        | Some p => if truthy p then p else fallback
        | None => fallback
        end
      else fallback
  | _ => fallback
  end.

Definition extractTextFromResponse (data : json) : json :=
  if negb (truthy data) then JNull
  else
    match data with
    | JStr _ => data
    | _ =>
        match returned_field data "result" with
        | Some v => v
        | None =>
        match returned_field data "humanized" with
        | Some v => v
        | None =>
        match returned_field data "humanizedText" with
        | Some v => v
        | None =>
        match returned_field data "summary" with
        | Some v => v
        | None =>
        match returned_field data "toned" with
        | Some v => v
        | None =>
        match returned_field data "output" with
        | Some v => v
        | None => from_candidates data
        end end end end end end
    end.

(** What [processText] leaves on the page once the answer is there. *)
Inductive shown_as : Type :=
| NoText
| Html (html : string)
| Unreachable.

(** [processText] from [const out = extractTextFromResponse(data)] to
    its end, for an answer with [res.ok] whose body is [data]:
    [out.replace] is a function only when [out] is a string, and the
    [TypeError] of calling anything else is caught by the [catch] that
    reports a backend out of reach. *)
Definition processText_shows (data : json) : shown_as :=
  let out := extractTextFromResponse data in
  if negb (truthy out) then NoText
  else
    match out with
    | JStr text => Html (render text)
    | _ => Unreachable
    end.

(** What [processText] does before it waits for the answer: the alert
    for an empty text, or the POST to [http://localhost:5000] ++
    [endpoint] with [body]. *)
Inductive submission : Type :=
| Alerted
| Sent (endpoint : string) (body : json).

Definition is_action (action : option string) (name : string) : bool :=
  match action with
  | Some a => a =? name
  | None => false
  end.

(** [processText(action)] from its first line to the [fetch]; [value]
    is [inputText.value] and [action] is [undefined] when the button
    has no [data-action]. *)
Definition processText_request (value : string) (action : option string)
  : submission :=
  let text := trim value in
  if text =? "" then Alerted
  else
    let endpoint := if is_action action "summarize" then "/api/summarize"
                    else "/api/humanize" in
    match action with
    | Some a =>
        if orb (a =? "formal") (a =? "casual")
        then Sent "/api/tone" (JObj [("text", JStr text); ("mode", JStr a)])
        else Sent endpoint (JObj [("text", JStr text)])
    | None => Sent endpoint (JObj [("text", JStr text)])
    end.
End Script.
End Frontend.

(* ================================================================== *)
(** ** The page script, second variant *)

Module FrontendPlain.
Import JS Async Express.

(** The [payload] of [runAI(text, action)]. *)
Definition payload (text : string) (action : option string) : json :=
  match action with
  | Some a =>
      if (a =? "formal") || (a =? "casual")
      then JObj [("text", JStr text); ("mode", JStr a)]
      else JObj [("text", JStr text)]
  | None => JObj [("text", JStr text)]
  end.

(** The path of the URL of [runAI]: [/api/] followed by ["tone"] or by
    [${action}]. *)
Definition path_of (action : option string) : string :=
  "/api/" ++
  match action with
  | Some a => if (a =? "formal") || (a =? "casual") then "tone" else a
  | None => "undefined"
  end.

(** [data.result], which [runAI] puts on the page, for a [data] that
    is not [null]. *)
Definition shown (data : json) : jsval := get_prop data "result".

End FrontendPlain.

(* ================================================================== *)
(** ** A concrete page, for running the scripts *)

Module PageSamples.
Import JS.

(** The ASCII characters [trim] removes. *)
Definition is_space (c : ascii) : bool :=
  ((c =? " ") || (c =? "009") || (c =? "010") || (c =? "011")
   || (c =? "012") || (c =? "013"))%char.

Fixpoint trim_start (s : string) : string :=
  match s with
  | String c rest => if is_space c then trim_start rest else s
  | EmptyString => s
  end.

Fixpoint trim_end (s : string) : string :=
  match s with
  | EmptyString => EmptyString
  | String c rest =>
      match trim_end rest with
      | EmptyString => if is_space c then EmptyString
                       else String c EmptyString
      | kept => String c kept
      end
  end.

(** [trim] on ASCII text, [JSON.stringify] on values whose strings
    need no escape, and the rendering of a text of one line that starts
    with neither a heading nor a quotation mark-up. *)
Definition sample_page : Frontend.Page :=
  {| Frontend.JSON_stringify := Samples.stringify;
     Frontend.trim := fun s => trim_end (trim_start s);
     Frontend.render := fun s => s |}.

End PageSamples.

(* ================================================================== *)
(** ** What a handler does with a request *)

Module Outcomes.
Import JS Async Express.

Section Run.
Context {W : Type}.
Variable respond : W -> request -> fetch_outcome * W.

(** A handler answers 200 or 500 and every generation request it sends
    carries [prompt]. *)
Definition reaches (q : prog response) (prompt : string) (s : state W)
  : Prop :=
  (exists resp, fst (run respond q s) = Returned resp /\
                (status resp = 200%Z \/ status resp = 500%Z)) /\
  Forall (fun x => carries prompt (fst x)) (added s (snd (run respond q s))).

(** A handler answers 500 and sends nothing. *)
Definition gives_up (q : prog response) (s : state W) : Prop :=
  (exists resp, fst (run respond q s) = Returned resp /\
                status resp = 500%Z) /\
  added s (snd (run respond q s)) = [].
End Run.
End Outcomes.

(* ================================================================== *)
(** ** Running programs: general facts *)

Module RunFacts.
Import JS Async.

Section Facts.
Context {W : Type} (respond : W -> request -> fetch_outcome * W).

Lemma run_bind {A B : Type} (p : prog A) (f : A -> prog B) (s : state W) :
  run respond (bind p f) s =
  match run respond p s with
  | (Returned a, s') => run respond (f a) s'
  | (Thrown e, s') => (Thrown e, s')
  end.
Proof.
  revert s; induction p as [a|e|r k IH|k IH|m k IH|e k IH]; intros s; simpl;
    try reflexivity; try apply IH.
  destruct (exchange respond r s) as [o s']. apply IH.
Qed.

Lemma run_try_catch {A : Type} (p : prog A) (h : js_error -> prog A)
    (s : state W) :
  run respond (try_catch p h) s =
  match run respond p s with
  | (Returned a, s') => (Returned a, s')
  | (Thrown e, s') => run respond (h e) s'
  end.
Proof.
  revert s; induction p as [a|e|r k IH|k IH|m k IH|e k IH]; intros s; simpl;
    try reflexivity; try apply IH.
  destruct (exchange respond r s) as [o s']. apply IH.
Qed.

Lemma exchange_eq (r : request) (s : state W) :
  exchange respond r s =
  (fst (respond (net s) r),
   {| cachedModel := cachedModel s; net := snd (respond (net s) r);
      trace := (trace s ++ [(r, fst (respond (net s) r))])%list;
      console := console s |}).
Proof. unfold exchange. destruct (respond (net s) r); reflexivity. Qed.

(** A run only appends to the trace and to the console. *)
Lemma run_extends {A : Type} (p : prog A) (s : state W) :
  exists tr lines,
    trace (snd (run respond p s)) = (trace s ++ tr)%list /\
    console (snd (run respond p s)) = (console s ++ lines)%list.
Proof.
  revert s; induction p as [a|e|r k IH|k IH|m k IH|e k IH]; intros s; simpl.
  - exists [], []. now rewrite !app_nil_r.
  - exists [], []. now rewrite !app_nil_r.
  - rewrite exchange_eq.
    destruct (IH (fst (respond (net s) r))
                {| cachedModel := cachedModel s;
                   net := snd (respond (net s) r);
                   trace := (trace s ++ [(r, fst (respond (net s) r))])%list;
                   console := console s |}) as (tr & lines & Ht & Hc).
    exists ((r, fst (respond (net s) r)) :: tr), lines.
    rewrite Ht, Hc. simpl. now rewrite <- app_assoc.
  - apply IH.
  - destruct (IH (set_cache m s)) as (tr & lines & Ht & Hc). eauto.
  - destruct (IH (print e s)) as (tr & lines & Ht & Hc).
    exists tr, (e :: lines). rewrite Ht, Hc. simpl.
    now rewrite <- app_assoc.
Qed.

Lemma added_app (s s' : state W) (tr : list (request * fetch_outcome)) :
  trace s' = (trace s ++ tr)%list -> added s s' = tr.
Proof.
  intros H. unfold added. rewrite H.
  rewrite skipn_app, skipn_all, Nat.sub_diag. reflexivity.
Qed.

(** The requests of a run are among those the program can send. *)
Lemma run_sends {A : Type} (P : request -> Prop) (p : prog A) :
  sends P p ->
  forall s, Forall (fun x => P (fst x)) (added s (snd (run respond p s))).
Proof.
  induction 1 as [a|e|r k HP Hk IH|k Hk IH|m k Hk IH|e k Hk IH];
    intros s; simpl.
  - rewrite (added_app s s []); [constructor | now rewrite app_nil_r].
  - rewrite (added_app s s []); [constructor | now rewrite app_nil_r].
  - rewrite exchange_eq.
    set (o := fst (respond (net s) r)).
    set (s1 := {| cachedModel := cachedModel s;
                  net := snd (respond (net s) r);
                  trace := (trace s ++ [(r, o)])%list;
                  console := console s |}).
    specialize (IH o s1).
    destruct (run_extends (k o) s1) as (tr & lines & Ht & _).
    rewrite (added_app _ _ _ Ht) in IH.
    rewrite (added_app s _ ((r, o) :: tr)).
    + constructor; assumption.
    + rewrite Ht. simpl. now rewrite <- app_assoc.
  - apply IH.
  - apply (IH (set_cache m s)).
  - apply (IH (print e s)).
Qed.

Lemma sends_bind {A B : Type} (P : request -> Prop) (p : prog A)
    (f : A -> prog B) :
  sends P p -> (forall a, sends P (f a)) -> sends P (bind p f).
Proof. induction 1; intros Hf; simpl; auto; constructor; auto. Qed.

Lemma sends_try_catch {A : Type} (P : request -> Prop) (p : prog A)
    (h : js_error -> prog A) :
  sends P p -> (forall e, sends P (h e)) -> sends P (try_catch p h).
Proof. induction 1; intros Hh; simpl; auto; constructor; auto. Qed.

Lemma stores_bind {A B : Type} (P : json -> Prop) (p : prog A)
    (f : A -> prog B) :
  stores P p -> (forall a, stores P (f a)) -> stores P (bind p f).
Proof. induction 1; intros Hf; simpl; auto; constructor; auto. Qed.

(** Interleaved execution keeps what the programs can store. *)
Lemma settle_stores {A : Type} (P : json -> Prop) (p : prog A) :
  stores P p ->
  forall s : state W,
    stores P (fst (settle p s)) /\
    (cachedModel (snd (settle p s)) = cachedModel s \/
     P (cachedModel (snd (settle p s)))).
Proof.
  induction 1 as [a|e|r k Hk IH|k Hk IH|m k HP Hk IH|e k Hk IH];
    intros s; simpl.
  - split; [constructor|now left].
  - split; [constructor|now left].
  - split; [now constructor|now left].
  - apply IH.
  - destruct (IH (set_cache m s)) as [H1 [H2|H2]]; split; auto.
    right. rewrite H2. exact HP.
  - destruct (IH (print e s)) as [H1 H2]. split; auto.
Qed.

Lemma deliver_stores {A : Type} (P : json -> Prop) (p : prog A)
    (s : state W) :
  stores P p ->
  stores P (fst (deliver respond p s)) /\
  (cachedModel (snd (deliver respond p s)) = cachedModel s \/
   P (cachedModel (snd (deliver respond p s)))).
Proof.
  intros H. destruct H as [a|e|r k Hk|k Hk|m k HP Hk|e k Hk]; simpl;
    try (split; [now constructor|now left]).
  rewrite exchange_eq.
  match goal with
  | |- context [settle (k ?o) ?s1] =>
      destruct (settle_stores P (k o) (Hk o) s1) as [H1 H2]
  end.
  split; [exact H1|exact H2].
Qed.

Lemma deliver_nth_stores {A : Type} (P : json -> Prop) (i : nat) :
  forall (pool : list (prog A)) (s : state W),
    Forall (stores P) pool ->
    Forall (stores P) (fst (deliver_nth respond i pool s)) /\
    (cachedModel (snd (deliver_nth respond i pool s)) = cachedModel s \/
     P (cachedModel (snd (deliver_nth respond i pool s)))).
Proof.
  induction i as [|i IH]; intros [|p pool] s Hpool; simpl;
    try (split; [constructor|now left]);
    inversion Hpool as [|x l Hp Hrest]; subst.
  - destruct (deliver_stores P p s Hp) as [H1 H2].
    destruct (deliver respond p s) as [p' s']. simpl in *.
    split; [now constructor|exact H2].
  - destruct (IH pool s Hrest) as [H1 H2].
    destruct (deliver_nth respond i pool s) as [pool' s']. simpl in *.
    split; [now constructor|exact H2].
Qed.

Lemma run_schedule_stores {A : Type} (ticks : list (tick A)) :
  forall (pool : list (prog A)) (s : state W),
    Forall (fun t => match t with
                     | Start p => stores is_truthy p
                     | Deliver _ => True
                     end) ticks ->
    Forall (stores is_truthy) pool ->
    truthy (cachedModel s) = true ->
    truthy (cachedModel (snd (run_schedule respond ticks pool s))) = true.
Proof.
  induction ticks as [|t ticks IH]; intros pool s Hticks Hpool Hs;
    [exact Hs|].
  inversion Hticks as [|x l Ht Hrest]; subst.
  destruct t as [p|i]; simpl.
  - destruct (settle_stores is_truthy p Ht s) as [H1 H2].
    destruct (settle p s) as [p' s']. simpl in *.
    apply IH; auto.
    + apply Forall_app. split; [exact Hpool|]. now constructor.
    + destruct H2 as [H2|H2]; [now rewrite H2|exact H2].
  - destruct (deliver_nth_stores is_truthy i pool s Hpool) as [H1 H2].
    destruct (deliver_nth respond i pool s) as [pool' s']. simpl in *.
    apply IH; auto.
    destruct H2 as [H2|H2]; [now rewrite H2|exact H2].
Qed.

(** A schedule run in two parts: the second part starts from the calls
    the first part left in flight. *)
Lemma run_schedule_app {A : Type} (before after : list (tick A)) :
  forall (pool : list (prog A)) (s : state W),
    run_schedule respond (before ++ after) pool s =
    run_schedule respond after
      (fst (run_schedule respond before pool s))
      (snd (run_schedule respond before pool s)).
Proof.
  induction before as [|t before IH]; intros pool s; [reflexivity|].
  destruct t as [p|i]; cbn [app run_schedule].
  - destruct (settle p s) as [p' s']. apply IH.
  - destruct (deliver_nth respond i pool s) as [pool' s']. apply IH.
Qed.

(** The calls a schedule leaves in flight can store what the calls it
    started can. *)
Lemma run_schedule_pool {A : Type} (P : json -> Prop)
    (ticks : list (tick A)) :
  forall (pool : list (prog A)) (s : state W),
    Forall (fun t => match t with
                     | Start p => stores P p
                     | Deliver _ => True
                     end) ticks ->
    Forall (stores P) pool ->
    Forall (stores P) (fst (run_schedule respond ticks pool s)).
Proof.
  induction ticks as [|t ticks IH]; intros pool s Hticks Hpool;
    [exact Hpool|].
  inversion Hticks as [|x l Ht Hrest]; subst.
  destruct t as [p|i]; cbn [run_schedule].
  - destruct (settle_stores P p Ht s) as [H1 _].
    destruct (settle p s) as [p' s']. cbn [fst] in H1.
    apply IH; [exact Hrest|].
    apply Forall_app. split; [exact Hpool|]. now constructor.
  - destruct (deliver_nth_stores P i pool s Hpool) as [H1 _].
    destruct (deliver_nth respond i pool s) as [pool' s']. cbn [fst] in H1.
    now apply IH.
Qed.
End Facts.

End RunFacts.

(* ================================================================== *)
(** ** The auto-selecting server: resolution and generation *)

Module AutoSelectFacts.
Import JS Async Express AutoSelect RunFacts.

Section Facts.
Context {env : Env} {W : Type}.
Variable respond : W -> request -> fetch_outcome * W.

Lemma prints_nil (s : state W) : prints [] s = s.
Proof. destruct s; unfold prints; simpl. now rewrite app_nil_r. Qed.

Lemma print_prints (e : log_entry) (l : list log_entry) (s : state W) :
  print e (prints l s) = prints (l ++ [e]) s.
Proof. unfold print, prints; simpl. now rewrite app_assoc. Qed.

(** [tryModelGenerate] makes one exchange and returns what
    [attempt_of] makes of its outcome. *)
Lemma run_tryModelGenerate (modelId : json) (id prompt : string)
    (s : state W) :
  to_string modelId = Some id ->
  run respond (tryModelGenerate modelId prompt) s =
  let (o, s1) := exchange respond (generate_request id prompt) s in
  (Returned (attempt_of o), prints (attempt_lines id o) s1).
Proof.
  intros H. unfold tryModelGenerate, template. rewrite H. simpl.
  destruct (exchange respond (generate_request id prompt) s) as [o s1].
  destruct o as [e|status raw]; simpl.
  - now rewrite prints_nil.
  - unfold print, prints; simpl. now rewrite <- app_assoc.
Qed.

Lemma run_tryModelGenerate_throws (modelId : json) (prompt : string)
    (s : state W) :
  to_string modelId = None ->
  run respond (tryModelGenerate modelId prompt) s =
  (Thrown TypeError_primitive, s).
Proof. intros H. unfold tryModelGenerate, template. now rewrite H. Qed.

(** One turn of the loop of [ensureWorkingModel]. *)
Lemma try_candidates_step (model : string) (models : list string)
    (p : string) (rest : prog json) (s : state W) :
  run respond (try_candidates (model :: models) p rest) s =
  let (o, s1) := exchange respond (generate_request model p) s in
  if usable o then
    (Returned (JStr model),
     set_cache (JStr model)
       (prints (attempt_lines model o ++ [found_line model]) s1))
  else
    run respond (try_candidates models p rest)
      (prints (attempt_lines model o ++ [failure_line model (attempt_of o)]) s1).
Proof.
  cbn [try_candidates]. rewrite run_bind.
  rewrite (run_tryModelGenerate (JStr model) model p s eq_refl).
  destruct (exchange respond (generate_request model p) s) as [o s1].
  unfold usable. destruct (ok (attempt_of o)); simpl.
  - now rewrite print_prints.
  - now rewrite print_prints.
Qed.

Lemma replies_app (w : W) (rs rs' : list request) :
  replies respond w (rs ++ rs') =
  let (os, w1) := replies respond w rs in
  let (os', w2) := replies respond w1 rs' in
  ((os ++ os')%list, w2).
Proof.
  revert w; induction rs as [|r rs IH]; intros w; simpl.
  - destruct (replies respond w rs'); reflexivity.
  - destruct (respond w r) as [o w1]. rewrite IH.
    destruct (replies respond w1 rs) as [os w2].
    destruct (replies respond w2 rs'); reflexivity.
Qed.

Lemma replies_length (w : W) (rs : list request) :
  length (fst (replies respond w rs)) = length rs.
Proof.
  revert w; induction rs as [|r rs IH]; intros w; simpl; [reflexivity|].
  destruct (respond w r) as [o w1]. specialize (IH w1).
  destruct (replies respond w1 rs); simpl in *. now rewrite IH.
Qed.

(** While the candidates fail the loop goes on, and after the last
    one the code after the loop runs. *)
Lemma try_candidates_all_fail (models : list string) (p : string)
    (rest : prog json) :
  forall (s : state W) (outs : list fetch_outcome) (w1 : W),
    replies respond (net s) (attempts_on models p) = (outs, w1) ->
    all_unusable outs = true ->
    exists lines,
      run respond (try_candidates models p rest) s =
      run respond rest
        {| cachedModel := cachedModel s; net := w1;
           trace := (trace s ++ combine (attempts_on models p) outs)%list;
           console := (console s ++ lines)%list |}.
Proof.
  induction models as [|model models IH]; intros s outs w1 Hr Hu.
  - simpl in Hr. injection Hr as <- <-. exists []. simpl.
    destruct s; simpl. now rewrite !app_nil_r.
  - simpl in Hr.
    destruct (respond (net s) (generate_request model p)) as [o w] eqn:Ho.
    destruct (replies respond w (attempts_on models p)) as [os w2] eqn:Hos.
    injection Hr as <- <-. simpl in Hu.
    apply andb_true_iff in Hu as [Hu1 Hu2].
    apply negb_true_iff in Hu1.
    rewrite try_candidates_step. unfold exchange. rewrite Ho, Hu1.
    match goal with
    | |- context [run respond (try_candidates models p rest) ?s1] =>
        destruct (IH s1 os w2 Hos Hu2) as [lines Hrun]
    end.
    rewrite Hrun. simpl.
    exists ((attempt_lines model o ++ [failure_line model (attempt_of o)])
              ++ lines)%list.
    now rewrite <- !app_assoc.
Qed.

(** The first candidate whose attempt succeeds is stored and returned,
    and the loop ends there. *)
Lemma try_candidates_first_success (pre : list string) (model : string)
    (post : list string) (p : string) (rest : prog json) :
  forall (s : state W) (outs : list fetch_outcome) (o : fetch_outcome)
         (w1 : W),
    replies respond (net s) (attempts_on (pre ++ [model]) p)
      = ((outs ++ [o])%list, w1) ->
    length outs = length pre ->
    all_unusable outs = true ->
    usable o = true ->
    exists lines,
      run respond (try_candidates (pre ++ model :: post) p rest) s =
      (Returned (JStr model),
       {| cachedModel := JStr model; net := w1;
          trace := (trace s ++ combine (attempts_on (pre ++ [model]) p)
                                 (outs ++ [o]))%list;
          console := (console s ++ lines)%list |}).
Proof.
  induction pre as [|c pre IH]; intros s outs o w1 Hr Hl Hu Ho.
  - destruct outs; [|discriminate]. simpl in Hr.
    destruct (respond (net s) (generate_request model p)) as [o' w] eqn:E.
    injection Hr as -> <-. simpl app.
    rewrite try_candidates_step. unfold exchange. rewrite E, Ho. simpl.
    eexists. reflexivity.
  - destruct outs as [|o0 outs]; [discriminate|]. simpl in Hr, Hl, Hu.
    destruct (respond (net s) (generate_request c p)) as [o' w] eqn:E.
    destruct (replies respond w (attempts_on (pre ++ [model]) p))
      as [os w2] eqn:Hos.
    injection Hr as -> -> <-.
    apply andb_true_iff in Hu as [Hu1 Hu2].
    apply negb_true_iff in Hu1.
    simpl app. rewrite try_candidates_step. unfold exchange.
    rewrite E, Hu1.
    match goal with
    | |- context [run respond (try_candidates _ p rest) ?s1] =>
        destruct (IH s1 outs o w2 Hos (eq_add_S _ _ Hl) Hu2 Ho)
          as [lines Hrun]
    end.
    rewrite Hrun. simpl.
    exists ((attempt_lines c o0 ++ [failure_line c (attempt_of o0)])
              ++ lines)%list.
    now rewrite <- !app_assoc.
Qed.

(** The part of [callGemini] after the resolution. *)
Lemma run_callGemini (p : string) (s : state W) :
  run respond (callGemini p) s =
  match run respond (ensureWorkingModel (Some p)) s with
  | (Thrown e, s1) => (Thrown e, s1)
  | (Returned modelId, s1) =>
      match to_string modelId with
      | Some id =>
          let (o, s2) := exchange respond (generate_request id p) s1 in
          (call_result o, prints (attempt_lines id o) s2)
      | None => (Thrown TypeError_primitive, s1)
      end
  end.
Proof.
  unfold callGemini. rewrite run_bind.
  destruct (run respond (ensureWorkingModel (Some p)) s) as [[m|e] s1];
    [|reflexivity].
  rewrite run_bind.
  destruct (to_string m) as [id|] eqn:Hid.
  - rewrite (run_tryModelGenerate m id p s1 Hid).
    destruct (exchange respond (generate_request id p) s1) as [o s2].
    unfold call_result, usable, thrown_for.
    destruct (ok (attempt_of o)); [reflexivity|].
    unfold new_Error, template.
    match goal with
    | |- context [Thrown match to_string ?v with _ => _ end] =>
        destruct (to_string v); reflexivity
    end.
  - now rewrite (run_tryModelGenerate_throws m p s1 Hid).
Qed.

(** One endpoint of the listing: one GET, and no throw. *)
Lemma run_list_one (url : string) (s : state W) :
  exists r lines,
    run respond (list_one url) s =
    (Returned r, prints lines (snd (exchange respond (list_request url) s))).
Proof.
  unfold list_one, list_request. rewrite run_try_catch, run_bind.
  unfold fetch. simpl.
  destruct (exchange respond _ s) as [o s1]. simpl.
  destruct o as [e|status raw]; simpl.
  - eexists _, [_]. reflexivity.
  - destruct (JSON_parse raw) as [d|]; simpl.
    + destruct (truthy_val _); simpl.
      * eexists _, [_; _]. unfold print, prints; simpl.
        now rewrite <- app_assoc.
      * eexists _, []. now rewrite prints_nil.
    + eexists _, [_]. reflexivity.
Qed.

(** The listing only sends GET requests, never throws and leaves
    [cachedModel] alone. *)
Lemma run_list_from (endpoints : list string) :
  forall s : state W,
    exists listed s1 tr,
      run respond (list_from endpoints) s = (Returned listed, s1) /\
      trace s1 = (trace s ++ tr)%list /\
      map fst tr = firstn (length tr) (map list_request endpoints) /\
      (endpoints <> [] -> tr <> []) /\
      cachedModel s1 = cachedModel s.
Proof.
  induction endpoints as [|url rest IH]; intros s.
  - exists JNull, (print (line LogWarn
      "⚠️ Could not fetch the list of models from v1beta or v1." []) s), [].
    simpl. rewrite app_nil_r. repeat split; auto.
  - cbn [list_from]. rewrite run_bind.
    destruct (run_list_one url s) as (r & lines & Hone). rewrite Hone.
    rewrite exchange_eq. simpl snd.
    set (o := fst (respond (net s) (list_request url))).
    destruct r as [v|].
    + eexists v, _, [(list_request url, o)]. simpl.
      repeat split; auto. discriminate.
    + match goal with
      | |- context [run respond (list_from rest) ?s1] =>
          destruct (IH s1) as (listed & s2 & tr & Hrun & Ht & Hm & _ & Hc)
      end.
      exists listed, s2, ((list_request url, o) :: tr). rewrite Hrun.
      simpl in Ht, Hc. simpl. rewrite Ht, Hm, <- app_assoc.
      repeat split; auto. discriminate.
Qed.

Lemma posts_gets (tr : list (request * fetch_outcome)) (urls : list string) :
  map fst tr = firstn (length tr) (map list_request urls) -> posts tr = [].
Proof.
  unfold posts. intros ->. generalize (length tr) as n.
  induction urls as [|u urls IH]; intros [|n]; simpl; auto.
Qed.

(** The last resort: the listing, then at most one attempt. *)
Lemma run_try_listed (p : string) (s : state W) :
  exists listed s1 tr,
    run respond listAvailableModels s = (Returned listed, s1) /\
    trace s1 = (trace s ++ tr)%list /\
    map fst tr = firstn (length tr) (map list_request list_endpoints) /\
    tr <> [] /\
    cachedModel s1 = cachedModel s /\
    run respond (try_listed p) s =
    match choose listed with
    | Chosen id =>
        match to_string id with
        | Some shown =>
            let (o, s2) := exchange respond (generate_request shown p)
                             (print (trying_line shown) s1) in
            if usable o then
              (Returned id,
               print (found_listed_line shown)
                 (set_cache id (prints (attempt_lines shown o) s2)))
            else (Thrown no_usable_model, prints (attempt_lines shown o) s2)
        | None => (Thrown TypeError_primitive, s1)
        end
    | TestThrew => (Thrown TypeError_primitive, s1)
    | NothingToTry => (Thrown no_usable_model, s1)
    end.
Proof.
  destruct (run_list_from list_endpoints s)
    as (listed & s1 & tr & Hrun & Ht & Hm & Hne & Hc).
  exists listed, s1, tr. unfold listAvailableModels.
  repeat split; auto.
  - apply Hne. discriminate.
  - unfold try_listed, listAvailableModels. rewrite run_bind, Hrun.
    destruct (choose listed) as [| |id]; try reflexivity.
    unfold template at 1.
    destruct (to_string id) as [shown|] eqn:Hid; [|reflexivity].
    cbn [bind]. rewrite run_bind. cbn [log run]. rewrite run_bind.
    rewrite (run_tryModelGenerate id shown p _ Hid).
    unfold trying_line.
    destruct (exchange respond (generate_request shown p) _) as [o s2].
    unfold usable. destruct (ok (attempt_of o)); reflexivity.
Qed.

(** A value the loop returns is either a candidate whose attempt has
    just succeeded, or comes from the code after the loop. *)
Lemma try_candidates_returned (p : string) (rest : prog json)
    (models : list string) :
  forall (s s1 : state W) (m : json),
    run respond (try_candidates models p rest) s = (Returned m, s1) ->
    (exists model tr o,
        m = JStr model /\ In model models /\
        trace s1 = (trace s ++ tr ++ [(generate_request model p, o)])%list /\
        usable o = true /\ cachedModel s1 = m) \/
    (exists s0 tr,
        trace s0 = (trace s ++ tr)%list /\
        cachedModel s0 = cachedModel s /\
        run respond rest s0 = (Returned m, s1)).
Proof.
  induction models as [|model models IH]; intros s s1 m Hrun.
  - right. exists s, []. rewrite app_nil_r. auto.
  - rewrite try_candidates_step in Hrun. rewrite exchange_eq in Hrun.
    set (o := fst (respond (net s) (generate_request model p))) in *.
    destruct (usable o) eqn:Hu.
    + injection Hrun as <- <-. left. exists model, [], o. simpl.
      repeat split; auto.
    + apply IH in Hrun. simpl in Hrun.
      destruct Hrun as [(c & tr & o' & Hm & Hin & Ht & Ho & Hc)
                       |(s0 & tr & Ht & Hc & Hrest)].
      * left. exists c, ((generate_request model p, o) :: tr), o'.
        rewrite Ht, <- app_assoc. simpl. repeat split; auto.
      * right. exists s0, ((generate_request model p, o) :: tr).
        rewrite Ht, <- app_assoc. auto.
Qed.

(** A model that an uncached resolution returns is printable, is now
    cached, and its attempt, the last exchange, has succeeded. *)
Lemma ensureWorkingModel_resolved (p : string) (s s1 : state W) (m : json) :
  truthy (cachedModel s) = false ->
  run respond (ensureWorkingModel (Some p)) s = (Returned m, s1) ->
  exists id tr o,
    to_string m = Some id /\
    trace s1 = (trace s ++ tr ++ [(generate_request id p, o)])%list /\
    usable o = true /\ cachedModel s1 = m.
Proof.
  intros Hc Hrun. unfold ensureWorkingModel, read_cache in Hrun.
  cbn [bind run] in Hrun. rewrite Hc in Hrun.
  apply try_candidates_returned in Hrun.
  destruct Hrun as [(c & tr & o & Hm & _ & Ht & Ho & Hcm)
                   |(s0 & tr & Ht & _ & Hrest)].
  - exists c, tr, o. subst m. auto.
  - destruct (run_try_listed p s0)
      as (listed & s2 & tr2 & _ & Ht2 & _ & _ & _ & Heq).
    rewrite Heq in Hrest. clear Heq.
    destruct (choose listed) as [| |id]; try discriminate.
    destruct (to_string id) as [shown|] eqn:Hid; try discriminate.
    rewrite exchange_eq in Hrest. simpl in Hrest.
    set (o := fst (respond (net s2) (generate_request shown p))) in *.
    destruct (usable o) eqn:Hu; try discriminate.
    injection Hrest as <- <-.
    exists shown, (tr ++ tr2)%list, o. simpl.
    rewrite Ht2, Ht, <- !app_assoc. auto.
Qed.

(** *** What the programs can send and store *)

Lemma sends_template {B : Type} (P : request -> Prop) (v : json)
    (f : string -> prog B) :
  (forall shown, sends P (f shown)) -> sends P (bind (template v) f).
Proof.
  intros H. unfold template. destruct (to_string v); simpl; auto.
  constructor.
Qed.

Lemma sends_log {B : Type} (P : request -> Prop) (e : log_entry)
    (q : prog B) :
  sends P q -> sends P (bind (log e) (fun _ => q)).
Proof. intros H. simpl. now constructor. Qed.

Lemma sends_tryModelGenerate (modelId : json) (p : string) :
  sends (carries p) (tryModelGenerate modelId p).
Proof.
  unfold tryModelGenerate. apply sends_template. intros shown. simpl.
  constructor; [reflexivity|].
  intros [e|status raw]; simpl; repeat constructor.
Qed.

Lemma sends_list_one (p url : string) : sends (carries p) (list_one url).
Proof.
  unfold list_one. simpl. constructor; [exact I|].
  intros [e|status raw]; simpl; repeat constructor.
  destruct (JSON_parse raw); simpl; repeat constructor.
  destruct (truthy_val _); simpl; repeat constructor.
Qed.

Lemma sends_list_from (p : string) (endpoints : list string) :
  sends (carries p) (list_from endpoints).
Proof.
  induction endpoints as [|url rest IH]; [simpl; repeat constructor|].
  cbn [list_from]. apply sends_bind; [apply sends_list_one|].
  intros [v|]; [constructor|exact IH].
Qed.

Lemma sends_try_candidates (p : string) (rest : prog json)
    (models : list string) :
  sends (carries p) rest -> sends (carries p) (try_candidates models p rest).
Proof.
  intros Hrest. induction models as [|model models IH]; [exact Hrest|].
  cbn [try_candidates]. apply sends_bind; [apply sends_tryModelGenerate|].
  intros a. destruct (ok a); simpl; repeat constructor. exact IH.
Qed.

Lemma sends_try_listed (p : string) : sends (carries p) (try_listed p).
Proof.
  unfold try_listed. apply sends_bind; [apply sends_list_from|].
  intros listed. destruct (choose listed); try constructor.
  apply sends_template. intros shown. apply sends_log.
  apply sends_bind; [apply sends_tryModelGenerate|].
  intros a. destruct (ok a); simpl; repeat constructor.
Qed.

Lemma sends_ensureWorkingModel (p : string) :
  sends (carries p) (ensureWorkingModel (Some p)).
Proof.
  unfold ensureWorkingModel, read_cache. cbn [bind]. constructor. intros c.
  destruct (truthy c); [constructor|].
  apply sends_try_candidates, sends_try_listed.
Qed.

Lemma sends_callGemini (p : string) : sends (carries p) (callGemini p).
Proof.
  unfold callGemini. apply sends_bind; [apply sends_ensureWorkingModel|].
  intros m. apply sends_bind; [apply sends_tryModelGenerate|].
  intros a. destruct (ok a); [constructor|].
  unfold new_Error. simpl. unfold template.
  destruct (to_string _); simpl; constructor.
Qed.

Lemma sends_weaken {A : Type} (P Q : request -> Prop) (q : prog A) :
  (forall r, P r -> Q r) -> sends P q -> sends Q q.
Proof. intros HPQ. induction 1; constructor; auto. Qed.

Lemma stores_template {B : Type} (P : json -> Prop) (v : json)
    (f : string -> prog B) :
  (forall shown, stores P (f shown)) -> stores P (bind (template v) f).
Proof.
  intros H. unfold template. destruct (to_string v); simpl; auto.
  constructor.
Qed.

Lemma stores_tryModelGenerate (P : json -> Prop) (modelId : json)
    (p : string) :
  stores P (tryModelGenerate modelId p).
Proof.
  unfold tryModelGenerate. apply stores_template. intros shown. simpl.
  constructor. intros [e|status raw]; simpl; repeat constructor.
Qed.

Lemma stores_list_one (P : json -> Prop) (url : string) :
  stores P (list_one url).
Proof.
  unfold list_one. simpl. constructor.
  intros [e|status raw]; simpl; repeat constructor.
  destruct (JSON_parse raw); simpl; repeat constructor.
  destruct (truthy_val _); simpl; repeat constructor.
Qed.

Lemma stores_list_from (P : json -> Prop) (endpoints : list string) :
  stores P (list_from endpoints).
Proof.
  induction endpoints as [|url rest IH]; [simpl; repeat constructor|].
  cbn [list_from]. apply stores_bind; [apply stores_list_one|].
  intros [v|]; [constructor|exact IH].
Qed.

Lemma stores_try_candidates (p : string) (rest : prog json)
    (models : list string) :
  Forall (fun model => model <> "") models ->
  stores is_truthy rest -> stores is_truthy (try_candidates models p rest).
Proof.
  intros Hm Hrest. induction Hm as [|model models Hne _ IH]; [exact Hrest|].
  cbn [try_candidates]. apply stores_bind; [apply stores_tryModelGenerate|].
  intros a. destruct (ok a); simpl; repeat constructor; [|exact IH].
  unfold is_truthy. simpl. now apply negb_true_iff, String.eqb_neq.
Qed.

Lemma id_of_truthy (g : json) : truthy g = true -> truthy (id_of g) = true.
Proof.
  intros Hg. unfold id_of, or_else.
  repeat match goal with
         | |- context [truthy_val ?x] =>
             let E := fresh "E" in destruct (truthy_val x) eqn:E
         end;
    repeat match goal with
           | H : truthy_val ?x = true |- context [?x] =>
               destruct x; [exact H|discriminate]
           end; auto.
Qed.

Lemma choose_truthy (listed id : json) :
  choose listed = Chosen id -> truthy id = true.
Proof.
  unfold choose. destruct listed as [| | | |[|first others]|]; try discriminate.
  destruct (find_gemini _) as [found|]; try discriminate.
  destruct (or_else found (Some first)) as [g|]; try discriminate.
  destruct (truthy g) eqn:Hg; try discriminate.
  intros H; injection H as <-. now apply id_of_truthy.
Qed.

Lemma stores_try_listed (p : string) : stores is_truthy (try_listed p).
Proof.
  unfold try_listed. apply stores_bind; [apply stores_list_from|].
  intros listed. destruct (choose listed) as [| |id] eqn:Hch; try constructor.
  apply stores_template. intros shown. simpl. constructor.
  apply stores_bind; [apply stores_tryModelGenerate|].
  intros a. destruct (ok a); simpl; repeat constructor.
  exact (choose_truthy listed id Hch).
Qed.

Lemma candidates_named : Forall (fun model => model <> "") CANDIDATE_MODELS.
Proof. repeat constructor; discriminate. Qed.

Lemma stores_callGemini (p : string) : stores is_truthy (callGemini p).
Proof.
  unfold callGemini. apply stores_bind.
  - unfold ensureWorkingModel, read_cache. cbn [bind]. constructor. intros c.
    destruct (truthy c); [constructor|].
    apply stores_try_candidates;
      [exact candidates_named|apply stores_try_listed].
  - intros m. apply stores_bind; [apply stores_tryModelGenerate|].
    intros a. destruct (ok a); [constructor|].
    unfold new_Error. simpl. unfold template.
    destruct (to_string _); simpl; constructor.
Qed.
End Facts.
End AutoSelectFacts.

(* ================================================================== *)
(** ** The plain server: the fallback loop *)

Module BackendFacts.
Import JS Async Express Backend RunFacts.

Section Facts.
Context {env : Env} {W : Type}.
Variable respond : W -> request -> fetch_outcome * W.

(** One turn of the loop makes one exchange and never throws. *)
Lemma run_try_model (model p : string) (s : state W) :
  run respond (try_model model p) s =
  let (o, s1) := exchange respond (generate_request model p) s in
  (Returned (verdict o), prints (turn_lines model o) s1).
Proof.
  unfold try_model. rewrite run_try_catch, run_bind. unfold fetch. simpl.
  destruct (exchange respond (generate_request model p) s) as [o s1].
  destruct o as [e|status raw]; simpl.
  - reflexivity.
  - destruct (status_ok status); simpl; [|reflexivity].
    destruct (JSON_parse raw) as [d|]; simpl; [|reflexivity].
    destruct (result_of d) as [r|]; simpl.
    + destruct (truthy r); simpl; now rewrite AutoSelectFacts.prints_nil.
    + now rewrite AutoSelectFacts.prints_nil.
Qed.

Lemma try_models_step (model : string) (models : list string) (p : string)
    (s : state W) :
  run respond (try_models (model :: models) p) s =
  let (o, s1) := exchange respond (generate_request model p) s in
  match verdict o with
  | Some result => (Returned result, prints (turn_lines model o) s1)
  | None => run respond (try_models models p) (prints (turn_lines model o) s1)
  end.
Proof.
  cbn [try_models]. rewrite run_bind, run_try_model.
  destruct (exchange respond (generate_request model p) s) as [o s1].
  destruct (verdict o); reflexivity.
Qed.

(** A returned text is the verdict on an exchange of the run. *)
Lemma try_models_returned (p : string) (models : list string) :
  forall (s s1 : state W) (v : json),
    run respond (try_models models p) s = (Returned v, s1) ->
    exists model tr o,
      In model models /\
      trace s1 = (trace s ++ tr ++ [(generate_request model p, o)])%list /\
      verdict o = Some v.
Proof.
  induction models as [|model models IH]; intros s s1 v Hrun.
  - discriminate.
  - rewrite try_models_step, exchange_eq in Hrun.
    set (o := fst (respond (net s) (generate_request model p))) in *.
    destruct (verdict o) as [r|] eqn:Hv.
    + injection Hrun as <- <-. exists model, [], o. simpl. auto.
    + apply IH in Hrun. destruct Hrun as (c & tr & o' & Hin & Ht & Ho).
      exists c, ((generate_request model p, o) :: tr), o'.
      simpl in Ht. rewrite Ht, <- app_assoc. simpl. auto.
Qed.

(** The loop always ends: with a text, or with [all_failed]. *)
Lemma try_models_total (p : string) (models : list string) :
  forall s : state W,
    exists r s1, run respond (try_models models p) s = (r, s1) /\
                 (r = Thrown all_failed \/ exists v, r = Returned v).
Proof.
  induction models as [|model models IH]; intros s.
  - exists (Thrown all_failed), s. auto.
  - rewrite try_models_step.
    destruct (exchange respond (generate_request model p) s) as [o s1].
    destruct (verdict o) as [r|].
    + eexists _, _. split; [reflexivity|]. right. now exists r.
    + apply IH.
Qed.
End Facts.
End BackendFacts.

(* ================================================================== *)
(** ** The resolver *)

Module Resolver.
Import JS Async Express AutoSelect RunFacts AutoSelectFacts.

Section Properties.
Context {env : Env} {W : Type}.
Variable respond : W -> request -> fetch_outcome * W.

Lemma usable_iff (o : fetch_outcome) :
  usable o = true <->
  exists status raw data,
    o = Response status raw /\ status_ok status = true /\
    JSON_parse raw = Some data /\ truthy (extract_text data) = true.
Proof.
  unfold usable. destruct o as [e|status raw]; simpl.
  - split; [discriminate|]. intros (? & ? & ? & H & _). discriminate.
  - unfold parse_response.
    destruct (JSON_parse raw) as [d|] eqn:Hp; simpl.
    + destruct (status_ok status && truthy (extract_text d)) eqn:Hb; simpl.
      * apply andb_true_iff in Hb as [H1 H2].
        split; auto. intros _. now exists status, raw, d.
      * split.
        -- destruct (truthy_val _); discriminate.
        -- intros (st & r & d' & H & H1 & H2 & H3).
           injection H as <- <-. rewrite Hp in H2. injection H2 as <-.
           rewrite H1, H3 in Hb. discriminate.
    + split; [discriminate|].
      intros (st & r & d' & H & _ & H2 & _).
      injection H as <- <-. rewrite Hp in H2. discriminate.
Qed.

Lemma or_else_falsy (a b : jsval) :
  truthy_val a = false -> or_else a b = b.
Proof. unfold or_else. now intros ->. Qed.

Lemma or_else_truthy (a b : jsval) :
  truthy_val a = true -> or_else a b = a.
Proof. unfold or_else. now intros ->. Qed.

Lemma or_chain (l : list jsval) (a : jsval) :
  truthy_val a = true -> fold_left or_else l a = a.
Proof.
  revert a; induction l as [|x l IH]; intros a Ha; simpl; auto.
  rewrite (or_else_truthy a x Ha). auto.
Qed.


(** [x || null] at the end of a chain of [||]. *)
Lemma or_chain_find (l : list jsval) :
  forall acc : jsval,
    truthy_val acc = false ->
    match or_else (fold_left or_else l acc) (Some JNull) with
    | Some v => v
    | None => JNull
    end =
    match find truthy_val l with
    | Some (Some v) => v
    | _ => JNull
    end.
Proof.
  induction l as [|x l IH]; intros acc Hacc; simpl.
  - now rewrite (or_else_falsy acc _ Hacc).
  - rewrite (or_else_falsy acc x Hacc).
    destruct (truthy_val x) eqn:Hx.
    + rewrite (or_chain l x Hx), (or_else_truthy x _ Hx).
      destruct x; [reflexivity|discriminate].
    + now apply IH.
Qed.

Lemma extract_text_find (data : json) :
  extract_text data =
  match find truthy_val (alts (Some data)) with
  | Some (Some v) => v
  | _ => JNull
  end.
Proof. exact (or_chain_find (alts (Some data)) undefined eq_refl). Qed.

(** A failed attempt on a candidate: its lines and the failure line
    are written, and the loop goes on with the remaining candidates. *)
Lemma try_candidates_failure (model : string) (models : list string)
    (p : string) (rest : prog json) (s : state W) :
  usable (fst (respond (net s) (generate_request model p))) = false ->
  run respond (try_candidates (model :: models) p rest) s =
  run respond (try_candidates models p rest)
    (prints (attempt_lines model
               (fst (respond (net s) (generate_request model p)))
             ++ [failure_line model
                   (attempt_of
                      (fst (respond (net s) (generate_request model p))))])
       (snd (exchange respond (generate_request model p) s))).
Proof.
  intros Hu. rewrite try_candidates_step, exchange_eq. now rewrite Hu.
Qed.

(** C5 (as amended).  Extraction checks the seven paths [alt1] to
    [alt7] in this order and takes the first one whose value is truthy
    (for a string: not empty), [null] when there is none; with a
    success status and no path yielding a truthy value the candidate
    has failed and the loop goes on with the next candidate. *)
Theorem extraction_takes_first_truthy_path :
  (forall data : json,
      extract_text data =
      match find truthy_val (alts (Some data)) with
      | Some (Some v) => v
      | _ => JNull
      end) /\
  (forall (model : string) (models : list string) (p : string)
          (rest : prog json) (s : state W) (status : Z) (raw : string)
          (data : json),
      fst (respond (net s) (generate_request model p)) = Response status raw ->
      status_ok status = true ->
      JSON_parse raw = Some data ->
      find truthy_val (alts (Some data)) = None ->
      ok (parse_response status raw) = false /\
      run respond (try_candidates (model :: models) p rest) s =
      run respond (try_candidates models p rest)
        (prints (response_lines model status raw
                 ++ [failure_line model (parse_response status raw)])
           (snd (exchange respond (generate_request model p) s)))).
Proof.
  split; [exact extract_text_find|].
  intros model models p rest s status raw data Ho Hs Hp Hf.
  assert (Hu : ok (parse_response status raw) = false).
  { unfold parse_response. rewrite Hp, extract_text_find, Hf. simpl.
    rewrite andb_false_r. now destruct (truthy_val _). }
  split; [exact Hu|].
  rewrite try_candidates_failure; rewrite Ho; [reflexivity|exact Hu].
Qed.

Lemma combine_snoc {A B : Type} (l : list A) (l' : list B) (a : A) (b : B) :
  length l = length l' ->
  combine (l ++ [a]) (l' ++ [b]) = (combine l l' ++ [(a, b)])%list.
Proof.
  revert l'; induction l as [|x l IH]; intros [|y l'] H; try discriminate.
  - reflexivity.
  - simpl. f_equal. apply IH. now injection H.
Qed.

Lemma attempts_on_snoc (models : list string) (model p : string) :
  attempts_on (models ++ [model]) p =
  (attempts_on models p ++ [generate_request model p])%list.
Proof. unfold attempts_on. now rewrite map_app. Qed.

Lemma attempts_on_length (models : list string) (p : string) :
  length (attempts_on models p) = length models.
Proof. unfold attempts_on. apply length_map. Qed.

(** C1 (as amended).  With no model cached, let the candidates before
    [model] fail and the attempt on [model] succeed.  Then the
    resolution stores [model] in [cachedModel] and tries no later
    candidate; [callGemini] sends one more request, to [model] with
    the same prompt, and returns the text extracted from the answer to
    that request, or throws when that answer is not usable.  The
    exchanges of the call are the attempts on the earlier candidates,
    the attempt on [model] and the final request, in this order. *)
Theorem callGemini_first_success
    (pre post : list string) (model prompt : string) (s : state W)
    (outs : list fetch_outcome) (o1 o2 : fetch_outcome) (w' : W) :
  CANDIDATE_MODELS = (pre ++ model :: post)%list ->
  truthy (cachedModel s) = false ->
  replies respond (net s) (attempts_on (pre ++ [model; model]) prompt)
    = ((outs ++ [o1; o2])%list, w') ->
  length outs = length pre ->
  all_unusable outs = true ->
  usable o1 = true ->
  fst (run respond (ensureWorkingModel (Some prompt)) s) = Returned (JStr model)
  /\ fst (run respond (callGemini prompt) s) = call_result o2
  /\ cachedModel (snd (run respond (callGemini prompt) s)) = JStr model
  /\ net (snd (run respond (callGemini prompt) s)) = w'
  /\ trace (snd (run respond (callGemini prompt) s)) =
     (trace s ++ combine (attempts_on (pre ++ [model; model]) prompt)
                   (outs ++ [o1; o2]))%list.
Proof.
  intros Hcm Hc Hr Hl Hu Ho1.
  replace (pre ++ [model; model])%list
    with ((pre ++ [model]) ++ [model])%list in *
    by (now rewrite <- app_assoc).
  replace (outs ++ [o1; o2])%list with ((outs ++ [o1]) ++ [o2])%list in *
    by (now rewrite <- app_assoc).
  rewrite attempts_on_snoc in *. rewrite replies_app in Hr.
  destruct (replies respond (net s) (attempts_on (pre ++ [model]) prompt))
    as [os w1] eqn:Hos.
  simpl in Hr.
  destruct (respond w1 (generate_request model prompt)) as [o w2] eqn:Ho.
  injection Hr as Hout <-. apply app_inj_tail in Hout as [-> ->].
  destruct (try_candidates_first_success respond pre model post prompt
              (try_listed prompt) s outs o1 w1 Hos Hl Hu Ho1)
    as [lines Hrun].
  assert (Hres : run respond (ensureWorkingModel (Some prompt)) s =
                 run respond (try_candidates (pre ++ model :: post) prompt
                                (try_listed prompt)) s).
  { unfold ensureWorkingModel, read_cache. cbn [bind run].
    now rewrite Hc, Hcm. }
  rewrite run_callGemini, Hres, Hrun. simpl to_string. cbv iota beta.
  unfold exchange. simpl net. rewrite Ho. simpl.
  repeat split.
  rewrite combine_snoc, <- app_assoc; [reflexivity|].
  rewrite attempts_on_length, !length_app. simpl. now rewrite Hl.
Qed.

(** C8.  With no model cached, the resolution made by [callGemini]
    sends the caller's prompt in every attempt; when it succeeds, its
    last exchange being the successful attempt on the model it
    returns, [callGemini] sends one further request for that model
    with the same prompt and its result is made from the answer to
    this further request alone: the text extracted from it, or a
    throw when that answer is not usable. *)
Theorem callGemini_second_request
    (prompt : string) (s s1 : state W) (m : json) :
  truthy (cachedModel s) = false ->
  run respond (ensureWorkingModel (Some prompt)) s = (Returned m, s1) ->
  Forall (fun x => carries prompt (fst x)) (added s s1) /\
  exists (id : string) (tr : list (request * fetch_outcome))
         (o1 : fetch_outcome),
    to_string m = Some id /\
    added s s1 = (tr ++ [(generate_request id prompt, o1)])%list /\
    usable o1 = true /\
    cachedModel s1 = m /\
    forall (o2 : fetch_outcome) (s2 : state W),
      exchange respond (generate_request id prompt) s1 = (o2, s2) ->
      run respond (callGemini prompt) s =
        (call_result o2, prints (attempt_lines id o2) s2) /\
      trace s2 = (trace s1 ++ [(generate_request id prompt, o2)])%list /\
      (usable o2 = true -> call_result o2 = Returned (text (attempt_of o2))) /\
      (usable o2 = false ->
       call_result o2 = Thrown (thrown_for (attempt_of o2))).
Proof.
  intros Hc Hrun. split.
  - pose proof (run_sends respond (carries prompt) _
                  (sends_ensureWorkingModel prompt) s) as H.
    now rewrite Hrun in H.
  - destruct (ensureWorkingModel_resolved respond prompt s s1 m Hc Hrun)
      as (id & tr & o1 & Hid & Ht & Ho & Hcm).
    exists id, tr, o1. repeat split; auto.
    + now apply added_app.
    + now rewrite run_callGemini, Hrun, Hid, H.
    + rewrite exchange_eq in H. now injection H as <- <-.
    + unfold call_result. now intros ->.
    + unfold call_result. now intros ->.
Qed.

Lemma posts_app (a b : list (request * fetch_outcome)) :
  posts (a ++ b) = (posts a ++ posts b)%list.
Proof. unfold posts. now rewrite map_app, filter_app. Qed.

Lemma posts_attempts (models : list string) (p : string) :
  forall outs : list fetch_outcome,
    length outs = length models ->
    posts (combine (attempts_on models p) outs) = attempts_on models p.
Proof.
  induction models as [|model models IH]; intros [|o outs] H;
    try discriminate; [reflexivity|].
  simpl. unfold posts in *. simpl. f_equal. apply IH. now injection H.
Qed.

Lemma last_resort_length (listed : json) (p : string) :
  length (last_resort listed p) <= 1.
Proof.
  unfold last_resort. destruct (choose listed); simpl; try lia.
  destruct (to_string id); simpl; lia.
Qed.

Lemma gemini_like_truthy (g : json) :
  gemini_like g = Some true -> truthy g = true.
Proof. destruct g; try discriminate; reflexivity. Qed.

Lemma find_gemini_first (pre : list json) (g : json) (post : list json) :
  Forall (fun m => gemini_like m = Some false) pre ->
  gemini_like g = Some true ->
  find_gemini (pre ++ g :: post) = Some (Some g).
Proof.
  intros Hpre Hg. induction Hpre as [|m pre Hm _ IH]; simpl.
  - now rewrite Hg.
  - now rewrite Hm.
Qed.

Lemma find_gemini_none (l : list json) :
  Forall (fun m => gemini_like m = Some false) l ->
  find_gemini l = Some undefined.
Proof.
  intros Hl. induction Hl as [|m l Hm _ IH]; simpl; [reflexivity|].
  now rewrite Hm.
Qed.

Lemma choose_throws (pre : list json) (g : json) (post : list json) :
  Forall (fun m => gemini_like m = Some false) pre ->
  gemini_like g = None ->
  choose (JArr (pre ++ g :: post)) = TestThrew.
Proof.
  intros Hpre Hg.
  assert (Hf : find_gemini (pre ++ g :: post) = None).
  { induction Hpre as [|m pre Hm _ IH]; simpl; [now rewrite Hg|].
    now rewrite Hm. }
  unfold choose. destruct (pre ++ g :: post)%list as [|first others] eqn:E.
  - now destruct pre.
  - now rewrite Hf.
Qed.

(** Which entry of a listing is taken. *)
Lemma choose_entry :
  (forall (pre : list json) (g : json) (post : list json),
      Forall (fun m => gemini_like m = Some false) pre ->
      gemini_like g = Some true ->
      choose (JArr (pre ++ g :: post)) = Chosen (id_of g)) /\
  (forall (first : json) (others : list json),
      Forall (fun m => gemini_like m = Some false) (first :: others) ->
      choose (JArr (first :: others)) =
      if truthy first then Chosen (id_of first) else NothingToTry) /\
  (forall listed : json,
      (forall first others, listed <> JArr (first :: others)) ->
      choose listed = NothingToTry).
Proof.
  split; [|split].
  - intros pre g post Hpre Hg. unfold choose.
    pose proof (find_gemini_first pre g post Hpre Hg) as Hf.
    destruct (pre ++ g :: post)%list as [|first others] eqn:E.
    + now destruct pre.
    + rewrite Hf. unfold or_else. cbn [truthy_val].
      rewrite (gemini_like_truthy g Hg). cbv beta iota.
      now rewrite (gemini_like_truthy g Hg).
  - intros first others Hl. unfold choose.
    now rewrite (find_gemini_none _ Hl).
  - intros listed Hl. unfold choose.
    destruct listed as [| | | |[|first others]|]; try reflexivity.
    now elim (Hl first others).
Qed.

(** What the test of [find] reads, and what the id is made of: the
    first truthy one of [name], [model] and [id]. *)
Lemma first_truthy_field (m : json) :
  let named := find truthy_val
                 [get_prop m "name"; get_prop m "model"; get_prop m "id"] in
  gemini_like m =
    match named with
    | Some (Some x) => option_map (contains_ci "gemini") (to_string x)
    | _ => Some false
    end /\
  id_of m =
    match named with
    | Some (Some x) => x
    | _ => m
    end.
Proof.
  cbv zeta.
  assert (Hp : forall k, opt_prop (Some m) k = get_prop m k)
    by (intros k; destruct m; reflexivity).
  unfold gemini_like, id_of. rewrite !Hp. unfold or_else. cbn [find].
  destruct (get_prop m "name") as [n|]; cbn [truthy_val];
    [destruct (truthy n) eqn:En|];
    destruct (get_prop m "model") as [md|]; cbn [truthy_val];
    try (destruct (truthy md) eqn:Em);
    destruct (get_prop m "id") as [i|]; cbn [truthy_val];
    try (destruct (truthy i) eqn:Ei);
    repeat (progress (cbn [truthy_val]; rewrite ?En, ?Em, ?Ei));
    cbn [truthy]; split; reflexivity.
Qed.

(** C6 (as amended).  When no model is cached and every candidate has
    been tried without success, the resolver queries the listing (the
    v1beta endpoint, then the v1 endpoint unless the first gave
    models).  If the listing gives a non-empty array, the entry taken
    is the first one that passes the test, or else the first entry; the
    test reads only the first truthy one of the entry's [name], [model]
    and [id], converts it to a string and looks for "gemini" in any
    letter case.  If the entry taken is truthy, its id is the first
    truthy one of its [name], [model] and [id], or else the entry
    itself, and if this id can be converted to a string one generation
    attempt is made with it, whose success is the result.  In every
    other case no further attempt is made: the resolver throws its own
    error when there is nothing to try, and a TypeError when the test
    or the id meets a value that cannot be converted to a string.  So
    the generation requests of the call are the attempts on the
    candidates followed by at most one more. *)
Theorem last_resort_at_most_once
    (prompt : string) (s : state W) (outs : list fetch_outcome) (w1 : W) :
  truthy (cachedModel s) = false ->
  replies respond (net s) (attempts_on CANDIDATE_MODELS prompt) = (outs, w1) ->
  all_unusable outs = true ->
  exists (s0 s1 : state W) (listed : json)
         (gets : list (request * fetch_outcome)),
    trace s0 = (trace s ++ combine (attempts_on CANDIDATE_MODELS prompt) outs)%list
    /\ net s0 = w1
    /\ run respond listAvailableModels s0 = (Returned listed, s1)
    /\ added s0 s1 = gets
    /\ gets <> []
    /\ map fst gets = firstn (length gets) (map list_request list_endpoints)
    /\ posts (added s (snd (run respond (ensureWorkingModel (Some prompt)) s)))
       = (attempts_on CANDIDATE_MODELS prompt ++ last_resort listed prompt)%list
    /\ length (last_resort listed prompt) <= 1
    /\ (forall (id : json) (shown : string),
           choose listed = Chosen id ->
           to_string id = Some shown ->
           exists o : fetch_outcome,
             added s (snd (run respond (ensureWorkingModel (Some prompt)) s))
             = (combine (attempts_on CANDIDATE_MODELS prompt) outs ++ gets
                  ++ [(generate_request shown prompt, o)])%list
             /\ (usable o = true ->
                 fst (run respond (ensureWorkingModel (Some prompt)) s)
                   = Returned id /\
                 cachedModel (snd (run respond (ensureWorkingModel (Some prompt)) s))
                   = id)
             /\ (usable o = false ->
                 fst (run respond (ensureWorkingModel (Some prompt)) s)
                   = Thrown no_usable_model))
    /\ (choose listed = NothingToTry ->
        last_resort listed prompt = [] /\
        fst (run respond (ensureWorkingModel (Some prompt)) s)
          = Thrown no_usable_model)
    /\ (choose listed = TestThrew ->
        last_resort listed prompt = [] /\
        fst (run respond (ensureWorkingModel (Some prompt)) s)
          = Thrown TypeError_primitive)
    /\ (forall id : json,
           choose listed = Chosen id ->
           to_string id = None ->
           last_resort listed prompt = [] /\
           fst (run respond (ensureWorkingModel (Some prompt)) s)
             = Thrown TypeError_primitive)
    /\ (forall m : json,
           let named := find truthy_val [get_prop m "name";
                                         get_prop m "model";
                                         get_prop m "id"] in
           gemini_like m =
             match named with
             | Some (Some x) => option_map (contains_ci "gemini") (to_string x)
             | _ => Some false
             end /\
           id_of m = match named with
                     | Some (Some x) => x
                     | _ => m
                     end)
    /\ (forall (pre : list json) (g : json) (post : list json),
           listed = JArr (pre ++ g :: post) ->
           Forall (fun m => gemini_like m = Some false) pre ->
           gemini_like g = Some true ->
           choose listed = Chosen (id_of g))
    /\ (forall (first : json) (others : list json),
           listed = JArr (first :: others) ->
           Forall (fun m => gemini_like m = Some false) (first :: others) ->
           choose listed =
           if truthy first then Chosen (id_of first) else NothingToTry)
    /\ ((forall first others, listed <> JArr (first :: others)) ->
        choose listed = NothingToTry)
    /\ (forall (pre : list json) (g : json) (post : list json),
           listed = JArr (pre ++ g :: post) ->
           Forall (fun m => gemini_like m = Some false) pre ->
           gemini_like g = None ->
           choose listed = TestThrew).
Proof.
  intros Hc Hr Hu.
  destruct (try_candidates_all_fail respond CANDIDATE_MODELS prompt
              (try_listed prompt) s outs w1 Hr Hu) as [lines Hloop].
  assert (Hres : run respond (ensureWorkingModel (Some prompt)) s =
                 run respond (try_candidates CANDIDATE_MODELS prompt
                                (try_listed prompt)) s).
  { unfold ensureWorkingModel, read_cache. cbn [bind run]. now rewrite Hc. }
  rewrite Hres, Hloop. clear Hres Hloop.
  set (s0 := {| cachedModel := cachedModel s; net := w1;
                trace := (trace s ++ combine (attempts_on CANDIDATE_MODELS prompt)
                                       outs)%list;
                console := (console s ++ lines)%list |}).
  destruct (run_try_listed respond prompt s0)
    as (listed & s1 & gets & Hlist & Ht & Hm & Hne & _ & Heq).
  assert (Hlen : length outs = length CANDIDATE_MODELS).
  { pose proof (replies_length respond (net s)
                  (attempts_on CANDIDATE_MODELS prompt)) as H.
    rewrite Hr, attempts_on_length in H. exact H. }
  exists s0, s1, listed, gets.
  split; [reflexivity|]. split; [reflexivity|]. split; [exact Hlist|].
  split; [now apply added_app|]. split; [exact Hne|]. split; [exact Hm|].
  rewrite Heq. clear Heq. unfold last_resort.
  split; [|split; [apply last_resort_length|]].
  - destruct (choose listed) as [| |chosen];
      [| |destruct (to_string chosen) as [shown|]].
    1, 2, 4:
      cbn [fst snd];
      rewrite (added_app s s1 (combine (attempts_on CANDIDATE_MODELS prompt) outs
                                 ++ gets));
      [ rewrite posts_app, posts_attempts, (posts_gets _ _ Hm); auto
      | rewrite Ht; simpl; now rewrite app_assoc ].
    rewrite exchange_eq.
    set (o := fst (respond _ (generate_request shown prompt))).
    assert (Hadd : forall s2 : state W,
               trace s2 = (trace s1 ++ [(generate_request shown prompt, o)])%list ->
               posts (added s s2) =
               (attempts_on CANDIDATE_MODELS prompt
                  ++ [generate_request shown prompt])%list).
    { intros s2 H2.
      rewrite (added_app s s2 (combine (attempts_on CANDIDATE_MODELS prompt) outs
                                 ++ gets ++ [(generate_request shown prompt, o)])).
      - rewrite !posts_app, posts_attempts, (posts_gets _ _ Hm); auto.
      - rewrite H2, Ht. simpl. now rewrite <- !app_assoc. }
    destruct (usable o); cbn [fst snd]; apply Hadd; reflexivity.
  - split.
    + intros id shown Hch Hid. rewrite Hch, Hid, exchange_eq.
      set (o := fst (respond _ (generate_request shown prompt))).
      exists o. split; [|split].
      * apply added_app.
        destruct (usable o); simpl; rewrite Ht; simpl;
          now rewrite <- !app_assoc.
      * intros ->. simpl. auto.
      * intros ->. reflexivity.
    + split; [intros ->; split; reflexivity|].
      split; [intros ->; split; reflexivity|].
      split; [intros id -> ->; split; reflexivity|].
      split; [exact first_truthy_field|].
      destruct choose_entry as (Hfirst & Hnone & Hother).
      split; [|split; [|split]].
      { intros pre g post ->. apply Hfirst. }
      { intros first others ->. apply Hnone. }
      { exact (Hother listed). }
      { intros pre g post ->. apply choose_throws. }
Qed.

(** *** How an uncached resolution ends *)

Lemma no_success_gets (tr : list (request * fetch_outcome))
    (urls : list string) :
  map fst tr = firstn (length tr) (map list_request urls) -> no_success tr.
Proof.
  unfold no_success. revert urls.
  induction tr as [|[r o] tr IH]; intros urls H; [constructor|].
  destruct urls as [|u urls]; [discriminate|].
  simpl in H. injection H as -> H. constructor.
  - simpl. discriminate.
  - exact (IH urls H).
Qed.

Lemma try_listed_ends (p : string) (s : state W) :
  resolution_ends p s (run respond (try_listed p) s).
Proof.
  destruct (run_try_listed respond p s)
    as (listed & s1 & gets & _ & Ht & Hm & _ & Hc & Heq).
  rewrite Heq. clear Heq.
  pose proof (no_success_gets gets _ Hm) as Hgets.
  destruct (choose listed) as [| |chosen] eqn:Hch.
  - right. exists no_usable_model, gets. auto.
  - right. exists TypeError_primitive, gets. auto.
  - destruct (to_string chosen) as [shown|] eqn:Hid.
    + rewrite exchange_eq.
      set (o := fst (respond _ (generate_request shown p))).
      destruct (usable o) eqn:Ho.
      * left. exists chosen, shown, gets, o. simpl. rewrite Ht.
        repeat split; auto.
        -- exact (choose_truthy listed chosen Hch).
        -- now rewrite <- app_assoc.
      * right. exists no_usable_model, (gets ++ [(generate_request shown p, o)])%list.
        simpl. rewrite Ht, <- app_assoc. repeat split; auto.
        apply Forall_app. split; [exact Hgets|].
        constructor; [|constructor]. intros _. exact Ho.
    + right. exists TypeError_primitive, gets. auto.
Qed.

Lemma try_candidates_ends (p : string) (rest : prog json)
    (models : list string) :
  Forall (fun model => model <> "") models ->
  (forall s0 : state W, resolution_ends p s0 (run respond rest s0)) ->
  forall s : state W,
    resolution_ends p s (run respond (try_candidates models p rest) s).
Proof.
  intros Hm Hrest.
  induction Hm as [|model models Hne _ IH]; intros s; [apply Hrest|].
  rewrite try_candidates_step, exchange_eq.
  set (o := fst (respond (net s) (generate_request model p))).
  destruct (usable o) eqn:Ho.
  - left. exists (JStr model), model, [], o. simpl. repeat split; auto.
    + now apply negb_true_iff, String.eqb_neq.
    + constructor.
  - match goal with
    | |- resolution_ends p s (run respond _ ?s1) =>
        destruct (IH s1) as [(m & id & tr & o' & H1 & H2 & H3 & H4 & H5 & H6 & H7)
                            |(e & tr & H1 & H2 & H3 & H4)]
    end.
    + left. exists m, id, ((generate_request model p, o) :: tr), o'.
      simpl in H5. rewrite H5, <- app_assoc. repeat split; auto.
      constructor; [intros _; exact Ho|exact H6].
    + right. exists e, ((generate_request model p, o) :: tr).
      simpl in H2, H3. rewrite H3, <- app_assoc. repeat split; auto.
      constructor; [intros _; exact Ho|exact H4].
Qed.

Lemma ensureWorkingModel_ends (p : string) (s : state W) :
  truthy (cachedModel s) = false ->
  resolution_ends p s (run respond (ensureWorkingModel (Some p)) s).
Proof.
  intros Hc. unfold ensureWorkingModel, read_cache. cbn [bind run].
  rewrite Hc.
  apply try_candidates_ends; [exact candidates_named|apply try_listed_ends].
Qed.

Lemma run_cached (po : option string) (s : state W) :
  truthy (cachedModel s) = true ->
  run respond (ensureWorkingModel po) s = (Returned (cachedModel s), s).
Proof.
  intros Hc. unfold ensureWorkingModel, read_cache. cbn [bind run].
  now rewrite Hc.
Qed.

Lemma cached_call_keeps (prompt : string) (s : state W) :
  truthy (cachedModel s) = true ->
  cachedModel (snd (run respond (callGemini prompt) s)) = cachedModel s.
Proof.
  intros Hc. rewrite run_callGemini, (run_cached _ s Hc).
  destruct (to_string (cachedModel s)); [|reflexivity].
  now rewrite exchange_eq.
Qed.

(** C2 (as amended).  For calls of [callGemini] that run one after the
    other: (1) a call that finds [cachedModel] set leaves it as it is
    and makes a single exchange, the generation request for the cached
    model, with no search through the candidates and no listing;
    (2) a call that finds it unset, nothing having succeeded before,
    either leaves it unset, nothing having succeeded, or sets it at
    the first generation attempt that succeeds, to the model of that
    attempt; (3) so once set it keeps its value through every
    sequence of later calls; (4) and whatever the interleaving of
    calls, those started before it was set and still in flight
    included, once set it is never cleared: from any point of a
    schedule at which it is set, it is set at every later point. *)
Theorem cachedModel_set_once_in_sequence :
  (forall (prompt id : string) (s : state W),
      truthy (cachedModel s) = true ->
      to_string (cachedModel s) = Some id ->
      cachedModel (snd (run respond (callGemini prompt) s)) = cachedModel s /\
      added s (snd (run respond (callGemini prompt) s)) =
        [(generate_request id prompt,
          fst (respond (net s) (generate_request id prompt)))]) /\
  (forall (prompt : string) (s : state W),
      truthy (cachedModel s) = false ->
      no_success (trace s) ->
      (cachedModel (snd (run respond (callGemini prompt) s)) = cachedModel s /\
       no_success (trace (snd (run respond (callGemini prompt) s)))) \/
      (exists (id : string) (tr : list (request * fetch_outcome))
              (o : fetch_outcome) (rest : list (request * fetch_outcome)),
          truthy (cachedModel (snd (run respond (callGemini prompt) s))) = true /\
          to_string (cachedModel (snd (run respond (callGemini prompt) s)))
            = Some id /\
          trace (snd (run respond (callGemini prompt) s)) =
            ((trace s ++ tr) ++ (generate_request id prompt, o) :: rest)%list /\
          no_success (trace s ++ tr) /\
          usable o = true)) /\
  (forall (prompts : list string) (s : state W),
      truthy (cachedModel s) = true ->
      cachedModel (run_calls respond prompts s) = cachedModel s) /\
  (forall (before after : list (tick jsval)) (s : state W),
      only_calls (before ++ after) ->
      truthy (cachedModel (snd (run_schedule respond before [] s))) = true ->
      truthy (cachedModel (snd (run_schedule respond (before ++ after) [] s)))
        = true).
Proof.
  split; [|split; [|split]].
  - intros prompt id s Hc Hid. split; [now apply cached_call_keeps|].
    rewrite run_callGemini, (run_cached _ s Hc), Hid, exchange_eq.
    now apply added_app.
  - intros prompt s Hc Hs. rewrite run_callGemini.
    destruct (ensureWorkingModel_ends prompt s Hc)
      as [(m & id & tr & o & H1 & H2 & H3 & H4 & H5 & H6 & H7)
         |(e & tr & H1 & H2 & H3 & H4)];
      destruct (run respond (ensureWorkingModel (Some prompt)) s) as [r s1];
      simpl in *; subst r.
    + right. rewrite H2, exchange_eq.
      exists id, tr, o,
        [(generate_request id prompt,
          fst (respond (net s1) (generate_request id prompt)))].
      simpl. rewrite H4, H5. repeat split; auto.
      * now rewrite <- !app_assoc.
      * apply Forall_app. now split.
    + left. simpl. rewrite H3. split; [exact H2|].
      apply Forall_app. now split.
  - induction prompts as [|p prompts IH]; intros s Hc; [reflexivity|].
    cbn [run_calls]. pose proof (cached_call_keeps p s Hc) as Hk.
    rewrite IH; [exact Hk|]. now rewrite Hk.
  - intros before after s Hticks Hc.
    assert (Hstores :
      Forall (fun t => match t with
                       | Start p => stores is_truthy p
                       | Deliver _ => True
                       end) (before ++ after)).
    { unfold only_calls in Hticks.
      eapply Forall_impl; [|exact Hticks].
      intros [p|i]; [|trivial]. intros [prompt ->]. apply stores_callGemini. }
    apply Forall_app in Hstores as [Hb Ha].
    rewrite run_schedule_app.
    apply run_schedule_stores; [exact Ha| |exact Hc].
    apply run_schedule_pool; [exact Hb|constructor].
Qed.
End Properties.
End Resolver.

(* ================================================================== *)
(** ** The routes *)

Module Routes.
Import JS Async Express RunFacts.

Section Properties.
Context {env : Env} {W : Type}.
Variable respond : W -> request -> fetch_outcome * W.

Lemma destructure_not_null (req_body : json) (k : string) :
  req_body <> JNull -> destructure (Some req_body) k = Ret (get_prop req_body k).
Proof. destruct req_body; intros H; try reflexivity. now elim H. Qed.

Lemma has_prop_object (req_body : json) (k : string) (v : json) :
  get_prop req_body k = Some v -> req_body <> JNull.
Proof. destruct req_body; discriminate. Qed.

(** The [try] block of a route of the auto-selecting server, for a
    text that prints as [shown]. *)
Lemma run_try_block (t : json) (shown : string) (prompt : string -> string)
    (field : string) (original : jsval) (h : js_error -> prog response)
    (s : state W) :
  to_string t = Some shown ->
  run respond
    (try_catch
       (bind (template t) (fun shown =>
          bind (AutoSelect.callGemini (prompt shown)) (fun output =>
            Ret {| status := 200;
                   body := JObj (literal [("original", original);
                                          (field, output)]) |})))
       h) s =
  match run respond (AutoSelect.callGemini (prompt shown)) s with
  | (Returned output, s1) =>
      (Returned {| status := 200;
                   body := JObj (literal [("original", original);
                                          (field, output)]) |}, s1)
  | (Thrown e, s1) => run respond (h e) s1
  end.
Proof.
  intros Hid. rewrite run_try_catch. unfold template. rewrite Hid.
  cbn [bind]. rewrite run_bind.
  destruct (run respond (AutoSelect.callGemini (prompt shown)) s)
    as [[output|e] s1]; reflexivity.
Qed.

(** The same for the plain server. *)
Lemma run_try_rest (prompt : string) (s : state W) :
  run respond
    (bind (Backend.callGeminiAPI prompt) (fun result =>
       Ret {| status := 200; body := JObj [("result", result)] |})) s =
  match run respond (Backend.callGeminiAPI prompt) s with
  | (Returned result, s1) =>
      (Returned {| status := 200; body := JObj [("result", result)] |}, s1)
  | (Thrown e, s1) => (Thrown e, s1)
  end.
Proof.
  rewrite run_bind.
  destruct (run respond (Backend.callGeminiAPI prompt) s) as [[r|e] s1];
    reflexivity.
Qed.

Lemma run_humanize (req_body t : json) (shown : string) (s : state W) :
  get_prop req_body "text" = Some t ->
  truthy t = true ->
  to_string t = Some shown ->
  run respond (AutoSelect.humanize (Some req_body)) s =
  match run respond (AutoSelect.callGemini (AutoSelect.humanize_prompt shown)) s with
  | (Returned output, s1) =>
      (Returned {| status := 200;
                   body := JObj (literal [("original", Some t);
                                          ("humanized", output)]) |}, s1)
  | (Thrown e, s1) => run respond (AutoSelect.failed "/api/humanize" e) s1
  end.
Proof.
  intros Ht Htr Hid. unfold AutoSelect.humanize.
  rewrite (destructure_not_null _ _ (has_prop_object _ _ _ Ht)).
  cbn [bind]. rewrite Ht, Htr.
  exact (run_try_block t shown AutoSelect.humanize_prompt "humanized"
           (Some t) _ s Hid).
Qed.

Lemma run_summarize (req_body t : json) (shown : string) (s : state W) :
  get_prop req_body "text" = Some t ->
  truthy t = true ->
  to_string t = Some shown ->
  run respond (AutoSelect.summarize (Some req_body)) s =
  match run respond (AutoSelect.callGemini (AutoSelect.summarize_prompt shown)) s with
  | (Returned output, s1) =>
      (Returned {| status := 200;
                   body := JObj (literal [("original", Some t);
                                          ("summary", output)]) |}, s1)
  | (Thrown e, s1) => run respond (AutoSelect.failed "/api/summarize" e) s1
  end.
Proof.
  intros Ht Htr Hid. unfold AutoSelect.summarize.
  rewrite (destructure_not_null _ _ (has_prop_object _ _ _ Ht)).
  cbn [bind]. rewrite Ht, Htr.
  exact (run_try_block t shown AutoSelect.summarize_prompt "summary"
           (Some t) _ s Hid).
Qed.

Lemma run_tone (req_body t m : json) (shown : string) (s : state W) :
  get_prop req_body "text" = Some t ->
  get_prop req_body "mode" = Some m ->
  truthy t = true ->
  truthy m = true ->
  to_string t = Some shown ->
  run respond (AutoSelect.tone (Some req_body)) s =
  match run respond (AutoSelect.callGemini
                       (AutoSelect.tone_prompt (AutoSelect.tone_of m) shown)) s with
  | (Returned output, s1) =>
      (Returned {| status := 200;
                   body := JObj (literal [("original", Some t);
                                          ("toned", output)]) |}, s1)
  | (Thrown e, s1) => run respond (AutoSelect.failed "/api/tone" e) s1
  end.
Proof.
  intros Ht Hm Htr Hmr Hid. unfold AutoSelect.tone.
  rewrite !(destructure_not_null _ _ (has_prop_object _ _ _ Ht)).
  cbn [bind]. rewrite Ht, Hm, Htr, Hmr. cbn [andb].
  exact (run_try_block t shown
           (AutoSelect.tone_prompt (AutoSelect.tone_of m)) "toned"
           (Some t) _ s Hid).
Qed.

Lemma run_backend_humanize (req_body t : json) (shown : string)
    (s : state W) :
  get_prop req_body "text" = Some t ->
  truthy t = true ->
  to_string t = Some shown ->
  run respond (Backend.humanize (Some req_body)) s =
  match run respond (Backend.callGeminiAPI (Backend.humanize_prompt shown)) s with
  | (Returned result, s1) =>
      (Returned {| status := 200; body := JObj [("result", result)] |}, s1)
  | (Thrown e, s1) => run respond (Backend.failed "Humanize" e) s1
  end.
Proof.
  intros Ht Htr Hid. unfold Backend.humanize.
  rewrite (destructure_not_null _ _ (has_prop_object _ _ _ Ht)).
  cbn [bind]. rewrite Ht, Htr. unfold template. rewrite Hid. cbn [bind].
  rewrite run_try_catch, run_try_rest.
  destruct (run respond (Backend.callGeminiAPI _) s) as [[r|e] s1];
    reflexivity.
Qed.

Lemma run_backend_summarize (req_body t : json) (shown : string)
    (s : state W) :
  get_prop req_body "text" = Some t ->
  truthy t = true ->
  to_string t = Some shown ->
  run respond (Backend.summarize (Some req_body)) s =
  match run respond (Backend.callGeminiAPI (Backend.summarize_prompt shown)) s with
  | (Returned result, s1) =>
      (Returned {| status := 200; body := JObj [("result", result)] |}, s1)
  | (Thrown e, s1) => run respond (Backend.failed "Summarize" e) s1
  end.
Proof.
  intros Ht Htr Hid. unfold Backend.summarize.
  rewrite (destructure_not_null _ _ (has_prop_object _ _ _ Ht)).
  cbn [bind]. rewrite Ht, Htr. unfold template. rewrite Hid. cbn [bind].
  rewrite run_try_catch, run_try_rest.
  destruct (run respond (Backend.callGeminiAPI _) s) as [[r|e] s1];
    reflexivity.
Qed.

Lemma run_backend_tone (req_body t m : json) (shown : string)
    (s : state W) :
  get_prop req_body "text" = Some t ->
  get_prop req_body "mode" = Some m ->
  truthy t = true ->
  truthy m = true ->
  to_string t = Some shown ->
  run respond (Backend.tone (Some req_body)) s =
  match run respond (Backend.callGeminiAPI
                       (Backend.tone_prompt (Backend.tone_of m) shown)) s with
  | (Returned result, s1) =>
      (Returned {| status := 200; body := JObj [("result", result)] |}, s1)
  | (Thrown e, s1) => run respond (Backend.failed "Tone" e) s1
  end.
Proof.
  intros Ht Hm Htr Hmr Hid. unfold Backend.tone.
  rewrite !(destructure_not_null _ _ (has_prop_object _ _ _ Ht)).
  cbn [bind]. rewrite Ht, Hm, Htr, Hmr. cbn [andb].
  unfold template. rewrite Hid. cbn [bind].
  rewrite run_try_catch, run_try_rest.
  destruct (run respond (Backend.callGeminiAPI _) s) as [[r|e] s1];
    reflexivity.
Qed.

(** Without a successful attempt [callGemini] throws. *)
Lemma callGemini_throws (prompt : string) (s : state W) :
  AutoSelect.no_success (added s (snd (run respond (AutoSelect.callGemini prompt) s))) ->
  exists e, fst (run respond (AutoSelect.callGemini prompt) s) = Thrown e.
Proof.
  rewrite AutoSelectFacts.run_callGemini.
  destruct (run_extends respond (AutoSelect.ensureWorkingModel (Some prompt)) s)
    as (tr & _ & Ht & _).
  destruct (run respond (AutoSelect.ensureWorkingModel (Some prompt)) s)
    as [[m|e] s1]; [|intros _; now exists e].
  simpl in Ht.
  destruct (to_string m) as [id|]; [|intros _; now eexists].
  rewrite exchange_eq. cbn [fst snd].
  set (o := fst (respond (net s1) (AutoSelect.generate_request id prompt))).
  rewrite (added_app s _ (tr ++ [(AutoSelect.generate_request id prompt, o)]));
    [|simpl; rewrite Ht; now rewrite <- app_assoc].
  intros H. apply Forall_app in H as [_ H]. inversion H as [|x l Hx _]; subst.
  pose proof (Hx eq_refl) as Hu. cbn [snd] in Hu.
  unfold AutoSelect.call_result. rewrite Hu. now eexists.
Qed.

(** Without a successful attempt [callGeminiAPI] throws [all_failed]. *)
Lemma callGeminiAPI_throws (prompt : string) (s : state W) :
  Backend.no_success (added s (snd (run respond (Backend.callGeminiAPI prompt) s))) ->
  fst (run respond (Backend.callGeminiAPI prompt) s) = Thrown Backend.all_failed.
Proof.
  unfold Backend.callGeminiAPI.
  destruct (BackendFacts.try_models_total respond prompt Backend.GEMINI_MODELS s)
    as (r & s1 & Hrun & [->|[v ->]]); rewrite Hrun; [reflexivity|].
  destruct (BackendFacts.try_models_returned respond prompt _ s s1 v Hrun)
    as (model & tr & o & _ & Ht & Hv).
  cbn [fst snd]. rewrite (added_app s s1 _ Ht).
  intros H. apply Forall_app in H as [_ H]. inversion H as [|x l Hx _]; subst.
  specialize (Hx eq_refl). cbn [snd] in Hx. unfold Backend.usable in Hx.
  rewrite Hv in Hx. discriminate.
Qed.

(** C3 (as amended).  When no generation attempt of a call succeeds
    (every candidate fails, and so does the attempt of the last resort
    if there is one), the call throws instead of returning a value:
    [callGemini] throws some error, [callGeminiAPI] throws
    [all_failed].  Every route answers a throw of the call with status
    500.  In the auto-selecting server the body is [{ error, details }]
    and [details] is [err.message || err] of the thrown error; in the
    plain server the body is [{ error }] alone. *)
Theorem generation_failure_is_500 :
  (forall (prompt : string) (s : state W),
      AutoSelect.no_success
        (added s (snd (run respond (AutoSelect.callGemini prompt) s))) ->
      exists e, fst (run respond (AutoSelect.callGemini prompt) s) = Thrown e)
  /\
  (forall (req_body t : json) (shown : string) (s s1 : state W) (e : js_error),
      get_prop req_body "text" = Some t ->
      truthy t = true ->
      to_string t = Some shown ->
      (run respond (AutoSelect.callGemini (AutoSelect.humanize_prompt shown)) s
         = (Thrown e, s1) ->
       fst (run respond (AutoSelect.humanize (Some req_body)) s) =
       Returned {| status := 500;
                   body := JObj [("error", JStr "Gemini request failed");
                                 ("details", message_or_self e)] |})
      /\
      (run respond (AutoSelect.callGemini (AutoSelect.summarize_prompt shown)) s
         = (Thrown e, s1) ->
       fst (run respond (AutoSelect.summarize (Some req_body)) s) =
       Returned {| status := 500;
                   body := JObj [("error", JStr "Gemini request failed");
                                 ("details", message_or_self e)] |})
      /\
      (forall m : json,
          get_prop req_body "mode" = Some m ->
          truthy m = true ->
          run respond (AutoSelect.callGemini
                         (AutoSelect.tone_prompt (AutoSelect.tone_of m) shown)) s
            = (Thrown e, s1) ->
          fst (run respond (AutoSelect.tone (Some req_body)) s) =
          Returned {| status := 500;
                      body := JObj [("error", JStr "Gemini request failed");
                                    ("details", message_or_self e)] |}))
  /\
  (forall (prompt : string) (s : state W),
      Backend.no_success
        (added s (snd (run respond (Backend.callGeminiAPI prompt) s))) ->
      fst (run respond (Backend.callGeminiAPI prompt) s)
        = Thrown Backend.all_failed)
  /\
  (forall (req_body t : json) (shown : string) (s s1 : state W) (e : js_error),
      get_prop req_body "text" = Some t ->
      truthy t = true ->
      to_string t = Some shown ->
      (run respond (Backend.callGeminiAPI (Backend.humanize_prompt shown)) s
         = (Thrown e, s1) ->
       fst (run respond (Backend.humanize (Some req_body)) s) =
       Returned {| status := 500;
                   body := JObj [("error", JStr "Error contacting Gemini API")] |})
      /\
      (run respond (Backend.callGeminiAPI (Backend.summarize_prompt shown)) s
         = (Thrown e, s1) ->
       fst (run respond (Backend.summarize (Some req_body)) s) =
       Returned {| status := 500;
                   body := JObj [("error", JStr "Error contacting Gemini API")] |})
      /\
      (forall m : json,
          get_prop req_body "mode" = Some m ->
          truthy m = true ->
          run respond (Backend.callGeminiAPI
                         (Backend.tone_prompt (Backend.tone_of m) shown)) s
            = (Thrown e, s1) ->
          fst (run respond (Backend.tone (Some req_body)) s) =
          Returned {| status := 500;
                      body := JObj [("error", JStr "Error contacting Gemini API")] |})).
Proof.
  split; [exact callGemini_throws|].
  split.
  { intros req_body t shown s s1 e Ht Htr Hid. repeat split.
    - intros Hrun. now rewrite (run_humanize _ _ _ _ Ht Htr Hid), Hrun.
    - intros Hrun. now rewrite (run_summarize _ _ _ _ Ht Htr Hid), Hrun.
    - intros m Hm Hmr Hrun.
      now rewrite (run_tone _ _ _ _ _ Ht Hm Htr Hmr Hid), Hrun. }
  split; [exact callGeminiAPI_throws|].
  intros req_body t shown s s1 e Ht Htr Hid. repeat split.
  - intros Hrun. now rewrite (run_backend_humanize _ _ _ _ Ht Htr Hid), Hrun.
  - intros Hrun. now rewrite (run_backend_summarize _ _ _ _ Ht Htr Hid), Hrun.
  - intros m Hm Hmr Hrun.
    now rewrite (run_backend_tone _ _ _ _ _ Ht Hm Htr Hmr Hid), Hrun.
Qed.
End Properties.
End Routes.

(* ================================================================== *)
(** ** Failures of single attempts *)

Module Fallback.
Import JS Async Express RunFacts.

Section Properties.
Context {env : Env} {W : Type}.
Variable respond : W -> request -> fetch_outcome * W.

Lemma unusable_iff (o : fetch_outcome) :
  AutoSelect.usable o = false <->
  (exists e, o = NetError e) \/
  (exists status raw,
      o = Response status raw /\
      (status_ok status = false \/ JSON_parse raw = None \/
       exists data, JSON_parse raw = Some data /\
                    truthy (AutoSelect.extract_text data) = false)).
Proof.
  split.
  - intros Hu. destruct o as [e|status raw]; [left; now exists e|].
    right. exists status, raw. split; [reflexivity|].
    destruct (status_ok status) eqn:Hs; [|now left]. right.
    destruct (JSON_parse raw) as [d|] eqn:Hp; [|now left]. right.
    exists d. split; [reflexivity|].
    destruct (truthy (AutoSelect.extract_text d)) eqn:Ht; [|reflexivity].
    assert (AutoSelect.usable (Response status raw) = true) as H.
    { apply Resolver.usable_iff. now exists status, raw, d. }
    congruence.
  - intros H. destruct (AutoSelect.usable o) eqn:Hu; [|reflexivity].
    apply Resolver.usable_iff in Hu
      as (status & raw & d & -> & Hs & Hp & Ht).
    destruct H as [[e H]|(st & r & H & [H1|[H1|(d' & H1 & H2)]])];
      try discriminate; injection H as <- <-; congruence.
Qed.

Lemma backend_unusable_iff (o : fetch_outcome) :
  Backend.usable o = false <->
  (exists e, o = NetError e) \/
  (exists status raw,
      o = Response status raw /\
      (status_ok status = false \/ JSON_parse raw = None \/
       exists data, JSON_parse raw = Some data /\
                    truthy_val (Backend.result_of data) = false)).
Proof.
  unfold Backend.usable, Backend.verdict.
  destruct o as [e|status raw].
  - split; [left; now exists e|reflexivity].
  - destruct (status_ok status) eqn:Hs; simpl.
    + destruct (JSON_parse raw) as [d|] eqn:Hp.
      * destruct (Backend.result_of d) as [r|] eqn:Hr; simpl.
        -- destruct (truthy r) eqn:Ht.
           ++ split; [discriminate|].
              intros [[e H]|(st & r' & H & [H1|[H1|(d' & H1 & H2)]])];
                try discriminate; injection H as <- <-; try congruence.
              rewrite Hp in H1. injection H1 as <-.
              rewrite Hr in H2. simpl in H2. congruence.
           ++ split; [|reflexivity]. intros _. right.
              exists status, raw. split; [reflexivity|]. right. right.
              exists d. rewrite Hr. auto.
        -- split; [|reflexivity]. intros _. right.
           exists status, raw. split; [reflexivity|]. right. right.
           exists d. rewrite Hr. auto.
      * split; [|reflexivity]. intros _. right.
        exists status, raw. auto.
    + split; [|reflexivity]. intros _. right. exists status, raw. auto.
Qed.

(** C4 (as amended).  In both servers a failed attempt on one model
    (a transport error or timeout, a status that is not a success, a
    body that does not parse, a parsed body without text) throws
    nothing at that point and does not end the loop: the loop goes on
    with the remaining models.  [ensureWorkingModel] writes the
    failure line, with the reason, in each of these cases;
    [callGeminiAPI] writes a line for a transport error, for a status
    that is not a success and for a body that does not parse. *)
Theorem candidate_failure_advances :
  (forall o : fetch_outcome,
      AutoSelect.usable o = false <->
      (exists e, o = NetError e) \/
      (exists status raw,
          o = Response status raw /\
          (status_ok status = false \/ JSON_parse raw = None \/
           exists data, JSON_parse raw = Some data /\
                        truthy (AutoSelect.extract_text data) = false)))
  /\
  (forall (model : string) (models : list string) (p : string)
          (rest : prog json) (s : state W),
      let o := fst (respond (net s) (AutoSelect.generate_request model p)) in
      AutoSelect.usable o = false ->
      run respond (AutoSelect.try_candidates (model :: models) p rest) s =
      run respond (AutoSelect.try_candidates models p rest)
        (prints (AutoSelect.attempt_lines model o
                 ++ [AutoSelect.failure_line model (AutoSelect.attempt_of o)])
           (snd (exchange respond (AutoSelect.generate_request model p) s))))
  /\
  (forall o : fetch_outcome,
      Backend.usable o = false <->
      (exists e, o = NetError e) \/
      (exists status raw,
          o = Response status raw /\
          (status_ok status = false \/ JSON_parse raw = None \/
           exists data, JSON_parse raw = Some data /\
                        truthy_val (Backend.result_of data) = false)))
  /\
  (forall (model : string) (models : list string) (p : string) (s : state W),
      let o := fst (respond (net s) (Backend.generate_request model p)) in
      Backend.usable o = false ->
      run respond (Backend.try_models (model :: models) p) s =
      run respond (Backend.try_models models p)
        (prints (Backend.turn_lines model o)
           (snd (exchange respond (Backend.generate_request model p) s))))
  /\
  (forall (model : string) (o : fetch_outcome),
      (exists e, o = NetError e) \/
      (exists status raw,
          o = Response status raw /\
          (status_ok status = false \/ JSON_parse raw = None)) ->
      exists l, Backend.turn_lines model o = [l]).
Proof.
  split; [exact unusable_iff|].
  split; [intros model models p rest s o Hu;
          now apply Resolver.try_candidates_failure|].
  split; [exact backend_unusable_iff|].
  split.
  - intros model models p s o Hu.
    rewrite BackendFacts.try_models_step, exchange_eq. fold o.
    unfold Backend.usable in Hu. now destruct (Backend.verdict o).
  - intros model o [[e ->]|(status & raw & -> & [H|H])]; simpl.
    + now eexists.
    + rewrite H. simpl. now eexists.
    + destruct (status_ok status); simpl; [|now eexists].
      rewrite H. now eexists.
Qed.
End Properties.
End Fallback.

(* ================================================================== *)
(** ** Validation of requests *)

Module Validation.
Import JS Async Express RunFacts AutoSelectFacts Routes.

Section Properties.
Context {env : Env} {W : Type}.
Variable respond : W -> request -> fetch_outcome * W.

Lemma sends_destructure {B : Type} (P : request -> Prop) (req_body : jsval)
    (k : string) (f : jsval -> prog B) :
  (forall v, sends P (f v)) -> sends P (bind (destructure req_body k) f).
Proof.
  intros H. destruct req_body as [[]|]; simpl; auto; constructor.
Qed.

Lemma carries_nonempty (p : string) (r : request) :
  p <> "" -> carries p r -> carries_text r.
Proof. intros Hp. destruct r; simpl; auto. intros ->. now exists p. Qed.

Lemma sends_try_model (model p : string) :
  sends (carries p) (Backend.try_model model p).
Proof.
  unfold Backend.try_model. simpl. constructor; [reflexivity|].
  intros [e|status raw]; simpl; repeat constructor.
  destruct (negb (status_ok status)); simpl; repeat constructor.
  destruct (JSON_parse raw) as [d|]; simpl; repeat constructor.
  destruct (Backend.result_of d) as [r|]; simpl; repeat constructor.
  destruct (truthy r); simpl; repeat constructor.
Qed.

Lemma sends_callGeminiAPI (p : string) :
  sends (carries p) (Backend.callGeminiAPI p).
Proof.
  unfold Backend.callGeminiAPI.
  induction Backend.GEMINI_MODELS as [|model models IH]; [constructor|].
  cbn [Backend.try_models]. apply sends_bind; [apply sends_try_model|].
  intros [v|]; [constructor|exact IH].
Qed.

(** The [try] block of a route sends only prompts that start with the
    text of its template. *)
Lemma sends_block (t : json) (prompt : string -> string) (field : string)
    (original : jsval) (where_ : string) :
  (forall shown, prompt shown <> "") ->
  sends carries_text
    (try_catch
       (bind (template t) (fun shown =>
          bind (AutoSelect.callGemini (prompt shown)) (fun output =>
            Ret {| status := 200;
                   body := JObj (literal [("original", original);
                                          (field, output)]) |})))
       (AutoSelect.failed where_)).
Proof.
  intros Hp. apply sends_try_catch.
  - apply sends_template. intros shown. apply sends_bind; [|constructor].
    apply (sends_weaken (carries (prompt shown))).
    + intros r. apply carries_nonempty, Hp.
    + apply sends_callGemini.
  - intros e. unfold AutoSelect.failed. simpl. repeat constructor.
Qed.

Lemma sends_backend_block (t : json) (prompt : string -> string)
    (q : prog response) :
  (forall shown, prompt shown <> "") ->
  (q = bind (template t) (fun shown =>
         bind (Backend.callGeminiAPI (prompt shown)) (fun result =>
           Ret {| status := 200; body := JObj [("result", result)] |}))) ->
  sends carries_text q.
Proof.
  intros Hp ->. apply sends_template. intros shown.
  apply sends_bind; [|constructor].
  apply (sends_weaken (carries (prompt shown))).
  - intros r. apply carries_nonempty, Hp.
  - apply sends_callGeminiAPI.
Qed.

Lemma sends_humanize (req_body : jsval) :
  sends carries_text (AutoSelect.humanize req_body).
Proof.
  unfold AutoSelect.humanize. apply sends_destructure.
  intros [t|]; [|constructor]. destruct (truthy t); [|constructor].
  apply (sends_block t AutoSelect.humanize_prompt). discriminate.
Qed.

Lemma sends_summarize (req_body : jsval) :
  sends carries_text (AutoSelect.summarize req_body).
Proof.
  unfold AutoSelect.summarize. apply sends_destructure.
  intros [t|]; [|constructor]. destruct (truthy t); [|constructor].
  apply (sends_block t AutoSelect.summarize_prompt). discriminate.
Qed.

Lemma sends_tone (req_body : jsval) :
  sends carries_text (AutoSelect.tone req_body).
Proof.
  unfold AutoSelect.tone. apply sends_destructure. intros text.
  apply sends_destructure. intros mode.
  destruct text as [t|]; [|constructor].
  destruct mode as [m|]; [|constructor].
  destruct (truthy t && truthy m); [|constructor].
  apply (sends_block t (AutoSelect.tone_prompt (AutoSelect.tone_of m))).
  discriminate.
Qed.

Lemma sends_backend_failed (what : string) (e : js_error) :
  sends carries_text (Backend.failed what e).
Proof. unfold Backend.failed. simpl. repeat constructor. Qed.

Lemma sends_backend_humanize (req_body : jsval) :
  sends carries_text (Backend.humanize req_body).
Proof.
  unfold Backend.humanize.
  apply sends_try_catch; [|apply sends_backend_failed].
  apply sends_destructure.
  intros [t|]; [|constructor]. destruct (truthy t); [|constructor].
  apply (sends_backend_block t Backend.humanize_prompt);
    [discriminate|reflexivity].
Qed.

Lemma sends_backend_summarize (req_body : jsval) :
  sends carries_text (Backend.summarize req_body).
Proof.
  unfold Backend.summarize.
  apply sends_try_catch; [|apply sends_backend_failed].
  apply sends_destructure.
  intros [t|]; [|constructor]. destruct (truthy t); [|constructor].
  apply (sends_backend_block t Backend.summarize_prompt);
    [discriminate|reflexivity].
Qed.

Lemma sends_backend_tone (req_body : jsval) :
  sends carries_text (Backend.tone req_body).
Proof.
  unfold Backend.tone.
  apply sends_try_catch; [|apply sends_backend_failed].
  apply sends_destructure. intros text.
  apply sends_destructure. intros mode.
  destruct text as [t|]; [|constructor].
  destruct mode as [m|]; [|constructor].
  destruct (truthy t && truthy m); [|constructor].
  apply (sends_backend_block t (Backend.tone_prompt (Backend.tone_of m)));
    [discriminate|reflexivity].
Qed.






(** A body that can be destructured. *)
Lemma destructure_cases (req_body : jsval) :
  req_body = None \/ req_body = Some JNull \/
  exists b, req_body = Some b /\
            forall k, destructure req_body k = Ret (get_prop b k).
Proof.
  destruct req_body as [b|]; [|now left]. right.
  destruct b; [now left|right; eexists; split; reflexivity ..].
Qed.


Lemma tone_of_other (m : json) :
  m <> JStr "formal" ->
  AutoSelect.tone_of m = "Casual" /\ Backend.tone_of m = "casual".
Proof.
  intros Hm. unfold AutoSelect.tone_of, Backend.tone_of, strict_eq_string.
  destruct m as [| | |x| |]; auto.
  destruct (x =? "formal") eqn:E; auto.
  apply String.eqb_eq in E. subst x. now elim Hm.
Qed.

Lemma tone_accepted (req_body t m : json) :
  get_prop req_body "text" = Some t ->
  get_prop req_body "mode" = Some m ->
  truthy t = true ->
  truthy m = true ->
  AutoSelect.tone (Some req_body) =
  try_catch
    (bind (template t) (fun shown =>
       bind (AutoSelect.callGemini
               (AutoSelect.tone_prompt (AutoSelect.tone_of m) shown))
         (fun output =>
            Ret {| status := 200;
                   body := JObj (literal [("original", Some t);
                                          ("toned", output)]) |})))
    (AutoSelect.failed "/api/tone").
Proof.
  intros Ht Hm Htr Hmr. unfold AutoSelect.tone.
  rewrite !(destructure_not_null _ _ (has_prop_object _ _ _ Ht)).
  cbn [bind]. now rewrite Ht, Hm, Htr, Hmr.
Qed.

Lemma backend_tone_accepted (req_body t m : json) :
  get_prop req_body "text" = Some t ->
  get_prop req_body "mode" = Some m ->
  truthy t = true ->
  truthy m = true ->
  Backend.tone (Some req_body) =
  try_catch
    (bind (template t) (fun shown =>
       bind (Backend.callGeminiAPI
               (Backend.tone_prompt (Backend.tone_of m) shown))
         (fun result =>
            Ret {| status := 200; body := JObj [("result", result)] |})))
    (Backend.failed "Tone").
Proof.
  intros Ht Hm Htr Hmr. unfold Backend.tone.
  rewrite !(destructure_not_null _ _ (has_prop_object _ _ _ Ht)).
  cbn [bind]. now rewrite Ht, Hm, Htr, Hmr.
Qed.

Lemma tone_400_only_for_falsy (req_body : jsval) (s : state W) :
  let falsy_field :=
    exists b, req_body = Some b /\
              (truthy_val (get_prop b "text") = false \/
               truthy_val (get_prop b "mode") = false) in
  (forall resp, fst (run respond (AutoSelect.tone req_body) s) = Returned resp ->
                status resp = 400%Z -> falsy_field) /\
  (forall resp, fst (run respond (Backend.tone req_body) s) = Returned resp ->
                status resp = 400%Z -> falsy_field).
Proof.
  cbv zeta.
  destruct (destructure_cases req_body) as [-> | [-> | (b & -> & Hd)]].
  - split; intros resp H Hs; [discriminate|].
    cbn in H. injection H as <-. discriminate.
  - split; intros resp H Hs; [discriminate|].
    cbn in H. injection H as <-. discriminate.
  - destruct (truthy_val (get_prop b "text")) eqn:Ht;
      [|split; intros; exists b; auto].
    destruct (truthy_val (get_prop b "mode")) eqn:Hm;
      [|split; intros; exists b; auto].
    destruct (get_prop b "text") as [t|] eqn:Et; [|discriminate].
    destruct (get_prop b "mode") as [m|] eqn:Em; [|discriminate].
    cbn [truthy_val] in Ht, Hm.
    rewrite (tone_accepted b t m Et Em Ht Hm),
      (backend_tone_accepted b t m Et Em Ht Hm).
    rewrite !run_try_catch. unfold template.
    destruct (to_string t) as [shown|]; cbn [bind].
    + rewrite !run_bind.
      destruct (run respond (AutoSelect.callGemini _) s) as [[out|e] s1];
        destruct (run respond (Backend.callGeminiAPI _) s) as [[out'|e'] s1'];
        split; intros resp H Hs; cbn in H; injection H as <-; discriminate.
    + split; intros resp H Hs; cbn in H; injection H as <-; discriminate.
Qed.

(** C9.  /api/tone rejects no value of [mode] for being unknown.  For
    a truthy [text] that prints as [shown] and a truthy [mode] the
    request is processed: the handler calls the model with the prompt of
    the route, whose tone is "Formal" ("formal" in the plain server)
    when [mode] is exactly the string "formal" and "Casual" ("casual")
    for every other [mode]; it answers 200 with what the call returns
    and 500 when the call throws, and does nothing besides.  Status 400
    is only for a falsy [text] or [mode]. *)
Theorem tone_accepts_any_mode
    (req_body t m : json) (shown : string) (s : state W) :
  get_prop req_body "text" = Some t ->
  get_prop req_body "mode" = Some m ->
  truthy t = true ->
  truthy m = true ->
  to_string t = Some shown ->
  let formal := strict_eq_string m "formal" in
  let prompt := "Rewrite the following text in a "
                  ++ (if formal then "Formal" else "Casual")
                  ++ " tone:" ++ nl ++ nl ++ shown in
  let plain_prompt := "Rewrite this text in a "
                        ++ (if formal then "formal" else "casual")
                        ++ " tone:" ++ nl ++ shown in
  (forall (output : jsval) (s1 : state W),
      run respond (AutoSelect.callGemini prompt) s = (Returned output, s1) ->
      run respond (AutoSelect.tone (Some req_body)) s =
      (Returned {| status := 200;
                   body := JObj (literal [("original", Some t);
                                          ("toned", output)]) |}, s1))
  /\
  (forall (e : js_error) (s1 : state W),
      run respond (AutoSelect.callGemini prompt) s = (Thrown e, s1) ->
      fst (run respond (AutoSelect.tone (Some req_body)) s) =
      Returned {| status := 500;
                  body := JObj [("error", JStr "Gemini request failed");
                                ("details", message_or_self e)] |} /\
      trace (snd (run respond (AutoSelect.tone (Some req_body)) s)) = trace s1 /\
      cachedModel (snd (run respond (AutoSelect.tone (Some req_body)) s))
        = cachedModel s1)
  /\
  (forall (result : json) (s1 : state W),
      run respond (Backend.callGeminiAPI plain_prompt) s = (Returned result, s1) ->
      run respond (Backend.tone (Some req_body)) s =
      (Returned {| status := 200; body := JObj [("result", result)] |}, s1))
  /\
  (forall (e : js_error) (s1 : state W),
      run respond (Backend.callGeminiAPI plain_prompt) s = (Thrown e, s1) ->
      fst (run respond (Backend.tone (Some req_body)) s) =
      Returned {| status := 500;
                  body := JObj [("error", JStr "Error contacting Gemini API")] |}
      /\
      trace (snd (run respond (Backend.tone (Some req_body)) s)) = trace s1)
  /\
  (formal = true <-> m = JStr "formal")
  /\
  (forall (any_body : jsval) (s' : state W) (resp : response),
      fst (run respond (AutoSelect.tone any_body) s') = Returned resp \/
      fst (run respond (Backend.tone any_body) s') = Returned resp ->
      status resp = 400%Z ->
      exists b, any_body = Some b /\
                (truthy_val (get_prop b "text") = false \/
                 truthy_val (get_prop b "mode") = false)).
Proof.
  intros Ht Hm Htr Hmr Hid formal prompt plain_prompt.
  assert (Hp : prompt =
               AutoSelect.tone_prompt (AutoSelect.tone_of m) shown).
  { unfold prompt, formal, AutoSelect.tone_prompt, AutoSelect.tone_of.
    now destruct (strict_eq_string m "formal"). }
  assert (Hq : plain_prompt =
               Backend.tone_prompt (Backend.tone_of m) shown).
  { unfold plain_prompt, formal, Backend.tone_prompt, Backend.tone_of.
    now destruct (strict_eq_string m "formal"). }
  rewrite Hp, Hq.
  rewrite (Routes.run_tone respond req_body t m shown s Ht Hm Htr Hmr Hid),
    (Routes.run_backend_tone respond req_body t m shown s Ht Hm Htr Hmr Hid).
  split; [|split; [|split; [|split; [|split]]]].
  - intros output s1 ->. reflexivity.
  - intros e s1 ->. unfold AutoSelect.failed, log. cbn [bind run fst snd].
    repeat split.
  - intros result s1 ->. reflexivity.
  - intros e s1 ->. unfold Backend.failed, log. cbn [bind run fst snd].
    repeat split.
  - unfold formal, strict_eq_string. destruct m as [| | |x| |];
      try (split; discriminate).
    split; [intros E; apply String.eqb_eq in E; now subst x|].
    intros [= ->]. reflexivity.
  - intros any_body s' resp [H|H] Hs.
    + exact (proj1 (tone_400_only_for_falsy any_body s') resp H Hs).
    + exact (proj2 (tone_400_only_for_falsy any_body s') resp H Hs).
Qed.
End Properties.
End Validation.

(* ================================================================== *)
(** ** Runs on concrete networks *)

Module Scenarios.
Import JS Async Express Samples.

#[local] Existing Instance sample_env.

(** C1, the claim as stated fails.  The first candidate's attempt
    succeeds and its text is "Hi there", yet [callGemini] returns the
    text of the request it sends afterwards, "Something else". *)
Lemma callGemini_returns_later_text :
  let first := nth_error (trace (snd (run scripted
                 (AutoSelect.callGemini "Hello world") first_answers))) 0 in
  first = Some (AutoSelect.generate_request "gemini-2.5-pro" "Hello world",
                hi_there) /\
  AutoSelect.usable hi_there = true /\
  AutoSelect.text (AutoSelect.attempt_of hi_there) = Some (JStr "Hi there") /\
  fst (run scripted (AutoSelect.callGemini "Hello world") first_answers)
    = Returned (Some (JStr "Something else")) /\
  Some (JStr "Something else")
    <> AutoSelect.text (AutoSelect.attempt_of hi_there).
Proof.
  cbv zeta. repeat split; try (vm_compute; reflexivity).
  vm_compute. discriminate.
Qed.

(** C2, the claim as stated fails.  With two calls in flight
    [cachedModel] is assigned twice: after the first call's answer it is
    "gemini-2.5-pro", and the second call, which began before that,
    reassigns it to "gemini-2.5-flash". *)
Lemma cachedModel_reassigned_by_overlap :
  cachedModel (snd (run_schedule scripted
                      (firstn 3 (overlapping_calls sample_env)) []
                      overlapping_answers))
    = JStr "gemini-2.5-pro" /\
  cachedModel (snd (run_schedule scripted (overlapping_calls sample_env) []
                      overlapping_answers))
    = JStr "gemini-2.5-flash".
Proof. split; vm_compute; reflexivity. Qed.

(** C3, the claim as stated fails.  With every model failing, the
    /api/humanize route of the plain server answers 500 with a body that
    has an [error] and no [details]. *)
Lemma backend_500_has_no_details :
  let out := run scripted (Backend.humanize (Some (JObj [("text", JStr "x")]))) offline in
  fst (run scripted (Backend.callGeminiAPI (Backend.humanize_prompt "x")) offline)
    = Thrown Backend.all_failed /\
  exists resp,
    fst out = Returned resp /\ status resp = 500%Z /\
    get_prop (body resp) "error" = Some (JStr "Error contacting Gemini API") /\
    get_prop (body resp) "details" = None.
Proof.
  cbv zeta. split; [vm_compute; reflexivity|].
  eexists. split; [vm_compute; reflexivity|].
  repeat split.
Qed.

(** C4, the claim as stated fails.  In the plain server a success
    status with no text makes the first model fail and the loop go on,
    and nothing is written about it: the console stays empty. *)
Lemma backend_silent_on_missing_text :
  let out := run scripted (Backend.callGeminiAPI "Hello world") empty_then_text in
  Backend.usable (ok200 (JObj [])) = false /\
  map snd (trace (snd out)) = [ok200 (JObj []); hi_there] /\
  fst out = Returned (JStr "Hi there") /\
  console (snd out) = [].
Proof. cbv zeta. repeat split; vm_compute; reflexivity. Qed.

(** C5, the claim as stated fails.  The body has status 200 and no
    path yields a non-empty string (the fourth yields the number 42),
    yet the candidate is not treated as failed: it is stored as the
    model to use and the number is returned as the text. *)
Lemma number_taken_for_text :
  let data := short_answer (JNum "42") in
  JSON_parse (stringify data) = Some data /\
  existsb nonempty_string (AutoSelect.alts (Some data)) = false /\
  AutoSelect.extract_text data = JNum "42" /\
  run scripted (AutoSelect.ensureWorkingModel (Some "Hello world")) number_for_text
    = (Returned (JStr "gemini-2.5-pro"),
       snd (run scripted (AutoSelect.ensureWorkingModel (Some "Hello world"))
              number_for_text)) /\
  length (trace (snd (run scripted
                        (AutoSelect.ensureWorkingModel (Some "Hello world"))
                        number_for_text))) = 1 /\
  fst (run scripted (AutoSelect.callGemini "Hello world") number_for_text)
    = Returned (Some (JNum "42")).
Proof. cbv zeta. repeat split; vm_compute; reflexivity. Qed.

(** C6, the claim as stated fails.  Every candidate has been tried
    without success and the listing gives nothing: the resolver fails
    without any additional generation attempt. *)
Lemma no_attempt_without_listing :
  let out := run scripted (AutoSelect.ensureWorkingModel (Some "Hello world"))
               offline in
  posts (trace (snd out))
    = AutoSelect.attempts_on AutoSelect.CANDIDATE_MODELS "Hello world" /\
  map fst (filter (fun x => negb (is_post (fst x))) (trace (snd out)))
    = map AutoSelect.list_request AutoSelect.list_endpoints /\
  fst out = Thrown AutoSelect.no_usable_model.
Proof. cbv zeta. repeat split; vm_compute; reflexivity. Qed.

(** How the last resort chooses.  An entry with a truthy [name] is
    tested on its name alone: the first entry below, whose [id] holds
    "gemini", is passed over for the second.  An entry that cannot be
    converted to a string is chosen like any other truthy entry, and
    then no attempt can be made with it. *)
Lemma listing_choices :
  AutoSelect.choose
    (JArr [JObj [("name", JStr "models/text-bison"); ("id", JStr "gemini-pro")];
           JObj [("name", JStr "models/gemini-nano")]])
    = AutoSelect.Chosen (JStr "models/gemini-nano") /\
  AutoSelect.choose (JArr [JObj [("toString", JStr "x")]])
    = AutoSelect.Chosen (JObj [("toString", JStr "x")]) /\
  AutoSelect.last_resort (JArr [JObj [("toString", JStr "x")]]) "Hello world"
    = [].
Proof. repeat split. Qed.



(** The first candidate is busy, the second one answers "Hi there", and
    the request after the resolution gets "Something else". *)
Lemma callGemini_first_success_witness :
  AutoSelect.CANDIDATE_MODELS
    = (["gemini-2.5-pro"] ++ "gemini-2.5-flash"
         :: ["gemini-1.5-pro"; "gemini-1.5-flash"; "gemini-1.0"])%list /\
  truthy (cachedModel second_answers) = false /\
  replies scripted (net second_answers)
    (AutoSelect.attempts_on
       (["gemini-2.5-pro"] ++ ["gemini-2.5-flash"; "gemini-2.5-flash"])
       "Hello world")
    = (([busy] ++ [hi_there; something_else])%list, []) /\
  length [busy] = length ["gemini-2.5-pro"] /\
  AutoSelect.all_unusable [busy] = true /\
  AutoSelect.usable hi_there = true /\
  fst (run scripted (AutoSelect.ensureWorkingModel (Some "Hello world"))
         second_answers) = Returned (JStr "gemini-2.5-flash") /\
  fst (run scripted (AutoSelect.callGemini "Hello world") second_answers)
    = AutoSelect.call_result something_else /\
  cachedModel (snd (run scripted (AutoSelect.callGemini "Hello world")
                      second_answers)) = JStr "gemini-2.5-flash" /\
  net (snd (run scripted (AutoSelect.callGemini "Hello world") second_answers))
    = [] /\
  trace (snd (run scripted (AutoSelect.callGemini "Hello world") second_answers))
    = (trace second_answers
         ++ combine (AutoSelect.attempts_on
                       (["gemini-2.5-pro"]
                          ++ ["gemini-2.5-flash"; "gemini-2.5-flash"])
                       "Hello world")
                    ([busy] ++ [hi_there; something_else]))%list.
Proof.
  split; [reflexivity|]. split; [reflexivity|]. split; [reflexivity|].
  split; [reflexivity|]. split; [reflexivity|]. split; [reflexivity|].
  apply (Resolver.callGemini_first_success scripted
           ["gemini-2.5-pro"]
           ["gemini-1.5-pro"; "gemini-1.5-flash"; "gemini-1.0"]
           "gemini-2.5-flash" "Hello world" second_answers
           [busy] hi_there something_else []); reflexivity.
Defined.

(** The first candidate answers; the request after the resolution gets
    "Something else", and that is the result. *)
Lemma callGemini_second_request_witness :
  truthy (cachedModel first_answers) = false /\
  run scripted (AutoSelect.ensureWorkingModel (Some "Hello world")) first_answers
    = (Returned (JStr "gemini-2.5-pro"),
       snd (run scripted (AutoSelect.ensureWorkingModel (Some "Hello world"))
              first_answers)) /\
  Forall (fun x => carries "Hello world" (fst x))
    (added first_answers
       (snd (run scripted (AutoSelect.ensureWorkingModel (Some "Hello world"))
               first_answers))).
Proof.
  split; [reflexivity|]. split; [reflexivity|].
  apply (Resolver.callGemini_second_request scripted "Hello world"
           first_answers
           (snd (run scripted (AutoSelect.ensureWorkingModel (Some "Hello world"))
                   first_answers))
           (JStr "gemini-2.5-pro")); reflexivity.
Defined.

(** The five candidates are busy; the listing names "models/text-bison"
    and "models/Gemini-nano"; one more attempt is made, with the second
    name. *)
Lemma last_resort_at_most_once_witness :
  truthy (cachedModel only_listed_answers) = false /\
  replies scripted (net only_listed_answers)
    (AutoSelect.attempts_on AutoSelect.CANDIDATE_MODELS "Hello world")
    = ([busy; busy; busy; busy; busy],
       [ok200 (listing ["models/text-bison"; "models/Gemini-nano"]); hi_there]) /\
  AutoSelect.all_unusable [busy; busy; busy; busy; busy] = true /\
  exists listed : json,
    posts (added only_listed_answers
             (snd (run scripted
                     (AutoSelect.ensureWorkingModel (Some "Hello world"))
                     only_listed_answers)))
    = (AutoSelect.attempts_on AutoSelect.CANDIDATE_MODELS "Hello world"
         ++ AutoSelect.last_resort listed "Hello world")%list /\
    length (AutoSelect.last_resort listed "Hello world") <= 1.
Proof.
  split; [reflexivity|]. split; [reflexivity|]. split; [reflexivity|].
  assert (Hfail : AutoSelect.all_unusable [busy; busy; busy; busy; busy] = true)
    by reflexivity.
  destruct (Resolver.last_resort_at_most_once scripted "Hello world"
              only_listed_answers [busy; busy; busy; busy; busy]
              [ok200 (listing ["models/text-bison"; "models/Gemini-nano"]);
               hi_there]
              eq_refl eq_refl Hfail)
    as (s0 & s1 & listed & gets & _ & _ & _ & _ & _ & _ & Hposts & Hlen & _).
  exists listed. split; [exact Hposts|exact Hlen].
Defined.

(** A [mode] that is neither "formal" nor "casual", the first
    candidate answering: the model is asked for a "Casual" tone and
    what it returns is sent with status 200. *)
Lemma tone_accepts_any_mode_witness :
  let req_body := JObj [("text", JStr "ok"); ("mode", JStr "loud")] in
  let prompt := "Rewrite the following text in a Casual tone:" ++ nl ++ nl
                  ++ "ok" in
  let s1 := snd (run scripted (AutoSelect.callGemini prompt) first_answers) in
  get_prop req_body "text" = Some (JStr "ok") /\
  get_prop req_body "mode" = Some (JStr "loud") /\
  truthy (JStr "ok") = true /\
  truthy (JStr "loud") = true /\
  to_string (JStr "ok") = Some "ok" /\
  run scripted (AutoSelect.callGemini prompt) first_answers
    = (Returned (Some (JStr "Something else")), s1) /\
  run scripted (AutoSelect.tone (Some req_body)) first_answers
    = (Returned {| status := 200;
                   body := JObj [("original", JStr "ok");
                                 ("toned", JStr "Something else")] |}, s1).
Proof.
  cbv zeta.
  assert (Hcall :
    run scripted
      (AutoSelect.callGemini
         ("Rewrite the following text in a Casual tone:" ++ nl ++ nl ++ "ok"))
      first_answers
    = (Returned (Some (JStr "Something else")),
       snd (run scripted
              (AutoSelect.callGemini
                 ("Rewrite the following text in a Casual tone:" ++ nl ++ nl
                    ++ "ok"))
              first_answers))) by reflexivity.
  split; [reflexivity|]. split; [reflexivity|]. split; [reflexivity|].
  split; [reflexivity|]. split; [reflexivity|]. split; [exact Hcall|].
  exact (proj1 (Validation.tone_accepts_any_mode scripted
                  (JObj [("text", JStr "ok"); ("mode", JStr "loud")])
                  (JStr "ok") (JStr "loud") "ok" first_answers
                  eq_refl eq_refl eq_refl eq_refl eq_refl)
           (Some (JStr "Something else")) _ Hcall).
Defined.

(** A second call after the first one has cached "gemini-2.5-pro";
    and two calls in flight at once: the cache is set when the first
    one is answered, the second one, started before that, is still
    resolving, and the cache stays set to the end. *)
Lemma cachedModel_set_once_in_sequence_witness :
  let s := snd (run scripted (AutoSelect.callGemini "Hello world") first_answers) in
  let before := firstn 3 (overlapping_calls sample_env) in
  let after := skipn 3 (overlapping_calls sample_env) in
  (truthy (cachedModel s) = true /\
   to_string (cachedModel s) = Some "gemini-2.5-pro" /\
   cachedModel (snd (run scripted (AutoSelect.callGemini "Again") s))
     = cachedModel s /\
   added s (snd (run scripted (AutoSelect.callGemini "Again") s))
     = [(AutoSelect.generate_request "gemini-2.5-pro" "Again",
         fst (scripted (net s)
                (AutoSelect.generate_request "gemini-2.5-pro" "Again")))]) /\
  (AutoSelect.only_calls (before ++ after) /\
   length (fst (run_schedule scripted before [] overlapping_answers)) = 2 /\
   truthy (cachedModel (snd (run_schedule scripted before []
                               overlapping_answers))) = true /\
   truthy (cachedModel (snd (run_schedule scripted (before ++ after) []
                               overlapping_answers))) = true).
Proof.
  cbv zeta. split.
  - split; [reflexivity|]. split; [reflexivity|].
    apply (proj1 (Resolver.cachedModel_set_once_in_sequence scripted));
      reflexivity.
  - assert (Hcalls : AutoSelect.only_calls
                       (firstn 3 (overlapping_calls sample_env)
                          ++ skipn 3 (overlapping_calls sample_env))).
    { repeat constructor; eexists; reflexivity. }
    assert (Hset : truthy (cachedModel
                             (snd (run_schedule scripted
                                     (firstn 3 (overlapping_calls sample_env))
                                     [] overlapping_answers))) = true)
      by reflexivity.
    split; [exact Hcalls|]. split; [reflexivity|]. split; [exact Hset|].
    exact (proj2 (proj2 (proj2
             (Resolver.cachedModel_set_once_in_sequence scripted)))
             (firstn 3 (overlapping_calls sample_env))
             (skipn 3 (overlapping_calls sample_env))
             overlapping_answers Hcalls Hset).
Defined.

(** /api/humanize of the auto-selecting server with nothing reachable. *)
Lemma generation_failure_is_500_witness :
  let req_body := JObj [("text", JStr "x")] in
  let call := run scripted
                (AutoSelect.callGemini (AutoSelect.humanize_prompt "x")) offline in
  get_prop req_body "text" = Some (JStr "x") /\
  truthy (JStr "x") = true /\
  to_string (JStr "x") = Some "x" /\
  call = (Thrown AutoSelect.no_usable_model, snd call) /\
  fst (run scripted (AutoSelect.humanize (Some req_body)) offline) =
  Returned {| status := 500;
              body := JObj [("error", JStr "Gemini request failed");
                            ("details",
                             message_or_self AutoSelect.no_usable_model)] |}.
Proof.
  cbv zeta. split; [reflexivity|]. split; [reflexivity|].
  split; [reflexivity|]. split; [reflexivity|].
  apply (proj1 (proj1 (proj2 (Routes.generation_failure_is_500 scripted))
                  (JObj [("text", JStr "x")]) (JStr "x") "x" offline
                  (snd (run scripted
                          (AutoSelect.callGemini (AutoSelect.humanize_prompt "x"))
                          offline))
                  AutoSelect.no_usable_model eq_refl eq_refl eq_refl)).
  reflexivity.
Defined.

(** The first candidate is busy: the loop goes on with the others. *)
Lemma candidate_failure_advances_witness :
  let rest := AutoSelect.try_listed "Hello world" in
  let req := AutoSelect.generate_request "gemini-2.5-pro" "Hello world" in
  AutoSelect.usable (fst (scripted (net second_answers) req)) = false /\
  run scripted
    (AutoSelect.try_candidates ["gemini-2.5-pro"; "gemini-2.5-flash"]
       "Hello world" rest) second_answers =
  run scripted (AutoSelect.try_candidates ["gemini-2.5-flash"] "Hello world" rest)
    (prints (AutoSelect.attempt_lines "gemini-2.5-pro"
               (fst (scripted (net second_answers) req))
             ++ [AutoSelect.failure_line "gemini-2.5-pro"
                   (AutoSelect.attempt_of
                      (fst (scripted (net second_answers) req)))])
       (snd (exchange scripted req second_answers))).
Proof.
  cbv zeta. split; [reflexivity|].
  apply (proj1 (proj2 (Fallback.candidate_failure_advances scripted))
           "gemini-2.5-pro" ["gemini-2.5-flash"] "Hello world"
           (AutoSelect.try_listed "Hello world") second_answers).
  reflexivity.
Defined.

(** A status 200 whose body is the empty object. *)
Lemma extraction_takes_first_truthy_path_witness :
  let req := AutoSelect.generate_request "gemini-2.5-pro" "Hello world" in
  fst (scripted (net empty_then_text) req) = Response 200 (stringify (JObj [])) /\
  status_ok 200 = true /\
  JSON_parse (stringify (JObj [])) = Some (JObj []) /\
  find truthy_val (AutoSelect.alts (Some (JObj []))) = None /\
  AutoSelect.ok (AutoSelect.parse_response 200 (stringify (JObj []))) = false.
Proof.
  cbv zeta. split; [reflexivity|]. split; [reflexivity|].
  split; [reflexivity|]. split; [reflexivity|].
  apply (proj2 (Resolver.extraction_takes_first_truthy_path scripted)
           "gemini-2.5-pro" [] "Hello world" (AutoSelect.try_listed "Hello world")
           empty_then_text 200%Z (stringify (JObj [])) (JObj []));
    reflexivity.
Defined.



End Scenarios.

(* ================================================================== *)
(** ** The plain server: first success, and agreement with the
    auto-selecting server *)

Module PlainServer.
Import JS Async Express RunFacts BackendFacts.

Section Properties.
Context {env : Env} {W : Type}.
Variable respond : W -> request -> fetch_outcome * W.

Lemma try_models_all_fail (p : string) (models : list string) :
  forall (s : state W) (outs : list fetch_outcome) (w1 : W),
    replies respond (net s) (Backend.attempts_on models p) = (outs, w1) ->
    forallb (fun o => negb (Backend.usable o)) outs = true ->
    exists lines,
      run respond (Backend.try_models models p) s =
      (Thrown Backend.all_failed,
       {| cachedModel := cachedModel s; net := w1;
          trace := (trace s ++ combine (Backend.attempts_on models p) outs)%list;
          console := (console s ++ lines)%list |}).
Proof.
  induction models as [|model models IH]; intros s outs w1 Hr Hu.
  - simpl in Hr. injection Hr as <- <-. exists []. simpl.
    destruct s; simpl. now rewrite !app_nil_r.
  - simpl in Hr.
    destruct (respond (net s) (Backend.generate_request model p)) as [o w] eqn:Ho.
    destruct (replies respond w (Backend.attempts_on models p)) as [os w2] eqn:Hos.
    injection Hr as <- <-. simpl in Hu.
    apply andb_true_iff in Hu as [Hu1 Hu2]. apply negb_true_iff in Hu1.
    rewrite try_models_step. unfold exchange. rewrite Ho.
    unfold Backend.usable in Hu1.
    destruct (Backend.verdict o); [discriminate|].
    match goal with
    | |- context [run respond (Backend.try_models models p) ?s1] =>
        destruct (IH s1 os w2 Hos Hu2) as [lines Hrun]
    end.
    rewrite Hrun. simpl. exists (Backend.turn_lines model o ++ lines)%list.
    now rewrite <- !app_assoc.
Qed.

Lemma try_models_first_success (p : string) (pre : list string)
    (model : string) (post : list string) :
  forall (s : state W) (outs : list fetch_outcome) (o : fetch_outcome)
         (w1 : W) (v : json),
    replies respond (net s) (Backend.attempts_on (pre ++ [model]) p)
      = ((outs ++ [o])%list, w1) ->
    length outs = length pre ->
    forallb (fun o => negb (Backend.usable o)) outs = true ->
    Backend.verdict o = Some v ->
    exists lines,
      run respond (Backend.try_models (pre ++ model :: post) p) s =
      (Returned v,
       {| cachedModel := cachedModel s; net := w1;
          trace := (trace s ++ combine (Backend.attempts_on (pre ++ [model]) p)
                                 (outs ++ [o]))%list;
          console := (console s ++ lines)%list |}).
Proof.
  induction pre as [|c pre IH]; intros s outs o w1 v Hr Hl Hu Ho.
  - destruct outs; [|discriminate]. simpl in Hr.
    destruct (respond (net s) (Backend.generate_request model p)) as [o' w] eqn:E.
    injection Hr as -> <-. simpl app.
    rewrite try_models_step. unfold exchange. rewrite E, Ho. simpl.
    eexists. reflexivity.
  - destruct outs as [|o0 outs]; [discriminate|]. simpl in Hr, Hl, Hu.
    destruct (respond (net s) (Backend.generate_request c p)) as [o' w] eqn:E.
    destruct (replies respond w (Backend.attempts_on (pre ++ [model]) p))
      as [os w2] eqn:Hos.
    injection Hr as -> -> <-.
    apply andb_true_iff in Hu as [Hu1 Hu2]. apply negb_true_iff in Hu1.
    simpl app. rewrite try_models_step. unfold exchange. rewrite E.
    unfold Backend.usable in Hu1.
    destruct (Backend.verdict o0); [discriminate|].
    match goal with
    | |- context [run respond (Backend.try_models _ p) ?s1] =>
        destruct (IH s1 outs o w2 v Hos (eq_add_S _ _ Hl) Hu2 Ho)
          as [lines Hrun]
    end.
    rewrite Hrun. simpl. exists (Backend.turn_lines c o0 ++ lines)%list.
    now rewrite <- !app_assoc.
Qed.

(** X1.  In the plain server the first success wins as such: when the
    models before [model] fail and the attempt on [model] gives a text,
    [callGeminiAPI] returns that very text, its exchanges are the
    attempts on the earlier models and on [model], in order, no later
    model is tried and [cachedModel] is left alone. *)
Theorem callGeminiAPI_first_success
    (pre post : list string) (model prompt : string) (s : state W)
    (outs : list fetch_outcome) (o : fetch_outcome) (w1 : W) (v : json) :
  Backend.GEMINI_MODELS = (pre ++ model :: post)%list ->
  replies respond (net s) (Backend.attempts_on (pre ++ [model]) prompt)
    = ((outs ++ [o])%list, w1) ->
  length outs = length pre ->
  forallb (fun o => negb (Backend.usable o)) outs = true ->
  Backend.verdict o = Some v ->
  fst (run respond (Backend.callGeminiAPI prompt) s) = Returned v /\
  truthy v = true /\
  trace (snd (run respond (Backend.callGeminiAPI prompt) s)) =
    (trace s ++ combine (Backend.attempts_on (pre ++ [model]) prompt)
                  (outs ++ [o]))%list /\
  net (snd (run respond (Backend.callGeminiAPI prompt) s)) = w1 /\
  cachedModel (snd (run respond (Backend.callGeminiAPI prompt) s))
    = cachedModel s.
Proof.
  intros Hm Hr Hl Hu Ho. unfold Backend.callGeminiAPI. rewrite Hm.
  destruct (try_models_first_success prompt pre model post s outs o w1 v
              Hr Hl Hu Ho) as [lines Hrun].
  rewrite Hrun. simpl. repeat split.
  unfold Backend.verdict in Ho. destruct o as [e|status raw]; [discriminate|].
  destruct (negb (status_ok status)); [discriminate|].
  destruct (JSON_parse raw) as [d|]; [|discriminate].
  destruct (Backend.result_of d) as [r|]; [|discriminate].
  destruct (truthy r) eqn:Hr'; [|discriminate]. now injection Ho as <-.
Qed.

(** X2.  When every model fails, [callGeminiAPI] has tried each model
    of its list once, in the order of the list, and throws
    [all_failed]; [cachedModel] is left alone. *)
Theorem callGeminiAPI_exhausts_the_list
    (prompt : string) (s : state W) (outs : list fetch_outcome) (w1 : W) :
  replies respond (net s) (Backend.attempts_on Backend.GEMINI_MODELS prompt)
    = (outs, w1) ->
  forallb (fun o => negb (Backend.usable o)) outs = true ->
  fst (run respond (Backend.callGeminiAPI prompt) s) = Thrown Backend.all_failed /\
  trace (snd (run respond (Backend.callGeminiAPI prompt) s)) =
    (trace s ++ combine (Backend.attempts_on Backend.GEMINI_MODELS prompt) outs)%list /\
  length outs = length Backend.GEMINI_MODELS /\
  cachedModel (snd (run respond (Backend.callGeminiAPI prompt) s))
    = cachedModel s.
Proof.
  intros Hr Hu. unfold Backend.callGeminiAPI.
  destruct (try_models_all_fail prompt Backend.GEMINI_MODELS s outs w1 Hr Hu)
    as [lines Hrun].
  rewrite Hrun. simpl. repeat split.
  pose proof (AutoSelectFacts.replies_length respond (net s)
                (Backend.attempts_on Backend.GEMINI_MODELS prompt)) as H.
  rewrite Hr in H. simpl in H. exact H.
Qed.

(** X3.  Every answer from which the plain server takes a text is an
    answer from which the auto-selecting server takes the same text:
    the path read by [callGeminiAPI] is the first path of
    [tryModelGenerate].  The third path of [tryModelGenerate] is its
    first one again. *)
Theorem plain_success_is_auto_select_success :
  (forall (o : fetch_outcome) (v : json),
      Backend.verdict o = Some v ->
      AutoSelect.usable o = true /\
      AutoSelect.text (AutoSelect.attempt_of o) = Some v) /\
  (forall d : jsval, AutoSelect.alt3 d = AutoSelect.alt1 d).
Proof.
  split; [|reflexivity].
  intros o v Ho. unfold Backend.verdict in Ho.
  destruct o as [e|status raw]; [discriminate|].
  destruct (status_ok status) eqn:Hs; [|discriminate]. simpl in Ho.
  destruct (JSON_parse raw) as [d|] eqn:Hp; [|discriminate].
  destruct (Backend.result_of d) as [r|] eqn:Hr; [|discriminate].
  destruct (truthy r) eqn:Ht; [|discriminate]. injection Ho as <-.
  assert (He : AutoSelect.extract_text d = r).
  { rewrite Resolver.extract_text_find. unfold AutoSelect.alts.
    change (AutoSelect.alt1 (Some d)) with (Backend.result_of d).
    rewrite Hr. simpl. now rewrite Ht. }
  unfold AutoSelect.usable, AutoSelect.attempt_of, AutoSelect.parse_response.
  rewrite Hp, He, Hs, Ht. simpl. auto.
Qed.
End Properties.
End PlainServer.

(* ================================================================== *)
(** ** The listing of models and start-up *)

Module Listing.
Import JS Async Express RunFacts AutoSelectFacts Wiring.

Section Properties.
Context {env : Env} {W : Type}.
Variable respond : W -> request -> fetch_outcome * W.

Lemma run_list_one_exact (url : string) (s : state W) :
  exists lines,
    run respond (AutoSelect.list_one url) s =
    (Returned (listing_of (fst (respond (net s) (AutoSelect.list_request url)))),
     prints lines (snd (exchange respond (AutoSelect.list_request url) s))).
Proof.
  unfold AutoSelect.list_one. rewrite run_try_catch, run_bind.
  unfold fetch. cbn [run]. rewrite exchange_eq. cbn [snd].
  destruct (fst (respond (net s) (AutoSelect.list_request url)))
    as [e|status raw]; simpl.
  - eexists [_]. reflexivity.
  - destruct (JSON_parse raw) as [d|]; simpl.
    + destruct (truthy_val _); simpl.
      * eexists [_; _]. unfold print, prints; simpl.
        now rewrite <- app_assoc.
      * exists []. now rewrite prints_nil.
    + eexists [_]. reflexivity.
Qed.

Lemma listing_truthy (o : fetch_outcome) (v : json) :
  listing_of o = Some v -> truthy v = true.
Proof.
  unfold listing_of. destruct o as [e|status raw]; [discriminate|].
  destruct (JSON_parse raw) as [d|]; [|discriminate].
  destruct (truthy_val _) eqn:Ht; [|discriminate].
  intros H; injection H as <-. unfold AutoSelect.models_of.
  destruct d; try discriminate.
  destruct (get_prop (JObj props) "models") as [m|] eqn:Hm.
  - destruct (truthy m) eqn:Hmt; reflexivity || exact Hmt.
  - reflexivity.
Qed.

Lemma run_listAvailableModels (s : state W) :
  exists lines,
    run respond AutoSelect.listAvailableModels s =
    let (o1, s1) := exchange respond v1beta s in
    match listing_of o1 with
    | Some v => (Returned v, prints lines s1)
    | None =>
        let (o2, s2) := exchange respond v1 s1 in
        match listing_of o2 with
        | Some v => (Returned v, prints lines s2)
        | None => (Returned JNull, prints lines s2)
        end
    end.
Proof.
  unfold AutoSelect.listAvailableModels, AutoSelect.list_endpoints.
  cbn [AutoSelect.list_from]. rewrite run_bind.
  destruct (run_list_one_exact
              "https://generativelanguage.googleapis.com/v1beta/models" s)
    as [l1 H1].
  rewrite H1. fold v1beta. rewrite !exchange_eq. cbn [fst snd].
  destruct (listing_of (fst (respond (net s) v1beta))) as [v|].
  { exists l1. reflexivity. }
  rewrite run_bind.
  match goal with
  | |- context [run respond (AutoSelect.list_one ?u) ?s1] =>
      destruct (run_list_one_exact u s1) as [l2 H2]; rewrite H2
  end.
  fold v1. rewrite !exchange_eq. cbn [fst snd net prints].
  destruct (listing_of (fst (respond (snd (respond (net s) v1beta)) v1)))
    as [v|].
  - exists (l1 ++ l2)%list. unfold prints. simpl. now rewrite <- !app_assoc.
  - eexists (l1 ++ l2 ++ [_])%list. cbn [run bind AutoSelect.list_from log].
    unfold prints, print. simpl. now rewrite <- !app_assoc.
Qed.

(** X4.  [listAvailableModels] throws nothing, whatever the network
    does.  It asks the v1beta endpoint and, only if that gives no
    models, the v1 endpoint; these one or two GETs are its only
    exchanges and [cachedModel] is left alone.  It returns what the
    first endpoint with a parseable body and a truthy [models] or
    [model] gives, a truthy value, or [null] when neither does.  The
    HTTP status of an answer plays no part.  The start-up callback makes
    the same exchanges and leaves [cachedModel] alone as well. *)
Theorem listAvailableModels_behaviour (s : state W) :
  let o1 := fst (respond (net s) v1beta) in
  let o2 := fst (respond (snd (respond (net s) v1beta)) v1) in
  let out := run respond AutoSelect.listAvailableModels s in
  (fst out =
   Returned match listing_of o1, listing_of o2 with
            | Some v, _ => v
            | None, Some v => v
            | None, None => JNull
            end) /\
  (added s (snd out) =
   match listing_of o1 with
   | Some _ => [(v1beta, o1)]
   | None => [(v1beta, o1); (v1, o2)]
   end) /\
  cachedModel (snd out) = cachedModel s /\
  (forall v, fst out = Returned v -> v = JNull \/ truthy v = true) /\
  (forall (status status' : Z) (raw : string),
      listing_of (Response status raw) = listing_of (Response status' raw)) /\
  (forall port : string,
      fst (run respond (on_listen port) s) = Returned tt /\
      added s (snd (run respond (on_listen port) s)) = added s (snd out) /\
      cachedModel (snd (run respond (on_listen port) s)) = cachedModel s).
Proof.
  cbv zeta. destruct (run_listAvailableModels s) as [lines Hrun].
  rewrite !exchange_eq in Hrun. cbn [net] in Hrun.
  assert (Hstart : forall port,
             exists st,
               run respond (on_listen port) s =
               (Returned tt, st) /\
               trace st = trace (snd (run respond AutoSelect.listAvailableModels s)) /\
               cachedModel st = cachedModel s).
  { intros port. unfold on_listen. cbn [bind log run].
    destruct (run_listAvailableModels
                (print (line LogInfo
                          "Attempting to list available models (for debugging)..." [])
                   (print (line LogInfo
                             ("Server listening on http://localhost:" ++ port) [])
                      s))) as [l' H'].
    rewrite !exchange_eq in H'. cbn [net print] in H'.
    rewrite run_bind, H', Hrun.
    destruct (listing_of (fst (respond (net s) v1beta)));
      [|destruct (listing_of (fst (respond (snd (respond (net s) v1beta)) v1)))];
      eexists; (split; [reflexivity|]); split; reflexivity. }
  rewrite Hrun.
  split; [|split; [|split; [|split; [|split]]]].
  - destruct (listing_of (fst (respond (net s) v1beta))); [reflexivity|].
    destruct (listing_of (fst (respond (snd (respond (net s) v1beta)) v1)));
      reflexivity.
  - destruct (listing_of (fst (respond (net s) v1beta)));
      [apply added_app; reflexivity|].
    destruct (listing_of (fst (respond (snd (respond (net s) v1beta)) v1)));
      apply added_app; simpl; now rewrite <- app_assoc.
  - destruct (listing_of (fst (respond (net s) v1beta))); [reflexivity|].
    destruct (listing_of (fst (respond (snd (respond (net s) v1beta)) v1)));
      reflexivity.
  - intros v.
    destruct (listing_of (fst (respond (net s) v1beta))) as [x|] eqn:E1.
    + intros H; injection H as <-. right. exact (listing_truthy _ _ E1).
    + destruct (listing_of (fst (respond (snd (respond (net s) v1beta)) v1)))
        as [x|] eqn:E2; intros H; injection H as <-.
      * right. exact (listing_truthy _ _ E2).
      * now left.
  - reflexivity.
  - intros port. destruct (Hstart port) as (st & H1 & H2 & H3).
    rewrite H1. cbn [fst snd]. split; [reflexivity|]. split; [|exact H3].
    unfold added. rewrite H2, Hrun. reflexivity.
Qed.
End Properties.
End Listing.

(* ================================================================== *)
(** ** How many upstream calls a request can cost *)

Module Budget.
Import JS Async Express RunFacts AutoSelectFacts Wiring Limits.

Section Properties.
Context {env : Env} {W : Type}.
Variable respond : W -> request -> fetch_outcome * W.

Lemma added_refl (s : state W) : added s s = [].
Proof. apply added_app. now rewrite app_nil_r. Qed.

Lemma run_within {A : Type} (n : nat) (p : prog A) :
  within n p ->
  forall s : state W, length (added s (snd (run respond p s))) <= n.
Proof.
  induction 1 as [n a|n e|n r k Hk IH|n k Hk IH|n m k Hk IH|n e k Hk IH];
    intros s; cbn [run].
  - rewrite added_refl. simpl. lia.
  - rewrite added_refl. simpl. lia.
  - rewrite exchange_eq.
    match goal with
    | |- context [run respond (k ?o) ?s1] =>
        specialize (IH o s1);
        destruct (run_extends respond (k o) s1) as (tr & _ & Ht & _);
        rewrite (added_app s1 _ tr Ht) in IH;
        rewrite (added_app s _ ((r, o) :: tr))
    end.
    + simpl. lia.
    + rewrite Ht. simpl. now rewrite <- app_assoc.
  - apply IH.
  - specialize (IH (set_cache m s)).
    destruct (run_extends respond k (set_cache m s)) as (tr & _ & Ht & _).
    rewrite (added_app _ _ tr Ht) in IH.
    rewrite (added_app s _ tr); [exact IH|exact Ht].
  - specialize (IH (print e s)).
    destruct (run_extends respond k (print e s)) as (tr & _ & Ht & _).
    rewrite (added_app _ _ tr Ht) in IH.
    rewrite (added_app s _ tr); [exact IH|exact Ht].
Qed.

Lemma within_mono {A : Type} (n m : nat) (p : prog A) :
  n <= m -> within n p -> within m p.
Proof.
  intros Hle H. revert m Hle.
  induction H as [n a|n e|n r k Hk IH|n k Hk IH|n x k Hk IH|n e k Hk IH];
    intros m Hle; try (constructor; auto).
  destruct m as [|m]; [lia|]. constructor. intros o. apply IH. lia.
Qed.

Lemma within_bind {A B : Type} (n m : nat) (p : prog A) (f : A -> prog B) :
  within n p -> (forall a, within m (f a)) -> within (n + m) (bind p f).
Proof.
  intros H Hf.
  induction H as [n a|n e|n r k Hk IH|n k Hk IH|n x k Hk IH|n e k Hk IH];
    cbn [bind]; try (constructor; auto).
  apply (within_mono m); [lia|apply Hf].
Qed.

Lemma within_try_catch {A : Type} (n m : nat) (p : prog A)
    (h : js_error -> prog A) :
  within n p -> (forall e, within m (h e)) -> within (n + m) (try_catch p h).
Proof.
  intros H Hh.
  induction H as [n a|n e|n r k Hk IH|n k Hk IH|n x k Hk IH|n e k Hk IH];
    cbn [try_catch]; try (constructor; auto).
  apply (within_mono m); [lia|apply Hh].
Qed.

Lemma within_template {B : Type} (n : nat) (v : json) (f : string -> prog B) :
  (forall shown, within n (f shown)) -> within n (bind (template v) f).
Proof.
  intros H. unfold template. destruct (to_string v); cbn [bind]; auto.
  constructor.
Qed.

Lemma within_destructure {B : Type} (n : nat) (req_body : jsval) (k : string)
    (f : jsval -> prog B) :
  (forall v, within n (f v)) -> within n (bind (destructure req_body k) f).
Proof.
  intros H. destruct req_body as [[]|]; cbn [destructure bind]; auto;
    constructor.
Qed.

Lemma within_tryModelGenerate (modelId : json) (p : string) :
  within 1 (AutoSelect.tryModelGenerate modelId p).
Proof.
  unfold AutoSelect.tryModelGenerate. apply within_template. intros shown.
  unfold fetch. cbn [bind try_catch]. constructor.
  intros [e|status raw]; cbn [bind try_catch log]; repeat constructor.
Qed.

Lemma within_list_one (url : string) : within 1 (AutoSelect.list_one url).
Proof.
  unfold AutoSelect.list_one, fetch. cbn [bind try_catch]. constructor.
  intros [e|status raw]; cbn [bind try_catch log snd]; repeat constructor.
  destruct (JSON_parse raw); cbn [bind try_catch log]; repeat constructor.
  destruct (truthy_val _); cbn [bind try_catch log]; repeat constructor.
Qed.

Lemma within_list_from (endpoints : list string) :
  within (length endpoints) (AutoSelect.list_from endpoints).
Proof.
  induction endpoints as [|url rest IH]; cbn [AutoSelect.list_from length].
  - cbn [bind log]. repeat constructor.
  - apply (within_bind 1 (length rest)); [apply within_list_one|].
    intros [v|]; [constructor|exact IH].
Qed.

Lemma within_try_candidates (p : string) (rest : prog json) (r : nat)
    (models : list string) :
  within r rest ->
  within (length models + r) (AutoSelect.try_candidates models p rest).
Proof.
  intros Hrest. induction models as [|model models IH];
    cbn [AutoSelect.try_candidates length]; [exact Hrest|].
  apply (within_bind 1 (length models + r)); [apply within_tryModelGenerate|].
  intros a. destruct (AutoSelect.ok a); cbn [bind log write_cache].
  - repeat constructor.
  - constructor. exact IH.
Qed.

Lemma within_try_listed (p : string) : within 3 (AutoSelect.try_listed p).
Proof.
  unfold AutoSelect.try_listed.
  apply (within_bind 2 1); [exact (within_list_from AutoSelect.list_endpoints)|].
  intros listed. destruct (AutoSelect.choose listed); try constructor.
  apply within_template. intros shown. cbn [bind log]. constructor.
  apply (within_bind 1 0); [apply within_tryModelGenerate|].
  intros a. destruct (AutoSelect.ok a); cbn [bind log write_cache];
    repeat constructor.
Qed.

Lemma within_callGemini (p : string) : within 9 (AutoSelect.callGemini p).
Proof.
  unfold AutoSelect.callGemini. apply (within_bind 8 1).
  - unfold AutoSelect.ensureWorkingModel, read_cache. cbn [bind].
    constructor. intros c. destruct (truthy c); [constructor|].
    exact (within_try_candidates _ _ 3 AutoSelect.CANDIDATE_MODELS
             (within_try_listed _)).
  - intros m. apply (within_bind 1 0); [apply within_tryModelGenerate|].
    intros a. destruct (AutoSelect.ok a); [constructor|].
    unfold AutoSelect.new_Error, template.
    destruct (to_string _); cbn [bind]; constructor.
Qed.

Lemma within_try_models (p : string) (models : list string) :
  within (length models) (Backend.try_models models p).
Proof.
  induction models as [|model models IH];
    cbn [Backend.try_models length]; [constructor|].
  apply (within_bind 1 (length models)).
  - unfold Backend.try_model, fetch. cbn [bind try_catch]. constructor.
    intros [e|status raw]; cbn [bind try_catch log fst snd];
      repeat constructor.
    destruct (negb (status_ok status)); cbn [bind try_catch log];
      repeat constructor.
    destruct (JSON_parse raw) as [d|]; cbn [bind try_catch log];
      repeat constructor.
    destruct (Backend.result_of d) as [r|]; repeat constructor.
    destruct (truthy r); repeat constructor.
  - intros [v|]; [constructor|exact IH].
Qed.
Lemma within_block (t : json) (prompt : string -> string) (field : string)
    (original : jsval) (where_ : string) :
  within 9
    (try_catch
       (bind (template t) (fun shown =>
          bind (AutoSelect.callGemini (prompt shown)) (fun output =>
            Ret {| status := 200;
                   body := JObj (literal [("original", original);
                                          (field, output)]) |})))
       (AutoSelect.failed where_)).
Proof.
  apply (within_try_catch 9 0).
  - apply within_template. intros shown.
    apply (within_bind 9 0); [apply within_callGemini|constructor].
  - intros e. unfold AutoSelect.failed. cbn [bind log]. repeat constructor.
Qed.

Lemma within_backend_block (t : json) (prompt : string -> string) :
  within 2
    (bind (template t) (fun shown =>
       bind (Backend.callGeminiAPI (prompt shown)) (fun result =>
         Ret {| status := 200; body := JObj [("result", result)] |}))).
Proof.
  apply within_template. intros shown.
  apply (within_bind 2 0); [|constructor].
  exact (within_try_models _ Backend.GEMINI_MODELS).
Qed.

Lemma within_backend_failed (what : string) (e : js_error) :
  within 0 (Backend.failed what e).
Proof. unfold Backend.failed. cbn [bind log]. repeat constructor. Qed.

Lemma within_auto_select_route (path : string)
    (h : jsval -> prog response) (req_body : jsval) :
  In (path, h) auto_select_routes -> within 9 (h req_body).
Proof.
  intros [H|[H|[H|[]]]]; injection H as _ <-.
  - unfold AutoSelect.humanize. apply within_destructure.
    intros [t|]; [|constructor]. destruct (truthy t); [|constructor].
    apply (within_block t AutoSelect.humanize_prompt).
  - unfold AutoSelect.summarize. apply within_destructure.
    intros [t|]; [|constructor]. destruct (truthy t); [|constructor].
    apply (within_block t AutoSelect.summarize_prompt).
  - unfold AutoSelect.tone. apply within_destructure. intros text.
    apply within_destructure. intros mode.
    destruct text as [t|]; [|constructor].
    destruct mode as [m|]; [|constructor].
    destruct (truthy t && truthy m); [|constructor].
    apply (within_block t (AutoSelect.tone_prompt (AutoSelect.tone_of m))).
Qed.

Lemma within_backend_route (path : string)
    (h : jsval -> prog response) (req_body : jsval) :
  In (path, h) backend_routes -> within 2 (h req_body).
Proof.
  intros [H|[H|[H|[]]]]; injection H as _ <-.
  - unfold Backend.humanize.
    apply (within_try_catch 2 0); [|apply within_backend_failed].
    apply within_destructure.
    intros [t|]; [|constructor]. destruct (truthy t); [|constructor].
    apply (within_backend_block t Backend.humanize_prompt).
  - unfold Backend.summarize.
    apply (within_try_catch 2 0); [|apply within_backend_failed].
    apply within_destructure.
    intros [t|]; [|constructor]. destruct (truthy t); [|constructor].
    apply (within_backend_block t Backend.summarize_prompt).
  - unfold Backend.tone.
    apply (within_try_catch 2 0); [|apply within_backend_failed].
    apply within_destructure. intros text.
    apply within_destructure. intros mode.
    destruct text as [t|]; [|constructor].
    destruct mode as [m|]; [|constructor].
    destruct (truthy t && truthy m); [|constructor].
    apply (within_backend_block t (Backend.tone_prompt (Backend.tone_of m))).
Qed.

(** The exchanges of a [try] block of a route are those of its call of
    [callGemini], if it gets that far. *)
Lemma block_exchanges (t : json) (prompt : string -> string) (field : string)
    (original : jsval) (where_ : string) (s : state W) :
  let q := try_catch
             (bind (template t) (fun shown =>
                bind (AutoSelect.callGemini (prompt shown)) (fun output =>
                  Ret {| status := 200;
                         body := JObj (literal [("original", original);
                                                (field, output)]) |})))
             (AutoSelect.failed where_) in
  added s (snd (run respond q s)) = [] \/
  exists shown,
    to_string t = Some shown /\
    added s (snd (run respond q s)) =
    added s (snd (run respond (AutoSelect.callGemini (prompt shown)) s)).
Proof.
  cbv zeta. rewrite run_try_catch. unfold template.
  destruct (to_string t) as [shown|]; cbn [bind].
  - right. exists shown. split; [reflexivity|]. rewrite run_bind.
    destruct (run respond (AutoSelect.callGemini (prompt shown)) s)
      as [[out|e] s1]; reflexivity.
  - left. apply added_app. simpl. now rewrite app_nil_r.
Qed.

Lemma route_exchanges (path : string) (h : jsval -> prog response)
    (req_body : jsval) (s : state W) :
  In (path, h) auto_select_routes ->
  added s (snd (run respond (h req_body) s)) = [] \/
  exists prompt,
    added s (snd (run respond (h req_body) s)) =
    added s (snd (run respond (AutoSelect.callGemini prompt) s)).
Proof.
  assert (Hblock : forall t prompt field original where_,
             let q := try_catch
                        (bind (template t) (fun shown =>
                           bind (AutoSelect.callGemini (prompt shown))
                             (fun output =>
                                Ret {| status := 200;
                                       body := JObj (literal
                                                       [("original", original);
                                                        (field, output)]) |})))
                        (AutoSelect.failed where_) in
             added s (snd (run respond q s)) = [] \/
             exists p,
               added s (snd (run respond q s)) =
               added s (snd (run respond (AutoSelect.callGemini p) s))).
  { intros t prompt field original where_.
    destruct (block_exchanges t prompt field original where_ s)
      as [H|(shown & _ & H)]; [now left|right; now exists (prompt shown)]. }
  intros Hin.
  destruct (Validation.destructure_cases req_body)
    as [-> | [-> | (b & -> & Hd)]];
    [destruct Hin as [H|[H|[H|[]]]]; injection H as _ <-;
     left; apply added_refl ..|].
  destruct Hin as [H|[H|[H|[]]]]; injection H as _ <-.
  - unfold AutoSelect.humanize. rewrite Hd. cbn [bind].
    destruct (get_prop b "text") as [t|]; [destruct (truthy t)|];
      [apply Hblock|left; apply added_refl|left; apply added_refl].
  - unfold AutoSelect.summarize. rewrite Hd. cbn [bind].
    destruct (get_prop b "text") as [t|]; [destruct (truthy t)|];
      [apply Hblock|left; apply added_refl|left; apply added_refl].
  - unfold AutoSelect.tone. rewrite !Hd. cbn [bind].
    destruct (get_prop b "text") as [t|];
      destruct (get_prop b "mode") as [m|];
      try (left; apply added_refl).
    destruct (truthy t && truthy m); [apply Hblock|left; apply added_refl].
Qed.

(** X5.  A request costs a bounded number of upstream calls, whatever
    the body and whatever the network answers: at most nine exchanges
    for a route of the auto-selecting server (five candidates, two
    listings, the listed model, the final request), at most two for a
    route of the plain server, and at most one for a route of the
    auto-selecting server once [cachedModel] is set. *)
Theorem exchanges_bounded :
  (forall (path : string) (h : jsval -> prog response) (req_body : jsval)
          (s : state W),
      In (path, h) auto_select_routes ->
      length (added s (snd (run respond (h req_body) s))) <= 9) /\
  (forall (path : string) (h : jsval -> prog response) (req_body : jsval)
          (s : state W),
      In (path, h) backend_routes ->
      length (added s (snd (run respond (h req_body) s))) <= 2) /\
  (forall (path : string) (h : jsval -> prog response) (req_body : jsval)
          (s : state W),
      In (path, h) auto_select_routes ->
      truthy (cachedModel s) = true ->
      length (added s (snd (run respond (h req_body) s))) <= 1).
Proof.
  split; [|split].
  - intros path h req_body s Hin.
    apply run_within, (within_auto_select_route path h req_body Hin).
  - intros path h req_body s Hin.
    apply run_within, (within_backend_route path h req_body Hin).
  - intros path h req_body s Hin Hc.
    destruct (route_exchanges path h req_body s Hin) as [->|[prompt ->]];
      [simpl; lia|].
    rewrite run_callGemini, (Resolver.run_cached respond _ s Hc).
    destruct (to_string (cachedModel s)) as [id|].
    + rewrite exchange_eq. cbn [snd].
      rewrite (added_app s _ [(AutoSelect.generate_request id prompt,
                               fst (respond (net s)
                                      (AutoSelect.generate_request id prompt)))]);
        [simpl; lia|reflexivity].
    + cbn [snd]. rewrite added_refl. simpl. lia.
Qed.
End Properties.
End Budget.

(* ================================================================== *)
(** ** What the cache can hold *)

Module CacheContents.
Import JS Async Express RunFacts AutoSelectFacts Wiring Limits.

Section Facts.
Context {W : Type}.
Variable respond : W -> request -> fetch_outcome * W.
Variable ok : list (request * fetch_outcome) -> json -> Prop.
Hypothesis ok_grows :
  forall seen tr m, incl seen tr -> ok seen m -> ok tr m.

Lemma justified_bind {A B : Type}
    (mid : list (request * fetch_outcome) -> A -> Prop)
    (post : list (request * fetch_outcome) -> B -> Prop)
    (p : prog A) (f : A -> prog B) :
  forall seen,
    justified ok mid seen p ->
    (forall seen' a, mid seen' a -> justified ok post seen' (f a)) ->
    justified ok post seen (bind p f).
Proof.
  intros seen Hp Hf.
  induction Hp as [seen a Ha|seen e|seen r k Hk IH|seen k Hk IH
                  |seen m k Hm Hk IH|seen e k Hk IH];
    cbn [bind]; auto; constructor; auto.
Qed.

Lemma justified_try_catch {A : Type}
    (post : list (request * fetch_outcome) -> A -> Prop)
    (p : prog A) (h : js_error -> prog A) :
  forall seen,
    justified ok post seen p ->
    (forall seen' e, justified ok post seen' (h e)) ->
    justified ok post seen (try_catch p h).
Proof.
  intros seen Hp Hh.
  induction Hp as [seen a Ha|seen e|seen r k Hk IH|seen k Hk IH
                  |seen m k Hm Hk IH|seen e k Hk IH];
    cbn [try_catch]; auto; constructor; auto.
Qed.

Lemma justified_weaken {A : Type}
    (post post' : list (request * fetch_outcome) -> A -> Prop)
    (p : prog A) :
  (forall seen a, post seen a -> post' seen a) ->
  forall seen, justified ok post seen p -> justified ok post' seen p.
Proof. intros Hpp seen Hp. induction Hp; constructor; auto. Qed.

(** Synchronous execution stores only justified values. *)
Lemma settle_justified {A : Type}
    (post : list (request * fetch_outcome) -> A -> Prop) (p : prog A) :
  forall seen,
    justified ok post seen p ->
    forall (s : state W) (tr : list (request * fetch_outcome)),
      incl seen tr ->
      justified ok post seen (fst (settle p s)) /\
      trace (snd (settle p s)) = trace s /\
      (cachedModel (snd (settle p s)) = cachedModel s \/
       ok tr (cachedModel (snd (settle p s)))).
Proof.
  intros seen Hp.
  induction Hp as [seen a Ha|seen e|seen r k Hk IH|seen k Hk IH
                  |seen m k Hm Hk IH|seen e k Hk IH];
    intros s tr Hin; cbn [settle fst snd].
  - split; [now constructor|auto].
  - split; [constructor|auto].
  - split; [now constructor|auto].
  - apply IH. exact Hin.
  - destruct (IH (set_cache m s) tr Hin) as (H1 & H2 & [H3|H3]);
      (split; [exact H1|split; [exact H2|]]); [|now right].
    right. rewrite H3. cbn [set_cache cachedModel].
    exact (ok_grows seen tr m Hin Hm).
  - destruct (IH (print e s) tr Hin) as (H1 & H2 & H3).
    split; [exact H1|split; [exact H2|exact H3]].
Qed.

(** So does a run to completion, which also extends the exchanges. *)
Lemma run_justified {A : Type}
    (post : list (request * fetch_outcome) -> A -> Prop) (p : prog A) :
  forall seen,
    justified ok post seen p ->
    forall (s : state W) (base tr : list (request * fetch_outcome)),
      trace s = (base ++ tr)%list ->
      incl seen tr ->
      exists tr',
        trace (snd (run respond p s)) = (base ++ tr')%list /\
        incl tr tr' /\
        (cachedModel (snd (run respond p s)) = cachedModel s \/
         ok tr' (cachedModel (snd (run respond p s)))).
Proof.
  intros seen Hp.
  induction Hp as [seen a Ha|seen e|seen r k Hk IH|seen k Hk IH
                  |seen m k Hm Hk IH|seen e k Hk IH];
    intros s base tr Ht Hin; cbn [run].
  - exists tr. split; [exact Ht|split; [apply incl_refl|now left]].
  - exists tr. split; [exact Ht|split; [apply incl_refl|now left]].
  - rewrite exchange_eq.
    set (o := fst (respond (net s) r)).
    match goal with
    | |- context [run respond (k o) ?s1] =>
        destruct (IH o s1 base (tr ++ [(r, o)])%list) as (tr' & H1 & H2 & H3)
    end.
    + cbn [trace]. rewrite Ht, <- app_assoc. reflexivity.
    + apply incl_app; [now apply incl_appl|apply incl_appr, incl_refl].
    + exists tr'. split; [exact H1|]. split; [|exact H3].
      intros x Hx. apply H2, in_or_app. now left.
  - apply (IH (cachedModel s) s base tr Ht Hin).
  - destruct (IH (set_cache m s) base tr Ht Hin) as (tr' & H1 & H2 & [H3|H3]);
      exists tr'; (split; [exact H1|split; [exact H2|]]); [|now right].
    right. rewrite H3. cbn [set_cache cachedModel].
    apply (ok_grows seen tr' m); [|exact Hm].
    intros x Hx. apply H2, Hin, Hx.
  - destruct (IH (print e s) base tr Ht Hin) as (tr' & H1 & H2 & H3).
    exists tr'. split; [exact H1|split; [exact H2|exact H3]].
Qed.

Lemma in_flight_grows {A : Type} (tr tr' : list (request * fetch_outcome))
    (pool : list (prog A)) :
  incl tr tr' -> in_flight ok tr pool -> in_flight ok tr' pool.
Proof.
  intros Hin Hpool. unfold in_flight in *.
  eapply Forall_impl; [|exact Hpool].
  intros p (seen & Hs & Hp). exists seen. split; [|exact Hp].
  intros x Hx. apply Hin, Hs, Hx.
Qed.

Lemma deliver_nth_justified {A : Type} (i : nat) :
  forall (pool : list (prog A)) (s : state W)
         (base tr : list (request * fetch_outcome)),
    trace s = (base ++ tr)%list ->
    in_flight ok tr pool ->
    exists tr',
      trace (snd (deliver_nth respond i pool s)) = (base ++ tr')%list /\
      incl tr tr' /\
      in_flight ok tr' (fst (deliver_nth respond i pool s)) /\
      (cachedModel (snd (deliver_nth respond i pool s)) = cachedModel s \/
       ok tr' (cachedModel (snd (deliver_nth respond i pool s)))).
Proof.
  induction i as [|i IH]; intros [|p pool] s base tr Ht Hpool;
    cbn [deliver_nth];
    try (exists tr; split; [exact Ht|split; [apply incl_refl|
           split; [exact Hpool|now left]]]).
  - inversion Hpool as [|x l (seen & Hs & Hp) Hrest]; subst.
    destruct Hp as [seen a Ha|seen e|seen r k Hk|seen k Hk
                   |seen m k Hm Hk|seen e k Hk]; cbn [deliver fst snd];
      try (exists tr; split; [exact Ht|split; [apply incl_refl|
             split; [|now left]]];
           constructor; [|exact Hrest]; exists seen; split; [exact Hs|];
           constructor; auto).
    rewrite exchange_eq. set (o := fst (respond (net s) r)).
    assert (Hin : incl (seen ++ [(r, o)]) (tr ++ [(r, o)])).
    { apply incl_app; [now apply incl_appl|apply incl_appr, incl_refl]. }
    match goal with
    | |- context [settle (k o) ?s1] =>
        destruct (settle_justified _ (k o) _ (Hk o) s1 _ Hin)
          as (H1 & H2 & H3);
        destruct (settle (k o) s1) as [p' s'] eqn:E
    end.
    cbn [fst snd] in *. exists (tr ++ [(r, o)])%list.
    split; [rewrite H2; cbn [trace]; now rewrite Ht, <- app_assoc|].
    split; [now apply incl_appl|]. split; [|exact H3].
    constructor.
    + exists (seen ++ [(r, o)])%list. split; [exact Hin|exact H1].
    + apply (in_flight_grows tr); [now apply incl_appl|exact Hrest].
  - inversion Hpool as [|x l Hp Hrest]; subst.
    destruct (IH pool s base tr Ht Hrest) as (tr' & H1 & H2 & H3 & H4).
    destruct (deliver_nth respond i pool s) as [pool' s']. cbn [fst snd] in *.
    exists tr'. split; [exact H1|]. split; [exact H2|]. split; [|exact H4].
    constructor; [|exact H3].
    destruct Hp as (seen & Hs & Hp). exists seen. split; [|exact Hp].
    intros y Hy. apply H2, Hs, Hy.
Qed.

Lemma run_schedule_justified {A : Type} (ticks : list (tick A)) :
  forall (pool : list (prog A)) (s : state W)
         (base tr : list (request * fetch_outcome)),
    Forall (fun t => match t with
                     | Start p => justified ok (fun _ _ => True) [] p
                     | Deliver _ => True
                     end) ticks ->
    trace s = (base ++ tr)%list ->
    in_flight ok tr pool ->
    exists tr',
      trace (snd (run_schedule respond ticks pool s)) = (base ++ tr')%list /\
      incl tr tr' /\
      (cachedModel (snd (run_schedule respond ticks pool s)) = cachedModel s \/
       ok tr' (cachedModel (snd (run_schedule respond ticks pool s)))).
Proof.
  induction ticks as [|t ticks IH]; intros pool s base tr Hticks Ht Hpool.
  - exists tr. split; [exact Ht|split; [apply incl_refl|now left]].
  - inversion Hticks as [|x l Hstart Hrest]; subst.
    destruct t as [p|i]; cbn [run_schedule].
    + destruct (settle_justified _ p [] Hstart s tr (incl_nil_l tr))
        as (H1 & H2 & H3).
      destruct (settle p s) as [p' s']. cbn [fst snd] in *.
      destruct (IH (pool ++ [p'])%list s' base tr Hrest) as (tr' & H4 & H5 & H6).
      * now rewrite H2.
      * apply Forall_app. split; [exact Hpool|].
        constructor; [|constructor]. exists []. split; [apply incl_nil_l|exact H1].
      * exists tr'. split; [exact H4|]. split; [exact H5|].
        destruct H6 as [H6|H6]; [|now right].
        destruct H3 as [H3|H3]; [left; now rewrite H6|].
        right. rewrite H6. exact (ok_grows tr tr' _ H5 H3).
    + destruct (deliver_nth_justified i pool s base tr Ht Hpool)
        as (tr1 & H1 & H2 & H3 & H4).
      destruct (deliver_nth respond i pool s) as [pool' s']. cbn [fst snd] in *.
      destruct (IH pool' s' base tr1 Hrest H1 H3) as (tr' & H5 & H6 & H7).
      exists tr'. split; [exact H5|].
      split; [intros y Hy; apply H6, H2, Hy|].
      destruct H7 as [H7|H7]; [|now right].
      destruct H4 as [H4|H4]; [left; now rewrite H7|].
      right. rewrite H7. exact (ok_grows tr1 tr' _ H6 H4).
Qed.
End Facts.

Section Properties.
Context {env : Env} {W : Type}.
Variable respond : W -> request -> fetch_outcome * W.

Lemma cacheable_grows (seen tr : list (request * fetch_outcome)) (m : json) :
  incl seen tr -> cacheable seen m -> cacheable tr m.
Proof.
  intros Hin (Ht & id & p & o & Hid & Ho & Hu & Hfrom).
  split; [exact Ht|]. exists id, p, o.
  split; [exact Hid|]. split; [now apply Hin|]. split; [exact Hu|].
  destruct Hfrom as [Hc|(url & o' & listed & H1 & H2 & H3 & H4)];
    [now left|right].
  exists url, o', listed. auto.
Qed.

(** One attempt: a single exchange, and the record made of it. *)
Lemma justified_tryModelGenerate (modelId : json) (id p : string)
    (seen : list (request * fetch_outcome)) :
  to_string modelId = Some id ->
  justified cacheable
    (fun seen' a =>
       exists o, seen' = (seen ++ [(AutoSelect.generate_request id p, o)])%list /\
                 AutoSelect.ok a = AutoSelect.usable o)
    seen (AutoSelect.tryModelGenerate modelId p).
Proof.
  intros Hid. unfold AutoSelect.tryModelGenerate, template. rewrite Hid.
  cbn [bind]. unfold fetch. cbn [bind try_catch]. constructor.
  intros [e|status raw]; cbn [bind try_catch fst snd log].
  - constructor. now exists (NetError e).
  - constructor. constructor. constructor. now exists (Response status raw).
Qed.

Lemma justified_attempt (modelId : json) (p : string)
    (seen : list (request * fetch_outcome)) :
  justified cacheable (fun _ _ => True) seen
    (AutoSelect.tryModelGenerate modelId p).
Proof.
  destruct (to_string modelId) as [id|] eqn:Hid.
  - eapply justified_weaken; [|exact (justified_tryModelGenerate _ id p seen Hid)].
    auto.
  - unfold AutoSelect.tryModelGenerate, template. rewrite Hid. constructor.
Qed.

(** One listing: what it returns is what [listing_of] makes of the
    answer to its request. *)
Lemma justified_list_one (url : string)
    (seen : list (request * fetch_outcome)) :
  justified cacheable
    (fun seen' r =>
       incl seen seen' /\
       forall v, r = Some v ->
                 exists o, In (AutoSelect.list_request url, o) seen' /\
                           listing_of o = Some v)
    seen (AutoSelect.list_one url).
Proof.
  unfold AutoSelect.list_one, fetch. cbn [bind try_catch]. constructor.
  intros [e|status raw]; cbn [bind try_catch fst snd log].
  - constructor. constructor. split; [now apply incl_appl|discriminate].
  - destruct (JSON_parse raw) as [d|] eqn:Hp; cbn [bind try_catch log].
    + destruct (truthy_val _) eqn:Hm; cbn [bind try_catch log].
      * constructor. constructor. constructor.
        split; [now apply incl_appl|]. intros v [= <-].
        exists (Response status raw). split.
        -- apply in_or_app. right. now left.
        -- unfold listing_of. now rewrite Hp, Hm.
      * constructor. split; [now apply incl_appl|discriminate].
    + constructor. constructor. split; [now apply incl_appl|discriminate].
Qed.

Lemma justified_list_from (endpoints : list string) :
  incl endpoints AutoSelect.list_endpoints ->
  forall seen,
    justified cacheable
      (fun seen' listed =>
         incl seen seen' /\
         (listed = JNull \/
          exists url o, In url AutoSelect.list_endpoints /\
                        In (AutoSelect.list_request url, o) seen' /\
                        listing_of o = Some listed))
      seen (AutoSelect.list_from endpoints).
Proof.
  induction endpoints as [|url rest IH]; intros Hincl seen;
    cbn [AutoSelect.list_from].
  - unfold log. cbn [bind]. constructor. constructor.
    split; [apply incl_refl|now left].
  - eapply (justified_bind cacheable); [apply justified_list_one|].
    intros seen' r [Hs Hr]. destruct r as [v|].
    + constructor. split; [exact Hs|]. right.
      destruct (Hr v eq_refl) as (o & Ho & Hl).
      exists url, o. split; [apply Hincl; now left|auto].
    + eapply justified_weaken; [|apply IH].
      * intros seen'' listed [Hs' H]. split; [|exact H].
        intros x Hx. apply Hs', Hs, Hx.
      * intros x Hx. apply Hincl. now right.
Qed.

Lemma justified_try_listed (p : string)
    (seen : list (request * fetch_outcome)) :
  justified cacheable (fun _ _ => True) seen (AutoSelect.try_listed p).
Proof.
  unfold AutoSelect.try_listed, AutoSelect.listAvailableModels.
  eapply (justified_bind cacheable);
    [apply (justified_list_from _ (incl_refl _))|].
  intros seen1 listed [_ Hl].
  destruct (AutoSelect.choose listed) as [| |chosen] eqn:Hch;
    try constructor.
  unfold template. destruct (to_string chosen) as [shown|] eqn:Hid;
    cbn [bind]; [|constructor].
  unfold log at 1. cbn [bind]. constructor.
  eapply (justified_bind cacheable);
    [exact (justified_tryModelGenerate chosen shown p seen1 Hid)|].
  intros seen2 a (o & -> & Hok).
  destruct (AutoSelect.ok a) eqn:Ha; [|constructor].
  unfold write_cache, log. cbn [bind]. constructor; [|repeat constructor].
  split; [exact (choose_truthy listed chosen Hch)|].
  exists shown, p, o. split; [exact Hid|].
  split; [apply in_or_app; right; now left|]. split; [now rewrite <- Hok|].
  right. destruct Hl as [->|(url & o' & Hu & Ho' & Hlist)]; [discriminate|].
  exists url, o', listed. split; [exact Hu|].
  split; [apply in_or_app; now left|auto].
Qed.

Lemma justified_try_candidates (p : string) (rest : prog json)
    (models : list string) :
  incl models AutoSelect.CANDIDATE_MODELS ->
  (forall seen, justified cacheable (fun _ _ => True) seen rest) ->
  forall seen,
    justified cacheable (fun _ _ => True) seen
      (AutoSelect.try_candidates models p rest).
Proof.
  intros Hincl Hrest. induction models as [|model models IH]; intros seen;
    cbn [AutoSelect.try_candidates]; [apply Hrest|].
  eapply (justified_bind cacheable);
    [exact (justified_tryModelGenerate (JStr model) model p seen eq_refl)|].
  intros seen2 a (o & -> & Hok).
  assert (Hin : In model AutoSelect.CANDIDATE_MODELS)
    by (apply Hincl; now left).
  destruct (AutoSelect.ok a) eqn:Ha; unfold write_cache, log; cbn [bind].
  - constructor. constructor; [|now constructor].
    split.
    + pose proof candidates_named as Hn.
      rewrite Forall_forall in Hn. specialize (Hn model Hin).
      simpl. now apply negb_true_iff, String.eqb_neq.
    + exists model, p, o. split; [reflexivity|].
      split; [apply in_or_app; right; now left|].
      split; [now rewrite <- Hok|]. left. auto.
  - constructor. apply IH. intros x Hx. apply Hincl. now right.
Qed.

Lemma justified_callGemini (p : string)
    (seen : list (request * fetch_outcome)) :
  justified cacheable (fun _ _ => True) seen (AutoSelect.callGemini p).
Proof.
  unfold AutoSelect.callGemini.
  eapply (justified_bind cacheable (fun _ _ => True) (fun _ _ => True)).
  - unfold AutoSelect.ensureWorkingModel, read_cache. cbn [bind].
    constructor. intros c. destruct (truthy c); [now constructor|].
    apply justified_try_candidates; [apply incl_refl|].
    intros seen'. apply justified_try_listed.
  - intros seen1 m _.
    eapply (justified_bind cacheable); [apply justified_attempt|].
    intros seen2 a _. destruct (AutoSelect.ok a); [now constructor|].
    unfold AutoSelect.new_Error, template.
    destruct (to_string _); cbn [bind]; constructor.
Qed.

(** X6.  [cachedModel] only ever receives a model that has just
    worked.  After any interleaving of calls in flight, and after any
    sequence of calls, it has the value it had at the start or a truthy
    value [m], printing as [id], such that among the exchanges made
    since the start there is a generation attempt for [id] that
    succeeded, and [m] is either the name of a candidate or the id
    chosen from the listing that one of the listing requests among
    those exchanges returned.  A call that finds such a value makes
    exactly one exchange, the generation request for it. *)
Theorem cachedModel_holds_a_model :
  (forall (ticks : list (tick jsval)) (s : state W),
      AutoSelect.only_calls ticks ->
      let s' := snd (run_schedule respond ticks [] s) in
      cachedModel s' = cachedModel s \/
      cacheable (added s s') (cachedModel s')) /\
  (forall (prompts : list string) (s : state W),
      let s' := AutoSelect.run_calls respond prompts s in
      cachedModel s' = cachedModel s \/
      cacheable (added s s') (cachedModel s')) /\
  (forall (prompt : string) (s : state W)
          (seen : list (request * fetch_outcome)),
      cacheable seen (cachedModel s) ->
      exists id : string,
        to_string (cachedModel s) = Some id /\
        added s (snd (run respond (AutoSelect.callGemini prompt) s)) =
        [(AutoSelect.generate_request id prompt,
          fst (respond (net s) (AutoSelect.generate_request id prompt)))]).
Proof.
  split; [|split].
  - intros ticks s Hticks s'.
    destruct (run_schedule_justified respond cacheable cacheable_grows
                ticks [] s (trace s) [])
      as (tr & Ht & _ & Hc).
    + unfold AutoSelect.only_calls in Hticks.
      eapply Forall_impl; [|exact Hticks].
      intros [p|i]; [|trivial]. intros [prompt ->].
      apply justified_callGemini.
    + now rewrite app_nil_r.
    + constructor.
    + fold s' in Ht, Hc. rewrite (added_app s s' tr Ht). exact Hc.
  - intros prompts s. cbv zeta.
    assert (H : forall (prompts : list string) (s0 : state W)
                       (tr : list (request * fetch_outcome)),
               trace s0 = (trace s ++ tr)%list ->
               exists tr',
                 trace (AutoSelect.run_calls respond prompts s0)
                   = (trace s ++ tr')%list /\
                 incl tr tr' /\
                 (cachedModel (AutoSelect.run_calls respond prompts s0)
                    = cachedModel s0 \/
                  cacheable tr'
                    (cachedModel (AutoSelect.run_calls respond prompts s0)))).
    { clear prompts. induction prompts as [|p prompts IH]; intros s0 tr Ht;
        cbn [AutoSelect.run_calls].
      - exists tr. split; [exact Ht|split; [apply incl_refl|now left]].
      - destruct (run_justified respond cacheable cacheable_grows _ _ []
                    (justified_callGemini p []) s0 (trace s) tr Ht
                    (incl_nil_l tr))
          as (tr1 & H1 & H2 & H3).
        destruct (IH _ tr1 H1) as (tr' & H4 & H5 & H6).
        exists tr'. split; [exact H4|].
        split; [intros x Hx; apply H5, H2, Hx|].
        destruct H6 as [H6|H6]; [|now right].
        destruct H3 as [H3|H3]; [left; now rewrite H6|].
        right. rewrite H6. exact (cacheable_grows tr1 tr' _ H5 H3). }
    destruct (H prompts s []) as (tr & Ht & _ & Hc);
      [now rewrite app_nil_r|].
    rewrite (added_app s _ tr Ht). exact Hc.
  - intros prompt s seen (Ht & id & p & o & Hid & _). exists id.
    split; [exact Hid|].
    rewrite run_callGemini, (Resolver.run_cached respond _ s Ht), Hid,
      exchange_eq.
    now apply added_app.
Qed.
End Properties.
End CacheContents.

(* ================================================================== *)
(** ** A cached model is kept, whatever it answers *)

Module Pinned.
Import JS Async Express RunFacts AutoSelectFacts.

Section Properties.
Context {env : Env} {W : Type}.
Variable respond : W -> request -> fetch_outcome * W.

Lemma run_cached_call (prompt id : string) (s : state W) :
  truthy (cachedModel s) = true ->
  to_string (cachedModel s) = Some id ->
  run respond (AutoSelect.callGemini prompt) s =
  (AutoSelect.call_result
     (fst (respond (net s) (AutoSelect.generate_request id prompt))),
   prints (AutoSelect.attempt_lines id
             (fst (respond (net s) (AutoSelect.generate_request id prompt))))
     (snd (exchange respond (AutoSelect.generate_request id prompt) s))).
Proof.
  intros Ht Hid.
  rewrite run_callGemini, (Resolver.run_cached respond _ s Ht), Hid.
  now rewrite exchange_eq.
Qed.

Lemma run_calls_cached (id : string) (prompts : list string) :
  forall s : state W,
    truthy (cachedModel s) = true ->
    to_string (cachedModel s) = Some id ->
    cachedModel (AutoSelect.run_calls respond prompts s) = cachedModel s /\
    exists tr,
      trace (AutoSelect.run_calls respond prompts s) = (trace s ++ tr)%list /\
      map fst tr = map (fun p => AutoSelect.generate_request id p) prompts.
Proof.
  induction prompts as [|p prompts IH]; intros s Ht Hid;
    cbn [AutoSelect.run_calls].
  - split; [reflexivity|]. exists []. now rewrite app_nil_r.
  - rewrite (run_cached_call p id s Ht Hid), exchange_eq. cbn [snd].
    match goal with
    | |- context [AutoSelect.run_calls respond prompts ?s1] =>
        destruct (IH s1 Ht Hid) as (Hc & tr & Htr & Hreq)
    end.
    split; [exact Hc|].
    eexists. split.
    + rewrite Htr. cbn [trace prints]. rewrite <- app_assoc. reflexivity.
    + cbn [map fst app]. now rewrite Hreq.
Qed.

(** X7.  Once [cachedModel] holds a model, [callGemini] stands by it:
    the outcome of the call is decided by the single reply to the
    generation request for that model, so an unusable reply makes the
    call throw with no candidate and no listing tried; and through any
    sequence of calls the cache keeps its value and the requests sent
    are exactly one generation request for that model per call. *)
Theorem cached_model_is_never_dropped (id : string) (s : state W) :
  truthy (cachedModel s) = true ->
  to_string (cachedModel s) = Some id ->
  (forall prompt : string,
      let o := fst (respond (net s) (AutoSelect.generate_request id prompt)) in
      (AutoSelect.usable o = true ->
       fst (run respond (AutoSelect.callGemini prompt) s) =
       Returned (AutoSelect.text (AutoSelect.attempt_of o))) /\
      (AutoSelect.usable o = false ->
       fst (run respond (AutoSelect.callGemini prompt) s) =
       Thrown (AutoSelect.thrown_for (AutoSelect.attempt_of o)))) /\
  (forall prompts : list string,
      cachedModel (AutoSelect.run_calls respond prompts s) = cachedModel s /\
      map fst (added s (AutoSelect.run_calls respond prompts s)) =
      map (fun p => AutoSelect.generate_request id p) prompts).
Proof.
  intros Ht Hid. split.
  - intros prompt o. rewrite (run_cached_call prompt id s Ht Hid).
    cbn [fst]. fold o. unfold AutoSelect.call_result.
    split; intros ->; reflexivity.
  - intros prompts.
    destruct (run_calls_cached id prompts s Ht Hid) as (Hc & tr & Htr & Hreq).
    split; [exact Hc|]. now rewrite (added_app s _ tr Htr).
Qed.
End Properties.
End Pinned.

(* ================================================================== *)
(** ** The answers with status 200, and what the page makes of them *)

Module Answers.
Import JS Async Express RunFacts AutoSelectFacts BackendFacts Wiring.

Section Properties.
Context {env : Env} {page : Frontend.Page} {W : Type}.
Variable respond : W -> request -> fetch_outcome * W.

Lemma usable_text (o : fetch_outcome) :
  AutoSelect.usable o = true ->
  exists v, AutoSelect.text (AutoSelect.attempt_of o) = Some v /\
            truthy v = true.
Proof.
  unfold AutoSelect.usable. destruct o as [e|status raw]; simpl;
    [discriminate|].
  unfold AutoSelect.parse_response.
  destruct (JSON_parse raw) as [d|]; simpl; [|discriminate].
  destruct (status_ok status && truthy (AutoSelect.extract_text d))
    eqn:Hb; simpl.
  - apply andb_true_iff in Hb as [_ Hb]. intros _. eauto.
  - destruct (truthy_val _); discriminate.
Qed.

(** What [callGemini] returns is the truthy text of the last exchange
    of the call, a usable generation attempt with the caller's
    prompt. *)
Lemma callGemini_returned (prompt : string) (s s1 : state W) (x : jsval) :
  run respond (AutoSelect.callGemini prompt) s = (Returned x, s1) ->
  exists v tr id o,
    x = Some v /\ truthy v = true /\
    trace s1 = (trace s ++ tr ++ [(AutoSelect.generate_request id prompt, o)])%list /\
    AutoSelect.usable o = true /\
    AutoSelect.text (AutoSelect.attempt_of o) = Some v.
Proof.
  rewrite run_callGemini.
  destruct (run_extends respond (AutoSelect.ensureWorkingModel (Some prompt)) s)
    as (tr & _ & Htr & _).
  destruct (run respond (AutoSelect.ensureWorkingModel (Some prompt)) s)
    as [[m|e] s0]; [|discriminate].
  cbn [snd] in Htr.
  destruct (to_string m) as [id|]; [|discriminate].
  rewrite exchange_eq. unfold AutoSelect.call_result.
  set (o := fst (respond (net s0) (AutoSelect.generate_request id prompt))).
  destruct (AutoSelect.usable o) eqn:Hu; [|discriminate].
  intros H. injection H as <- <-.
  destruct (usable_text o Hu) as (v & Hv & Htv).
  exists v, tr, id, o. cbn [trace prints]. rewrite Htr, <- app_assoc. auto.
Qed.

(** The [try] block of a route of the auto-selecting server, when it
    answers 200. *)
Lemma block_answer (t : json) (prompt : string -> string) (field : string)
    (original : jsval) (where_ : string) (s s1 : state W) (resp : response) :
  run respond
    (try_catch
       (bind (template t) (fun shown =>
          bind (AutoSelect.callGemini (prompt shown)) (fun output =>
            Ret {| status := 200;
                   body := JObj (literal [("original", original);
                                          (field, output)]) |})))
       (AutoSelect.failed where_)) s = (Returned resp, s1) ->
  status resp = 200%Z ->
  exists shown v tr id o,
    to_string t = Some shown /\
    body resp = JObj (literal [("original", original); (field, Some v)]) /\
    truthy v = true /\
    trace s1 =
      (trace s ++ tr ++ [(AutoSelect.generate_request id (prompt shown), o)])%list /\
    AutoSelect.usable o = true /\
    AutoSelect.text (AutoSelect.attempt_of o) = Some v.
Proof.
  rewrite run_try_catch. unfold template.
  destruct (to_string t) as [shown|]; cbn [bind].
  - rewrite run_bind.
    destruct (run respond (AutoSelect.callGemini (prompt shown)) s)
      as [[x|e] s0] eqn:Hrun.
    + cbn [run]. intros H _. injection H as <- <-.
      destruct (callGemini_returned _ _ _ _ Hrun)
        as (v & tr & id & o & -> & Hv & Htr & Hu & Ht).
      exists shown, v, tr, id, o. repeat split; auto.
    + unfold AutoSelect.failed, log. cbn [bind run].
      intros H Hs. injection H as <- _. discriminate.
  - unfold AutoSelect.failed, log. cbn [bind run].
    intros H Hs. injection H as <- _. discriminate.
Qed.

(** The same for the plain server, whose [try] holds the whole
    handler. *)
Lemma backend_block_answer (t : json) (prompt : string -> string)
    (what : string) (s s1 : state W) (resp : response) :
  run respond
    (try_catch
       (bind (template t) (fun shown =>
          bind (Backend.callGeminiAPI (prompt shown)) (fun result =>
            Ret {| status := 200; body := JObj [("result", result)] |})))
       (Backend.failed what)) s = (Returned resp, s1) ->
  status resp = 200%Z ->
  exists shown v tr model o,
    to_string t = Some shown /\
    body resp = JObj [("result", v)] /\
    truthy v = true /\
    trace s1 =
      (trace s ++ tr ++ [(Backend.generate_request model (prompt shown), o)])%list /\
    Backend.verdict o = Some v.
Proof.
  rewrite run_try_catch. unfold template.
  destruct (to_string t) as [shown|]; cbn [bind].
  - rewrite run_bind.
    destruct (run respond (Backend.callGeminiAPI (prompt shown)) s)
      as [[v|e] s0] eqn:Hrun.
    + cbn [run]. intros H _. injection H as <- <-.
      destruct (try_models_returned respond _ _ _ _ _ Hrun)
        as (model & tr & o & _ & Htr & Hv).
      exists shown, v, tr, model, o. repeat split; auto.
      unfold Backend.verdict in Hv.
      destruct o as [e|st raw]; [discriminate|].
      destruct (negb _); [discriminate|].
      destruct (JSON_parse raw); [|discriminate].
      destruct (Backend.result_of _) as [r|]; [|discriminate].
      destruct (truthy r) eqn:Hr; [|discriminate].
      now injection Hv as <-.
    + unfold Backend.failed, log. cbn [bind run].
      intros H Hs. injection H as <- _. discriminate.
  - unfold Backend.failed, log. cbn [bind run].
    intros H Hs. injection H as <- _. discriminate.
Qed.

Lemma extract_generated (field : string) (t v : json) :
  In field ["humanized"; "summary"; "toned"] ->
  truthy v = true ->
  Frontend.extractTextFromResponse (JObj [("original", t); (field, v)]) = v /\
  FrontendPlain.shown (JObj [("original", t); (field, v)]) = None.
Proof.
  intros Hf Hv.
  destruct Hf as [<-|[<-|[<-|[]]]];
    unfold Frontend.extractTextFromResponse, Frontend.returned_field,
      FrontendPlain.shown;
    simpl; rewrite Hv; auto.
Qed.

Lemma extract_result (v : json) :
  truthy v = true ->
  Frontend.extractTextFromResponse (JObj [("result", v)]) = v /\
  FrontendPlain.shown (JObj [("result", v)]) = Some v.
Proof.
  intros Hv.
  unfold Frontend.extractTextFromResponse, Frontend.returned_field,
    FrontendPlain.shown.
  simpl. rewrite Hv. auto.
Qed.

(** X8.  An answer with status 200 carries the generated text.  In the
    auto-selecting server its body is [{ original, f }] with [f] the
    field of the route, [original] the [text] of the request, and under
    [f] the truthy text extracted from the last exchange of the
    handler, a usable generation attempt; in the plain server it is
    [{ result }] with the verdict on the last exchange.  Read by the
    page as the server sent it, [extractTextFromResponse] of the first
    script returns that text for both servers, while [data.result] of
    the second script is the text for the plain server and [undefined]
    for the auto-selecting one. *)
Theorem ok_answer_carries_the_text :
  (forall path h (req_body : jsval) (s : state W) (resp : response),
      In (path, h) auto_select_routes ->
      fst (run respond (h req_body) s) = Returned resp ->
      status resp = 200%Z ->
      exists (b t v : json) (field : string),
        req_body = Some b /\ get_prop b "text" = Some t /\
        In (path, field) [("/api/humanize", "humanized");
                          ("/api/summarize", "summary");
                          ("/api/tone", "toned")] /\
        body resp = JObj [("original", t); (field, v)] /\
        truthy v = true /\
        (exists tr r o,
            added s (snd (run respond (h req_body) s)) = (tr ++ [(r, o)])%list /\
            is_post r = true /\
            AutoSelect.usable o = true /\
            AutoSelect.text (AutoSelect.attempt_of o) = Some v) /\
        Frontend.extractTextFromResponse (body resp) = v /\
        FrontendPlain.shown (body resp) = None) /\
  (forall path h (req_body : jsval) (s : state W) (resp : response),
      In (path, h) backend_routes ->
      fst (run respond (h req_body) s) = Returned resp ->
      status resp = 200%Z ->
      exists v : json,
        body resp = JObj [("result", v)] /\
        truthy v = true /\
        (exists tr r o,
            added s (snd (run respond (h req_body) s)) = (tr ++ [(r, o)])%list /\
            is_post r = true /\
            Backend.verdict o = Some v) /\
        Frontend.extractTextFromResponse (body resp) = v /\
        FrontendPlain.shown (body resp) = Some v).
Proof.
  split.
  - intros path h req_body s resp Hin Hrun Hst.
    destruct (Validation.destructure_cases req_body)
      as [-> | [-> | (b & -> & Hd)]];
      [destruct Hin as [H|[H|[H|[]]]]; injection H as _ <-; discriminate ..|].
    assert (Hfin : forall (t : json) prompt field where_,
      In (path, field) [("/api/humanize", "humanized");
                        ("/api/summarize", "summary");
                        ("/api/tone", "toned")] ->
      get_prop b "text" = Some t ->
      h (Some b) =
        try_catch
          (bind (template t) (fun shown =>
             bind (AutoSelect.callGemini (prompt shown)) (fun output =>
               Ret {| status := 200;
                      body := JObj (literal [("original", Some t);
                                             (field, output)]) |})))
          (AutoSelect.failed where_) ->
      exists (b0 t v : json) (field : string),
        Some b = Some b0 /\ get_prop b0 "text" = Some t /\
        In (path, field) [("/api/humanize", "humanized");
                          ("/api/summarize", "summary");
                          ("/api/tone", "toned")] /\
        body resp = JObj [("original", t); (field, v)] /\
        truthy v = true /\
        (exists tr r o,
            added s (snd (run respond (h (Some b)) s)) = (tr ++ [(r, o)])%list /\
            is_post r = true /\
            AutoSelect.usable o = true /\
            AutoSelect.text (AutoSelect.attempt_of o) = Some v) /\
        Frontend.extractTextFromResponse (body resp) = v /\
        FrontendPlain.shown (body resp) = None).
    { intros t prompt field where_ Hf Ht Hh. rewrite Hh in Hrun |- *.
      destruct (run respond _ s) as [r s1] eqn:Hr. cbn [fst snd] in *.
      subst r.
      destruct (block_answer _ _ _ _ _ _ _ _ Hr Hst)
        as (shown & v & tr & id & o & _ & Hb & Hv & Htr & Hu & Hx).
      cbn [literal] in Hb.
      assert (Hfield : In field ["humanized"; "summary"; "toned"]).
      { destruct Hf as [H|[H|[H|[]]]]; injection H as _ <-; simpl; auto. }
      destruct (extract_generated field t v Hfield Hv) as [He Hsh].
      exists b, t, v, field. rewrite Hb. repeat split; auto.
      exists tr, (AutoSelect.generate_request id (prompt shown)), o.
      repeat split; auto. apply added_app. exact Htr. }
    destruct Hin as [H|[H|[H|[]]]]; injection H as <- <-.
    + unfold AutoSelect.humanize in *.
      rewrite Hd in *. cbn [bind] in *.
      destruct (get_prop b "text") as [t|] eqn:Ht;
        [destruct (truthy t)|].
      * eapply Hfin; [simpl; auto|reflexivity|reflexivity].
      * cbn [run fst] in Hrun. injection Hrun as <-. discriminate.
      * cbn [run fst] in Hrun. injection Hrun as <-. discriminate.
    + unfold AutoSelect.summarize in *.
      rewrite Hd in *. cbn [bind] in *.
      destruct (get_prop b "text") as [t|] eqn:Ht;
        [destruct (truthy t)|].
      * eapply Hfin; [simpl; auto|reflexivity|reflexivity].
      * cbn [run fst] in Hrun. injection Hrun as <-. discriminate.
      * cbn [run fst] in Hrun. injection Hrun as <-. discriminate.
    + unfold AutoSelect.tone in *.
      rewrite !Hd in *. cbn [bind] in *.
      destruct (get_prop b "text") as [t|] eqn:Ht;
        [destruct (get_prop b "mode") as [m|];
         [destruct (truthy t && truthy m)|]|].
      * eapply (Hfin t (AutoSelect.tone_prompt (AutoSelect.tone_of m)));
          [simpl; auto|reflexivity|reflexivity].
      * cbn [run fst] in Hrun. injection Hrun as <-. discriminate.
      * cbn [run fst] in Hrun. injection Hrun as <-. discriminate.
      * cbn [run fst] in Hrun. injection Hrun as <-. discriminate.
  - intros path h req_body s resp Hin Hrun Hst.
    destruct (Validation.destructure_cases req_body)
      as [-> | [-> | (b & -> & Hd)]];
      [destruct Hin as [H|[H|[H|[]]]]; injection H as _ <-;
       cbn in Hrun; injection Hrun as <-; discriminate ..|].
    assert (Hfin : forall (t : json) prompt what,
      h (Some b) =
        try_catch
          (bind (template t) (fun shown =>
             bind (Backend.callGeminiAPI (prompt shown)) (fun result =>
               Ret {| status := 200; body := JObj [("result", result)] |})))
          (Backend.failed what) ->
      exists v : json,
        body resp = JObj [("result", v)] /\
        truthy v = true /\
        (exists tr r o,
            added s (snd (run respond (h (Some b)) s)) = (tr ++ [(r, o)])%list /\
            is_post r = true /\
            Backend.verdict o = Some v) /\
        Frontend.extractTextFromResponse (body resp) = v /\
        FrontendPlain.shown (body resp) = Some v).
    { intros t prompt what Hh. rewrite Hh in Hrun |- *.
      destruct (run respond _ s) as [r s1] eqn:Hr. cbn [fst snd] in *.
      subst r.
      destruct (backend_block_answer _ _ _ _ _ _ Hr Hst)
        as (shown & v & tr & model & o & _ & Hb & Hv & Htr & Hx).
      destruct (extract_result v Hv) as [He Hsh].
      exists v. rewrite Hb. repeat split; auto.
      exists tr, (Backend.generate_request model (prompt shown)), o.
      repeat split; auto. apply added_app. exact Htr. }
    destruct Hin as [H|[H|[H|[]]]]; injection H as <- <-.
    + unfold Backend.humanize in *.
      rewrite Hd in *. cbn [bind] in *.
      destruct (get_prop b "text") as [t|] eqn:Ht;
        [destruct (truthy t)|].
      * eapply Hfin; reflexivity.
      * cbn [run fst try_catch] in Hrun. injection Hrun as <-. discriminate.
      * cbn [run fst try_catch] in Hrun. injection Hrun as <-. discriminate.
    + unfold Backend.summarize in *.
      rewrite Hd in *. cbn [bind] in *.
      destruct (get_prop b "text") as [t|] eqn:Ht;
        [destruct (truthy t)|].
      * eapply Hfin; reflexivity.
      * cbn [run fst try_catch] in Hrun. injection Hrun as <-. discriminate.
      * cbn [run fst try_catch] in Hrun. injection Hrun as <-. discriminate.
    + unfold Backend.tone in *.
      rewrite !Hd in *. cbn [bind] in *.
      destruct (get_prop b "text") as [t|] eqn:Ht;
        [destruct (get_prop b "mode") as [m|];
         [destruct (truthy t && truthy m)|]|].
      * eapply (Hfin t (Backend.tone_prompt (Backend.tone_of m)));
          reflexivity.
      * cbn [run fst try_catch] in Hrun. injection Hrun as <-. discriminate.
      * cbn [run fst try_catch] in Hrun. injection Hrun as <-. discriminate.
      * cbn [run fst try_catch] in Hrun. injection Hrun as <-. discriminate.
Qed.
End Properties.
End Answers.

(* ================================================================== *)
(** ** Requests that pass the validation *)

Module Accepted.
Import JS Async Express RunFacts AutoSelectFacts BackendFacts Outcomes.

Section Properties.
Context {env : Env} {W : Type}.
Variable respond : W -> request -> fetch_outcome * W.

Lemma block_reaches (t : json) (shown : string) (prompt : string -> string)
    (field : string) (original : jsval) (where_ : string) (s : state W) :
  to_string t = Some shown ->
  reaches respond
    (try_catch
       (bind (template t) (fun shown =>
          bind (AutoSelect.callGemini (prompt shown)) (fun output =>
            Ret {| status := 200;
                   body := JObj (literal [("original", original);
                                          (field, output)]) |})))
       (AutoSelect.failed where_)) (prompt shown) s.
Proof.
  intros Hid. split.
  - rewrite (Routes.run_try_block respond t shown prompt field original _ s Hid).
    destruct (run respond (AutoSelect.callGemini (prompt shown)) s)
      as [[out|e] s1].
    + eexists. split; [reflexivity|now left].
    + unfold AutoSelect.failed, log. cbn [bind run fst].
      eexists. split; [reflexivity|now right].
  - apply run_sends, sends_try_catch.
    + unfold template. rewrite Hid. cbn [bind].
      apply sends_bind; [apply sends_callGemini|constructor].
    + intros e. unfold AutoSelect.failed. simpl. repeat constructor.
Qed.

Lemma block_gives_up (t : json) (prompt : string -> string)
    (field : string) (original : jsval) (where_ : string) (s : state W) :
  to_string t = None ->
  gives_up respond
    (try_catch
       (bind (template t) (fun shown =>
          bind (AutoSelect.callGemini (prompt shown)) (fun output =>
            Ret {| status := 200;
                   body := JObj (literal [("original", original);
                                          (field, output)]) |})))
       (AutoSelect.failed where_)) s.
Proof.
  intros Hid. unfold gives_up, template. rewrite Hid.
  unfold AutoSelect.failed, log. cbn [bind try_catch run fst snd]. split.
  - eexists. split; reflexivity.
  - apply added_app. simpl. now rewrite app_nil_r.
Qed.

Lemma backend_block_reaches (t : json) (shown : string)
    (prompt : string -> string) (what : string) (s : state W) :
  to_string t = Some shown ->
  reaches respond
    (try_catch
       (bind (template t) (fun shown =>
          bind (Backend.callGeminiAPI (prompt shown)) (fun result =>
            Ret {| status := 200; body := JObj [("result", result)] |})))
       (Backend.failed what)) (prompt shown) s.
Proof.
  intros Hid. split.
  - rewrite run_try_catch. unfold template. rewrite Hid. cbn [bind].
    rewrite run_bind.
    destruct (run respond (Backend.callGeminiAPI (prompt shown)) s)
      as [[out|e] s1].
    + eexists. split; [reflexivity|now left].
    + unfold Backend.failed, log. cbn [bind run fst].
      eexists. split; [reflexivity|now right].
  - apply run_sends, sends_try_catch.
    + unfold template. rewrite Hid. cbn [bind].
      apply sends_bind; [apply Validation.sends_callGeminiAPI|constructor].
    + intros e. unfold Backend.failed. simpl. repeat constructor.
Qed.

Lemma backend_block_gives_up (t : json) (prompt : string -> string)
    (what : string) (s : state W) :
  to_string t = None ->
  gives_up respond
    (try_catch
       (bind (template t) (fun shown =>
          bind (Backend.callGeminiAPI (prompt shown)) (fun result =>
            Ret {| status := 200; body := JObj [("result", result)] |})))
       (Backend.failed what)) s.
Proof.
  intros Hid. unfold gives_up, template. rewrite Hid.
  unfold Backend.failed, log. cbn [bind try_catch run fst snd]. split.
  - eexists. split; reflexivity.
  - apply added_app. simpl. now rewrite app_nil_r.
Qed.

(** X9.  A request whose [text] is truthy (and whose [mode] is truthy,
    for /api/tone) is never answered with 400 and never makes the
    handler throw.  When the text prints as [shown], the answer is 200
    or 500 and every generation request of the handler carries exactly
    the template of the route filled with [shown].  When the text does not print, the handler
    answers 500 without sending anything. *)
Theorem valid_request_reaches_the_model (req_body t : json) (s : state W) :
  get_prop req_body "text" = Some t ->
  truthy t = true ->
  (forall shown : string,
      to_string t = Some shown ->
      reaches respond (AutoSelect.humanize (Some req_body))
        (AutoSelect.humanize_prompt shown) s /\
      reaches respond (AutoSelect.summarize (Some req_body))
        (AutoSelect.summarize_prompt shown) s /\
      reaches respond (Backend.humanize (Some req_body)) (Backend.humanize_prompt shown) s /\
      reaches respond (Backend.summarize (Some req_body))
        (Backend.summarize_prompt shown) s /\
      (forall m : json,
          get_prop req_body "mode" = Some m ->
          truthy m = true ->
          reaches respond (AutoSelect.tone (Some req_body))
            (AutoSelect.tone_prompt (AutoSelect.tone_of m) shown) s /\
          reaches respond (Backend.tone (Some req_body))
            (Backend.tone_prompt (Backend.tone_of m) shown) s)) /\
  (to_string t = None ->
   gives_up respond (AutoSelect.humanize (Some req_body)) s /\
   gives_up respond (AutoSelect.summarize (Some req_body)) s /\
   gives_up respond (Backend.humanize (Some req_body)) s /\
   gives_up respond (Backend.summarize (Some req_body)) s /\
   (forall m : json,
       get_prop req_body "mode" = Some m ->
       truthy m = true ->
       gives_up respond (AutoSelect.tone (Some req_body)) s /\
       gives_up respond (Backend.tone (Some req_body)) s)).
Proof.
  intros Ht Htr.
  pose proof (Routes.has_prop_object _ _ _ Ht) as Hb.
  split.
  - intros shown Hid.
    unfold AutoSelect.humanize, AutoSelect.summarize, AutoSelect.tone,
      Backend.humanize, Backend.summarize, Backend.tone.
    rewrite !(Routes.destructure_not_null _ _ Hb). cbn [bind].
    rewrite Ht, Htr.
    split; [apply (block_reaches t shown AutoSelect.humanize_prompt); auto|].
    split; [apply (block_reaches t shown AutoSelect.summarize_prompt); auto|].
    split; [apply (backend_block_reaches t shown Backend.humanize_prompt);
            auto|].
    split; [apply (backend_block_reaches t shown Backend.summarize_prompt);
            auto|].
    intros m Hm Hmr. rewrite Hm, Hmr. cbn [andb]. split.
    + apply (block_reaches t shown
               (AutoSelect.tone_prompt (AutoSelect.tone_of m))); auto.
    + apply (backend_block_reaches t shown
               (Backend.tone_prompt (Backend.tone_of m))); auto.
  - intros Hid.
    unfold AutoSelect.humanize, AutoSelect.summarize, AutoSelect.tone,
      Backend.humanize, Backend.summarize, Backend.tone.
    rewrite !(Routes.destructure_not_null _ _ Hb). cbn [bind].
    rewrite Ht, Htr.
    split; [apply (block_gives_up t AutoSelect.humanize_prompt); auto|].
    split; [apply (block_gives_up t AutoSelect.summarize_prompt); auto|].
    split; [apply (backend_block_gives_up t Backend.humanize_prompt); auto|].
    split; [apply (backend_block_gives_up t Backend.summarize_prompt); auto|].
    intros m Hm Hmr. rewrite Hm, Hmr. cbn [andb]. split.
    + apply (block_gives_up t
               (AutoSelect.tone_prompt (AutoSelect.tone_of m))); auto.
    + apply (backend_block_gives_up t
               (Backend.tone_prompt (Backend.tone_of m))); auto.
Qed.
End Properties.
End Accepted.

(* ================================================================== *)
(** ** From the page to the servers *)

Module PageFacts.
Import JS Async Express RunFacts AutoSelectFacts BackendFacts Wiring Outcomes.

Section Properties.
Context {env : Env} {page : Frontend.Page} {W : Type}.
Variable respond : W -> request -> fetch_outcome * W.

Lemma returned_field_truthy (data : json) (k : string) (v : json) :
  Frontend.returned_field data k = Some v -> truthy v = true.
Proof.
  unfold Frontend.returned_field.
  destruct (get_prop data k) as [x|]; [|discriminate].
  destruct (truthy x) eqn:Hx; [|discriminate]. now intros [= <-].
Qed.

Lemma from_candidates_truthy (data : json) :
  Frontend.JSON_stringify data <> "" ->
  truthy (Frontend.from_candidates data) = true.
Proof.
  intros Hs.
  assert (Hf : truthy (JStr (Frontend.JSON_stringify data)) = true)
    by (simpl; now apply negb_true_iff, String.eqb_neq).
  unfold Frontend.from_candidates.
  destruct (get_prop data "candidates") as [[| | | |[|c items]|]|]; auto.
  destruct (truthy c); auto.
  destruct (Frontend.nested_text c) as [p|]; auto.
  destruct (truthy p) eqn:Hp; auto.
Qed.

Lemma nonempty_truthy (text : string) :
  text <> "" -> truthy (JStr text) = true.
Proof. intros H. simpl. now apply negb_true_iff, String.eqb_neq. Qed.

(** X10.  [extractTextFromResponse] gives a falsy result exactly for a
    falsy body ([null], [false], [0], the empty string), and then the
    result is [null]: of whatever else the server sends, the page
    shows a field, a nested text or the JSON text, and never takes the
    branch that reports that no text was returned. *)
Theorem extractTextFromResponse_falsy_only_for_falsy (data : json) :
  Frontend.JSON_stringify data <> "" ->
  truthy (Frontend.extractTextFromResponse data) = truthy data /\
  (truthy data = false -> Frontend.extractTextFromResponse data = JNull) /\
  (forall text : string,
      data = JStr text -> text <> "" ->
      Frontend.extractTextFromResponse data = data).
Proof.
  intros Hs. unfold Frontend.extractTextFromResponse.
  destruct (truthy data) eqn:Hd; cbn [negb]; split; try split;
    try reflexivity; try discriminate; try (intros text -> _; reflexivity).
  2: { intros text -> Hne. apply nonempty_truthy in Hne. congruence. }
  destruct data; try exact Hd;
    repeat match goal with
           | |- context [Frontend.returned_field ?d ?k] =>
               let E := fresh "E" in
               destruct (Frontend.returned_field d k) eqn:E;
               [exact (returned_field_truthy _ _ _ E)|]
           end;
    now apply from_candidates_truthy.
Qed.

Lemma humanize_accepted (req_body t : json) :
  get_prop req_body "text" = Some t ->
  truthy t = true ->
  AutoSelect.humanize (Some req_body) =
  try_catch
    (bind (template t) (fun shown =>
       bind (AutoSelect.callGemini (AutoSelect.humanize_prompt shown))
         (fun output =>
            Ret {| status := 200;
                   body := JObj (literal [("original", Some t);
                                          ("humanized", output)]) |})))
    (AutoSelect.failed "/api/humanize").
Proof.
  intros Ht Htr. unfold AutoSelect.humanize.
  rewrite (Routes.destructure_not_null _ _ (Routes.has_prop_object _ _ _ Ht)).
  cbn [bind]. now rewrite Ht, Htr.
Qed.

Lemma summarize_accepted (req_body t : json) :
  get_prop req_body "text" = Some t ->
  truthy t = true ->
  AutoSelect.summarize (Some req_body) =
  try_catch
    (bind (template t) (fun shown =>
       bind (AutoSelect.callGemini (AutoSelect.summarize_prompt shown))
         (fun output =>
            Ret {| status := 200;
                   body := JObj (literal [("original", Some t);
                                          ("summary", output)]) |})))
    (AutoSelect.failed "/api/summarize").
Proof.
  intros Ht Htr. unfold AutoSelect.summarize.
  rewrite (Routes.destructure_not_null _ _ (Routes.has_prop_object _ _ _ Ht)).
  cbn [bind]. now rewrite Ht, Htr.
Qed.

Lemma backend_humanize_accepted (req_body t : json) :
  get_prop req_body "text" = Some t ->
  truthy t = true ->
  Backend.humanize (Some req_body) =
  try_catch
    (bind (template t) (fun shown =>
       bind (Backend.callGeminiAPI (Backend.humanize_prompt shown))
         (fun result =>
            Ret {| status := 200; body := JObj [("result", result)] |})))
    (Backend.failed "Humanize").
Proof.
  intros Ht Htr. unfold Backend.humanize.
  rewrite (Routes.destructure_not_null _ _ (Routes.has_prop_object _ _ _ Ht)).
  cbn [bind]. now rewrite Ht, Htr.
Qed.

Lemma backend_summarize_accepted (req_body t : json) :
  get_prop req_body "text" = Some t ->
  truthy t = true ->
  Backend.summarize (Some req_body) =
  try_catch
    (bind (template t) (fun shown =>
       bind (Backend.callGeminiAPI (Backend.summarize_prompt shown))
         (fun result =>
            Ret {| status := 200; body := JObj [("result", result)] |})))
    (Backend.failed "Summarize").
Proof.
  intros Ht Htr. unfold Backend.summarize.
  rewrite (Routes.destructure_not_null _ _ (Routes.has_prop_object _ _ _ Ht)).
  cbn [bind]. now rewrite Ht, Htr.
Qed.

(** What the two servers do with the body [{ text }] of the page, for
    a text that is not empty. *)
Lemma text_only_reaches (text : string) (s : state W) :
  text <> "" ->
  let body := JObj [("text", JStr text)] in
  reaches respond (AutoSelect.humanize (Some body))
    (AutoSelect.humanize_prompt text) s /\
  reaches respond (Backend.humanize (Some body)) (Backend.humanize_prompt text) s /\
  reaches respond (AutoSelect.summarize (Some body))
    (AutoSelect.summarize_prompt text) s /\
  reaches respond (Backend.summarize (Some body)) (Backend.summarize_prompt text) s.
Proof.
  intros Hne body. pose proof (nonempty_truthy text Hne) as Htr.
  rewrite (humanize_accepted body (JStr text) eq_refl Htr),
    (summarize_accepted body (JStr text) eq_refl Htr),
    (backend_humanize_accepted body (JStr text) eq_refl Htr),
    (backend_summarize_accepted body (JStr text) eq_refl Htr).
  split; [|split; [|split]].
  - now apply (Accepted.block_reaches respond (JStr text) text
                 AutoSelect.humanize_prompt).
  - now apply (Accepted.backend_block_reaches respond (JStr text) text
                 Backend.humanize_prompt).
  - now apply (Accepted.block_reaches respond (JStr text) text
                 AutoSelect.summarize_prompt).
  - now apply (Accepted.backend_block_reaches respond (JStr text) text
                 Backend.summarize_prompt).
Qed.

(** The same for the body [{ text, mode }] with one of the two tones of
    the page. *)
Lemma text_and_tone_reach (text a : string) (s : state W) :
  text <> "" ->
  a = "formal" \/ a = "casual" ->
  let body := JObj [("text", JStr text); ("mode", JStr a)] in
  reaches respond (AutoSelect.tone (Some body))
    (AutoSelect.tone_prompt (if a =? "formal" then "Formal" else "Casual")
       text) s /\
  reaches respond (Backend.tone (Some body)) (Backend.tone_prompt a text) s.
Proof.
  intros Hne Ha body. pose proof (nonempty_truthy text Hne) as Htr.
  destruct Ha as [->| ->];
    rewrite (Validation.tone_accepted body (JStr text) (JStr _)
               eq_refl eq_refl Htr eq_refl),
      (Validation.backend_tone_accepted body (JStr text) (JStr _)
         eq_refl eq_refl Htr eq_refl).
  - split.
    + exact (Accepted.block_reaches respond (JStr text) text
               (AutoSelect.tone_prompt (AutoSelect.tone_of (JStr "formal")))
               "toned" (Some (JStr text)) "/api/tone" s eq_refl).
    + exact (Accepted.backend_block_reaches respond (JStr text) text
               (Backend.tone_prompt (Backend.tone_of (JStr "formal")))
               "Tone" s eq_refl).
  - split.
    + exact (Accepted.block_reaches respond (JStr text) text
               (AutoSelect.tone_prompt (AutoSelect.tone_of (JStr "casual")))
               "toned" (Some (JStr text)) "/api/tone" s eq_refl).
    + exact (Accepted.backend_block_reaches respond (JStr text) text
               (Backend.tone_prompt (Backend.tone_of (JStr "casual")))
               "Tone" s eq_refl).
Qed.

(** X16.  The first script puts a generated text on the page only
    when it is a string.  For an answer with status 200 of either
    server, [{ original, f: v }] or [{ result: v }] with [v] truthy,
    [processText] renders [v] when [v] is a string; when it is anything
    else (a number, an array, an object taken for the text by the
    server) the call of [out.replace] throws and the page reports that
    the backend could not be reached. *)
Theorem processText_shows_strings_only (t v : json) (field : string) :
  In field ["humanized"; "summary"; "toned"] ->
  truthy v = true ->
  Frontend.processText_shows (JObj [("original", t); (field, v)]) =
    Frontend.processText_shows (JObj [("result", v)]) /\
  Frontend.processText_shows (JObj [("result", v)]) =
    match v with
    | JStr text => Frontend.Html (Frontend.render text)
    | _ => Frontend.Unreachable
    end.
Proof.
  intros Hf Hv. unfold Frontend.processText_shows.
  destruct (Answers.extract_generated field t v Hf Hv) as [-> _].
  destruct (Answers.extract_result v Hv) as [-> _].
  rewrite Hv. cbn [negb]. split; [reflexivity|].
  destruct v; reflexivity.
Qed.

Ltac settle :=
  repeat match goal with
         | H : reaches _ _ _ _ |- _ => destruct H
         end;
  repeat split; auto; try congruence; try discriminate;
  unfold auto_select_routes, backend_routes; simpl; auto.

(** X11.  What [processText] of the first script sends is accepted by
    both servers.  The text sent is the trimmed input and is not empty;
    the endpoint is one the servers register; an action other than
    "summarize", "formal" and "casual", or none, goes to /api/humanize;
    the handler answers 200 or 500, never 400, and every generation
    request it makes carries the template of the route filled with the
    trimmed input and, for /api/tone, with the tone the page asked
    for. *)
Theorem processText_request_is_accepted
    (value : string) (action : option string) (endpoint : string)
    (body : json) (s : state W) :
  Frontend.processText_request value action = Frontend.Sent endpoint body ->
  let text := Frontend.trim value in
  text <> "" /\
  ((endpoint = "/api/humanize" /\ body = JObj [("text", JStr text)] /\
    action <> Some "summarize" /\ action <> Some "formal" /\
    action <> Some "casual" /\
    In (endpoint, AutoSelect.humanize) auto_select_routes /\
    In (endpoint, Backend.humanize) backend_routes /\
    reaches respond (AutoSelect.humanize (Some body))
      (AutoSelect.humanize_prompt text) s /\
    reaches respond (Backend.humanize (Some body))
      (Backend.humanize_prompt text) s) \/
   (endpoint = "/api/summarize" /\ body = JObj [("text", JStr text)] /\
    action = Some "summarize" /\
    In (endpoint, AutoSelect.summarize) auto_select_routes /\
    In (endpoint, Backend.summarize) backend_routes /\
    reaches respond (AutoSelect.summarize (Some body))
      (AutoSelect.summarize_prompt text) s /\
    reaches respond (Backend.summarize (Some body))
      (Backend.summarize_prompt text) s) \/
   (endpoint = "/api/tone" /\
    exists a : string,
      action = Some a /\ (a = "formal" \/ a = "casual") /\
      body = JObj [("text", JStr text); ("mode", JStr a)] /\
      In (endpoint, AutoSelect.tone) auto_select_routes /\
      In (endpoint, Backend.tone) backend_routes /\
      reaches respond (AutoSelect.tone (Some body))
        (AutoSelect.tone_prompt (if a =? "formal" then "Formal" else "Casual")
           text) s /\
      reaches respond (Backend.tone (Some body)) (Backend.tone_prompt a text) s)).
Proof.
  unfold Frontend.processText_request.
  destruct (Frontend.trim value =? "") eqn:He; [discriminate|].
  apply String.eqb_neq in He.
  destruct (text_only_reaches (Frontend.trim value) s He)
    as (H1 & H2 & H3 & H4).
  destruct action as [a|].
  - destruct (orb (a =? "formal") (a =? "casual")) eqn:Hfc.
    + intros H. injection H as <- <-. split; [exact He|]. right. right.
      split; [reflexivity|]. exists a.
      assert (Ha : a = "formal" \/ a = "casual").
      { apply orb_true_iff in Hfc as [H|H]; apply String.eqb_eq in H; auto. }
      destruct (text_and_tone_reach (Frontend.trim value) a s He Ha)
        as [H5 H6].
      settle.
    + apply orb_false_iff in Hfc as [Hf Hc].
      apply String.eqb_neq in Hf, Hc.
      unfold Frontend.is_action.
      destruct (a =? "summarize") eqn:Hs; intros H; injection H as <- <-;
        (split; [exact He|]).
      * apply String.eqb_eq in Hs. subst a. right. left. settle.
      * apply String.eqb_neq in Hs. left. settle.
  - cbn [Frontend.is_action]. intros H. injection H as <- <-.
    split; [exact He|]. left. settle.
Qed.

(** X12.  What [runAI] of the second script sends, for a text that is
    not empty (its callers pass no other): with the actions
    "humanize", "summarize", "formal" and "casual" the request goes to
    a registered route and is accepted as in X11; with any other
    action, or none, the payload has no [mode], so that /api/tone, to
    which the action "tone" leads, answers it with 400 in both
    servers, sending nothing. *)
Theorem runAI_request_is_accepted (text : string) (s : state W) :
  text <> "" ->
  (FrontendPlain.path_of (Some "humanize") = "/api/humanize" /\
   reaches respond
     (AutoSelect.humanize (Some (FrontendPlain.payload text (Some "humanize"))))
     (AutoSelect.humanize_prompt text) s /\
   reaches respond
     (Backend.humanize (Some (FrontendPlain.payload text (Some "humanize"))))
     (Backend.humanize_prompt text) s) /\
  (FrontendPlain.path_of (Some "summarize") = "/api/summarize" /\
   reaches respond
     (AutoSelect.summarize (Some (FrontendPlain.payload text (Some "summarize"))))
     (AutoSelect.summarize_prompt text) s /\
   reaches respond
     (Backend.summarize (Some (FrontendPlain.payload text (Some "summarize"))))
     (Backend.summarize_prompt text) s) /\
  (forall a : string,
      a = "formal" \/ a = "casual" ->
      FrontendPlain.path_of (Some a) = "/api/tone" /\
      reaches respond (AutoSelect.tone (Some (FrontendPlain.payload text (Some a))))
        (AutoSelect.tone_prompt (if a =? "formal" then "Formal" else "Casual")
           text) s /\
      reaches respond (Backend.tone (Some (FrontendPlain.payload text (Some a))))
        (Backend.tone_prompt a text) s) /\
  (FrontendPlain.path_of (Some "tone") = "/api/tone" /\
   forall action : option string,
     action <> Some "formal" -> action <> Some "casual" ->
     AutoSelect.tone (Some (FrontendPlain.payload text action)) =
       Ret AutoSelect.text_and_mode_required /\
     Backend.tone (Some (FrontendPlain.payload text action)) =
       Ret Backend.text_and_mode_required).
Proof.
  intros Hne.
  destruct (text_only_reaches text s Hne) as (H1 & H2 & H3 & H4).
  split; [|split; [|split]].
  - split; [reflexivity|split; assumption].
  - split; [reflexivity|split; assumption].
  - intros a Ha.
    destruct (text_and_tone_reach text a s Hne Ha) as [H5 H6].
    destruct Ha as [->| ->]; (split; [reflexivity|split; assumption]).
  - split; [reflexivity|]. intros action Hf Hc.
    assert (Hp : FrontendPlain.payload text action = JObj [("text", JStr text)]).
    { unfold FrontendPlain.payload. destruct action as [a|]; [|reflexivity].
      destruct (a =? "formal") eqn:E1;
        [apply String.eqb_eq in E1; congruence|].
      destruct (a =? "casual") eqn:E2;
        [apply String.eqb_eq in E2; congruence|].
      reflexivity. }
    rewrite Hp. split; reflexivity.
Qed.
End Properties.
End PageFacts.

(* ================================================================== *)
(** ** Every request gets an answer *)

Module Handlers.
Import JS Async Express RunFacts Wiring Limits.

Section Properties.
Context {env : Env} {W : Type}.
Variable respond : W -> request -> fetch_outcome * W.

Lemma run_answers {A : Type} (P : A -> Prop) (p : prog A) :
  answers P p ->
  forall s : state W, exists a, fst (run respond p s) = Returned a /\ P a.
Proof.
  induction 1 as [a Ha|r k Hk IH|k Hk IH|m k Hk IH|e k Hk IH];
    intros s; cbn [run].
  - now exists a.
  - destruct (exchange respond r s) as [o s1]. apply IH.
  - apply IH.
  - apply IH.
  - apply IH.
Qed.

Lemma returns_bind {A B : Type} (P : B -> Prop) (p : prog A)
    (f : A -> prog B) :
  (forall a, returns P (f a)) -> returns P (bind p f).
Proof.
  intros Hf. induction p as [a|e|r k IH|k IH|m k IH|e k IH]; cbn [bind];
    auto; constructor; auto.
Qed.

Lemma answers_try_catch {A : Type} (P : A -> Prop) (p : prog A)
    (h : js_error -> prog A) :
  returns P p -> (forall e, answers P (h e)) -> answers P (try_catch p h).
Proof.
  intros Hp Hh.
  induction Hp as [a Ha|e|r k Hk IH|k Hk IH|m k Hk IH|e k Hk IH];
    cbn [try_catch]; auto; constructor; auto.
Qed.

Lemma returns_destructure {B : Type} (P : B -> Prop) (req_body : jsval)
    (k : string) (f : jsval -> prog B) :
  (forall v, returns P (f v)) -> returns P (bind (destructure req_body k) f).
Proof. intros Hf. now apply returns_bind. Qed.

Lemma answers_weaken {A : Type} (P Q : A -> Prop) (p : prog A) :
  (forall a, P a -> Q a) -> answers P p -> answers Q p.
Proof. intros HPQ. induction 1; constructor; auto. Qed.

Lemma processed_known (resp : response) :
  processed_status resp -> known_status resp.
Proof. intros [H|H]; [left|right; right]; exact H. Qed.

Lemma answers_failed (where_ : string) (e : js_error) :
  answers processed_status (AutoSelect.failed where_ e).
Proof.
  unfold AutoSelect.failed, log. cbn [bind].
  constructor. constructor. right. reflexivity.
Qed.

Lemma answers_backend_failed (what : string) (e : js_error) :
  answers processed_status (Backend.failed what e).
Proof.
  unfold Backend.failed, log. cbn [bind].
  constructor. constructor. right. reflexivity.
Qed.

Lemma answers_block (t : json) (prompt : string -> string) (field : string)
    (original : jsval) (where_ : string) :
  answers processed_status
    (try_catch
       (bind (template t) (fun shown =>
          bind (AutoSelect.callGemini (prompt shown)) (fun output =>
            Ret {| status := 200;
                   body := JObj (literal [("original", original);
                                          (field, output)]) |})))
       (AutoSelect.failed where_)).
Proof.
  apply answers_try_catch; [|apply answers_failed].
  apply returns_bind. intros shown. apply returns_bind. intros output.
  constructor. left. reflexivity.
Qed.

Lemma answers_backend_block (t : json) (prompt : string -> string)
    (what : string) :
  answers processed_status
    (try_catch
       (bind (template t) (fun shown =>
          bind (Backend.callGeminiAPI (prompt shown)) (fun result =>
            Ret {| status := 200; body := JObj [("result", result)] |})))
       (Backend.failed what)).
Proof.
  apply answers_try_catch; [|apply answers_backend_failed].
  apply returns_bind. intros shown. apply returns_bind. intros result.
  constructor. left. reflexivity.
Qed.

Ltac turn_down := right; left; eexists; split; reflexivity.

Lemma handling_routes (path : string) (h : jsval -> prog response)
    (req_body : jsval) :
  In (path, h) auto_select_routes \/ In (path, h) backend_routes ->
  handling h req_body.
Proof.
  intros Hin. unfold handling.
  destruct (Validation.destructure_cases req_body)
    as [-> | [-> | (b & -> & Hd)]]; [left; auto ..|].
  assert (Hb : exists b0, Some b = Some b0 /\ b0 <> JNull).
  { exists b. split; [reflexivity|]. intros ->. specialize (Hd "text").
    discriminate. }
  destruct Hin as [[H|[H|[H|[]]]]|[H|[H|[H|[]]]]]; injection H as _ <-.
  - unfold AutoSelect.humanize. rewrite Hd. cbn [bind].
    destruct (get_prop b "text") as [t|]; [destruct (truthy t)|];
      [right; right; split; [exact Hb|apply answers_block]
      |turn_down ..].
  - unfold AutoSelect.summarize. rewrite Hd. cbn [bind].
    destruct (get_prop b "text") as [t|]; [destruct (truthy t)|];
      [right; right; split; [exact Hb|apply answers_block]
      |turn_down ..].
  - unfold AutoSelect.tone. rewrite !Hd. cbn [bind].
    destruct (get_prop b "text") as [t|];
      [destruct (get_prop b "mode") as [m|];
       [destruct (truthy t && truthy m)|]|];
      [right; right; split;
       [exact Hb
       |apply (answers_block t (AutoSelect.tone_prompt (AutoSelect.tone_of m)))]
      |turn_down ..|].
    destruct (get_prop b "mode"); turn_down.
  - unfold Backend.humanize. rewrite Hd. cbn [bind].
    destruct (get_prop b "text") as [t|]; [destruct (truthy t)|];
      [right; right; split; [exact Hb|apply answers_backend_block]
      |turn_down ..].
  - unfold Backend.summarize. rewrite Hd. cbn [bind].
    destruct (get_prop b "text") as [t|]; [destruct (truthy t)|];
      [right; right; split; [exact Hb|apply answers_backend_block]
      |turn_down ..].
  - unfold Backend.tone. rewrite !Hd. cbn [bind].
    destruct (get_prop b "text") as [t|];
      [destruct (get_prop b "mode") as [m|];
       [destruct (truthy t && truthy m)|]|];
      [right; right; split;
       [exact Hb
       |apply (answers_backend_block t
                 (Backend.tone_prompt (Backend.tone_of m)))]
      |turn_down ..|].
    destruct (get_prop b "mode"); turn_down.
Qed.

(** X13.  No exception of the provider side escapes a handler.  With
    every request to the provider settling, in a response or in a
    rejection (a request that never settles is outside this model, and
    the plain server sets no timeout), a handler of the plain server
    returns a response for every body, and a handler of the
    auto-selecting server for every body other than [undefined] and
    [null]; the status is 200, 400 or 500, and a 400 is given before
    anything is asked of the provider: no exchange, no change of
    [cachedModel].  On an [undefined] or [null] body the handlers of the
    auto-selecting server throw where they destructure it, outside
    their [try], leaving everything as it was, while those of the plain
    server answer 500 without sending anything. *)
Theorem handlers_always_answer :
  (forall path h (req_body : jsval) (s : state W),
      In (path, h) backend_routes ->
      exists resp, fst (run respond (h req_body) s) = Returned resp /\
                   known_status resp) /\
  (forall path h (b : json) (s : state W),
      In (path, h) auto_select_routes ->
      b <> JNull ->
      exists resp, fst (run respond (h (Some b)) s) = Returned resp /\
                   known_status resp) /\
  (forall path h (req_body : jsval) (s : state W) (resp : response),
      In (path, h) auto_select_routes \/ In (path, h) backend_routes ->
      fst (run respond (h req_body) s) = Returned resp ->
      status resp = 400%Z ->
      snd (run respond (h req_body) s) = s) /\
  (forall path h (req_body : jsval) (s : state W),
      In (path, h) auto_select_routes ->
      req_body = None \/ req_body = Some JNull ->
      exists e, run respond (h req_body) s = (Thrown e, s)) /\
  (forall path h (req_body : jsval) (s : state W),
      In (path, h) backend_routes ->
      req_body = None \/ req_body = Some JNull ->
      exists resp, fst (run respond (h req_body) s) = Returned resp /\
                   status resp = 500%Z /\
                   added s (snd (run respond (h req_body) s)) = []).
Proof.
  split; [|split; [|split; [|split]]].
  - intros path h req_body s Hin.
    destruct (handling_routes path h req_body (or_intror Hin))
      as [Hu|[(resp & Hh & Hs)|[_ Ha]]].
    + destruct Hin as [H|[H|[H|[]]]]; injection H as _ <-;
        destruct Hu as [-> | ->];
        (eexists; split; [reflexivity|right; right; reflexivity]).
    + rewrite Hh. exists resp. split; [reflexivity|right; left; exact Hs].
    + destruct (run_answers _ _ Ha s) as (resp & Hr & Hp).
      exists resp. split; [exact Hr|now apply processed_known].
  - intros path h b s Hin Hb.
    destruct (handling_routes path h (Some b) (or_introl Hin))
      as [[Hu|Hu]|[(resp & Hh & Hs)|[_ Ha]]].
    + discriminate.
    + injection Hu as ->. now elim Hb.
    + rewrite Hh. exists resp. split; [reflexivity|right; left; exact Hs].
    + destruct (run_answers _ _ Ha s) as (resp & Hr & Hp).
      exists resp. split; [exact Hr|now apply processed_known].
  - intros path h req_body s resp Hin Hrun Hst.
    destruct (handling_routes path h req_body Hin)
      as [Hu|[(resp' & Hh & Hs)|[_ Ha]]].
    + destruct Hin as [[H|[H|[H|[]]]]|[H|[H|[H|[]]]]]; injection H as _ <-;
        destruct Hu as [-> | ->]; try discriminate;
        cbn in Hrun; injection Hrun as <-; discriminate.
    + rewrite Hh. reflexivity.
    + destruct (run_answers _ _ Ha s) as (resp' & Hr & [Hp|Hp]);
        rewrite Hr in Hrun; injection Hrun as ->; rewrite Hst in Hp;
        discriminate.
  - intros path h req_body s [H|[H|[H|[]]]] [-> | ->];
      injection H as _ <-; eexists; reflexivity.
  - intros path h req_body s [H|[H|[H|[]]]] [-> | ->];
      injection H as _ <-;
      (eexists; split; [reflexivity|split; [reflexivity|]]);
      apply added_app; simpl; now rewrite app_nil_r.
Qed.
End Properties.
End Handlers.

(* ================================================================== *)
(** ** The plain server keeps nothing between requests *)

Module Stateless.
Import JS Async Express RunFacts Wiring Limits.

Section Properties.
Context {env : Env} {W : Type}.
Variable respond : W -> request -> fetch_outcome * W.

Lemma added_step (s s1 s2 : state W) (x : request * fetch_outcome) :
  trace s1 = (trace s ++ [x])%list ->
  (exists tr, trace s2 = (trace s1 ++ tr)%list) ->
  added s s2 = x :: added s1 s2.
Proof.
  intros H1 [tr H2]. rewrite (added_app s1 s2 tr H2).
  apply added_app. rewrite H2, H1, <- app_assoc. reflexivity.
Qed.

Lemma run_cacheless {A : Type} (p : prog A) :
  cacheless p ->
  forall s s' : state W,
    net s = net s' ->
    fst (run respond p s) = fst (run respond p s') /\
    net (snd (run respond p s)) = net (snd (run respond p s')) /\
    added s (snd (run respond p s)) = added s' (snd (run respond p s')) /\
    cachedModel (snd (run respond p s)) = cachedModel s.
Proof.
  induction 1 as [a|e|r k Hk IH|e k Hk IH]; intros s s' Hn; cbn [run].
  - repeat split; auto. now rewrite !Budget.added_refl.
  - repeat split; auto. now rewrite !Budget.added_refl.
  - rewrite !exchange_eq, <- Hn.
    set (o := fst (respond (net s) r)).
    match goal with
    | |- context [run respond (k o) ?s1] =>
        match goal with
        | |- context [fst (run respond (k o) ?s2) = fst (run respond (k o) ?s3)] =>
            destruct (IH o s2 s3 eq_refl) as (H1 & H2 & H3 & H4);
            destruct (run_extends respond (k o) s2) as (tr & _ & Ht & _);
            destruct (run_extends respond (k o) s3) as (tr' & _ & Ht' & _);
            rewrite (added_step s s2 _ (r, o) eq_refl (ex_intro _ tr Ht));
            rewrite (added_step s' s3 _ (r, o) eq_refl (ex_intro _ tr' Ht'))
        end
    end.
    repeat split; auto. now rewrite H3.
  - destruct (IH (print e s) (print e s') Hn) as (H1 & H2 & H3 & H4).
    repeat split; auto.
Qed.

Lemma cacheless_bind {A B : Type} (p : prog A) (f : A -> prog B) :
  cacheless p -> (forall a, cacheless (f a)) -> cacheless (bind p f).
Proof. induction 1; intros Hf; cbn [bind]; auto; constructor; auto. Qed.

Lemma cacheless_try_catch {A : Type} (p : prog A) (h : js_error -> prog A) :
  cacheless p -> (forall e, cacheless (h e)) -> cacheless (try_catch p h).
Proof. induction 1; intros Hh; cbn [try_catch]; auto; constructor; auto. Qed.

Lemma cacheless_template (v : json) : cacheless (template v).
Proof. unfold template. destruct (to_string v); constructor. Qed.

Lemma cacheless_destructure (req_body : jsval) (k : string) :
  cacheless (destructure req_body k).
Proof. destruct req_body as [[]|]; constructor. Qed.

Lemma cacheless_log {B : Type} (e : log_entry) (q : prog B) :
  cacheless q -> cacheless (bind (log e) (fun _ => q)).
Proof. intros Hq. unfold log. cbn [bind]. now constructor. Qed.

Lemma cacheless_try_model (model p : string) :
  cacheless (Backend.try_model model p).
Proof.
  unfold Backend.try_model. apply cacheless_try_catch.
  - unfold fetch. cbn [bind]. constructor. intros [e|status raw]; cbn [bind].
    + constructor.
    + cbn [fst snd]. destruct (negb (status_ok status)).
      * apply cacheless_log. constructor.
      * destruct (JSON_parse raw) as [d|]; [|constructor].
        destruct (Backend.result_of d) as [r|]; [|constructor].
        destruct (truthy r); constructor.
  - intros e. apply cacheless_log. constructor.
Qed.

Lemma cacheless_callGeminiAPI (p : string) :
  cacheless (Backend.callGeminiAPI p).
Proof.
  unfold Backend.callGeminiAPI.
  induction Backend.GEMINI_MODELS as [|model models IH];
    cbn [Backend.try_models]; [constructor|].
  apply cacheless_bind; [apply cacheless_try_model|].
  intros [v|]; [constructor|exact IH].
Qed.

Lemma cacheless_backend_block (t : json) (prompt : string -> string) :
  cacheless
    (bind (template t) (fun shown =>
       bind (Backend.callGeminiAPI (prompt shown)) (fun result =>
         Ret {| status := 200; body := JObj [("result", result)] |}))).
Proof.
  apply cacheless_bind; [apply cacheless_template|]. intros shown.
  apply cacheless_bind; [apply cacheless_callGeminiAPI|]. constructor.
Qed.

Lemma cacheless_backend (path : string) (h : jsval -> prog response)
    (req_body : jsval) :
  In (path, h) backend_routes -> cacheless (h req_body).
Proof.
  assert (Hf : forall what e, cacheless (Backend.failed what e)).
  { intros what e. unfold Backend.failed. apply cacheless_log. constructor. }
  intros [H|[H|[H|[]]]]; injection H as _ <-.
  - unfold Backend.humanize. apply cacheless_try_catch; [|apply Hf].
    apply cacheless_bind; [apply cacheless_destructure|].
    intros [t|]; [destruct (truthy t)|];
      [apply cacheless_backend_block|constructor|constructor].
  - unfold Backend.summarize. apply cacheless_try_catch; [|apply Hf].
    apply cacheless_bind; [apply cacheless_destructure|].
    intros [t|]; [destruct (truthy t)|];
      [apply cacheless_backend_block|constructor|constructor].
  - unfold Backend.tone. apply cacheless_try_catch; [|apply Hf].
    apply cacheless_bind; [apply cacheless_destructure|]. intros text.
    apply cacheless_bind; [apply cacheless_destructure|]. intros mode.
    destruct text as [t|];
      [destruct mode as [m|]; [destruct (truthy t && truthy m)|]|];
      [apply (cacheless_backend_block t
                (Backend.tone_prompt (Backend.tone_of m)))
      |constructor|constructor|];
    destruct mode; constructor.
Qed.

(** X14.  The plain server keeps nothing from one request to the
    next: the answer of a handler, the exchanges it makes and the state
    it leaves the network in depend on the body and on the network
    alone, not on what earlier requests did, and it leaves
    [cachedModel] as it found it. *)
Theorem plain_server_is_stateless
    (path : string) (h : jsval -> prog response) (req_body : jsval)
    (s s' : state W) :
  In (path, h) backend_routes ->
  net s = net s' ->
  fst (run respond (h req_body) s) = fst (run respond (h req_body) s') /\
  net (snd (run respond (h req_body) s))
    = net (snd (run respond (h req_body) s')) /\
  added s (snd (run respond (h req_body) s))
    = added s' (snd (run respond (h req_body) s')) /\
  cachedModel (snd (run respond (h req_body) s)) = cachedModel s.
Proof.
  intros Hin Hn.
  exact (run_cacheless _ (cacheless_backend path h req_body Hin) s s' Hn).
Qed.
End Properties.
End Stateless.

(* ================================================================== *)
(** ** Where the requests go *)

Module Destinations.
Import JS Async Express RunFacts AutoSelectFacts Wiring.

Section Properties.
Context {env : Env} {W : Type}.
Variable respond : W -> request -> fetch_outcome * W.

Lemma built_tryModelGenerate (modelId : json) (p : string) :
  sends auto_select_request (AutoSelect.tryModelGenerate modelId p).
Proof.
  unfold AutoSelect.tryModelGenerate. apply sends_template. intros shown.
  simpl. constructor; [left; now exists shown, p|].
  intros [e|status raw]; simpl; repeat constructor.
Qed.

Lemma built_list_one (url : string) :
  In url AutoSelect.list_endpoints ->
  sends auto_select_request (AutoSelect.list_one url).
Proof.
  intros Hin. unfold AutoSelect.list_one. simpl.
  constructor; [right; now apply in_map|].
  intros [e|status raw]; simpl; repeat constructor.
  destruct (JSON_parse raw); simpl; repeat constructor.
  destruct (truthy_val _); simpl; repeat constructor.
Qed.

Lemma built_list_from (endpoints : list string) :
  incl endpoints AutoSelect.list_endpoints ->
  sends auto_select_request (AutoSelect.list_from endpoints).
Proof.
  induction endpoints as [|url rest IH]; intros Hincl;
    [simpl; repeat constructor|].
  cbn [AutoSelect.list_from]. apply sends_bind.
  - apply built_list_one, Hincl. now left.
  - intros [v|]; [constructor|]. apply IH. intros x Hx. apply Hincl.
    now right.
Qed.

Lemma built_try_listed (p : string) :
  sends auto_select_request (AutoSelect.try_listed p).
Proof.
  unfold AutoSelect.try_listed. apply sends_bind.
  - apply built_list_from, incl_refl.
  - intros listed. destruct (AutoSelect.choose listed); try constructor.
    apply sends_template. intros shown. apply sends_log.
    apply sends_bind; [apply built_tryModelGenerate|].
    intros a. destruct (AutoSelect.ok a); simpl; repeat constructor.
Qed.

Lemma built_try_candidates (p : string) (rest : prog json)
    (models : list string) :
  sends auto_select_request rest ->
  sends auto_select_request (AutoSelect.try_candidates models p rest).
Proof.
  intros Hrest. induction models as [|model models IH]; [exact Hrest|].
  cbn [AutoSelect.try_candidates].
  apply sends_bind; [apply built_tryModelGenerate|].
  intros a. destruct (AutoSelect.ok a); simpl; repeat constructor. exact IH.
Qed.

Lemma built_callGemini (p : string) :
  sends auto_select_request (AutoSelect.callGemini p).
Proof.
  unfold AutoSelect.callGemini. apply sends_bind.
  - unfold AutoSelect.ensureWorkingModel, read_cache. cbn [bind].
    constructor. intros c. destruct (truthy c); [constructor|].
    apply built_try_candidates, built_try_listed.
  - intros m. apply sends_bind; [apply built_tryModelGenerate|].
    intros a. destruct (AutoSelect.ok a); [constructor|].
    unfold AutoSelect.new_Error. simpl. unfold template.
    destruct (to_string _); simpl; constructor.
Qed.

Lemma built_block (t : json) (prompt : string -> string) (field : string)
    (original : jsval) (where_ : string) :
  sends auto_select_request
    (try_catch
       (bind (template t) (fun shown =>
          bind (AutoSelect.callGemini (prompt shown)) (fun output =>
            Ret {| status := 200;
                   body := JObj (literal [("original", original);
                                          (field, output)]) |})))
       (AutoSelect.failed where_)).
Proof.
  apply sends_try_catch.
  - apply sends_template. intros shown.
    apply sends_bind; [apply built_callGemini|constructor].
  - intros e. unfold AutoSelect.failed. simpl. repeat constructor.
Qed.

Lemma built_auto_select (path : string) (h : jsval -> prog response)
    (req_body : jsval) :
  In (path, h) auto_select_routes -> sends auto_select_request (h req_body).
Proof.
  intros [H|[H|[H|[]]]]; injection H as _ <-.
  - unfold AutoSelect.humanize. apply Validation.sends_destructure.
    intros [t|]; [|constructor]. destruct (truthy t); [|constructor].
    apply built_block.
  - unfold AutoSelect.summarize. apply Validation.sends_destructure.
    intros [t|]; [|constructor]. destruct (truthy t); [|constructor].
    apply built_block.
  - unfold AutoSelect.tone. apply Validation.sends_destructure. intros text.
    apply Validation.sends_destructure. intros mode.
    destruct text as [t|]; [|constructor].
    destruct mode as [m|]; [|constructor].
    destruct (truthy t && truthy m); [|constructor].
    apply (built_block t (AutoSelect.tone_prompt (AutoSelect.tone_of m))).
Qed.

Lemma built_try_model (model p : string) :
  In model Backend.GEMINI_MODELS ->
  sends backend_request (Backend.try_model model p).
Proof.
  intros Hin. unfold Backend.try_model. simpl.
  constructor; [now exists model, p|].
  intros [e|status raw]; simpl; repeat constructor.
  destruct (negb (status_ok status)); simpl; repeat constructor.
  destruct (JSON_parse raw) as [d|]; simpl; repeat constructor.
  destruct (Backend.result_of d) as [r|]; simpl; repeat constructor.
  destruct (truthy r); repeat constructor.
Qed.

Lemma built_try_models (p : string) (models : list string) :
  incl models Backend.GEMINI_MODELS ->
  sends backend_request (Backend.try_models models p).
Proof.
  induction models as [|model models IH]; intros Hincl;
    cbn [Backend.try_models]; [constructor|].
  apply sends_bind.
  - apply built_try_model, Hincl. now left.
  - intros [v|]; [constructor|]. apply IH. intros x Hx. apply Hincl.
    now right.
Qed.

Lemma built_backend_block (t : json) (prompt : string -> string) :
  sends backend_request
    (bind (template t) (fun shown =>
       bind (Backend.callGeminiAPI (prompt shown)) (fun result =>
         Ret {| status := 200; body := JObj [("result", result)] |}))).
Proof.
  apply sends_template. intros shown.
  apply sends_bind; [|constructor].
  apply built_try_models, incl_refl.
Qed.

Lemma built_backend (path : string) (h : jsval -> prog response)
    (req_body : jsval) :
  In (path, h) backend_routes -> sends backend_request (h req_body).
Proof.
  assert (Hf : forall what e, sends backend_request (Backend.failed what e)).
  { intros what e. unfold Backend.failed. simpl. repeat constructor. }
  intros [H|[H|[H|[]]]]; injection H as _ <-.
  - unfold Backend.humanize. apply sends_try_catch; [|apply Hf].
    apply Validation.sends_destructure.
    intros [t|]; [|constructor]. destruct (truthy t); [|constructor].
    apply built_backend_block.
  - unfold Backend.summarize. apply sends_try_catch; [|apply Hf].
    apply Validation.sends_destructure.
    intros [t|]; [|constructor]. destruct (truthy t); [|constructor].
    apply built_backend_block.
  - unfold Backend.tone. apply sends_try_catch; [|apply Hf].
    apply Validation.sends_destructure. intros text.
    apply Validation.sends_destructure. intros mode.
    destruct text as [t|]; [|constructor].
    destruct mode as [m|]; [|constructor].
    destruct (truthy t && truthy m); [|constructor].
    apply (built_backend_block t (Backend.tone_prompt (Backend.tone_of m))).
Qed.

(** X15.  Whatever the body of the request and whatever the provider
    answers or lists, a handler sends nothing but the requests its
    server builds: in the auto-selecting server a generation request
    for some model id or one of the two listings, in the plain server
    a generation request for a model of its list.  All of them are
    addressed to the provider's origin; those of the auto-selecting
    server carry the key in the [x-goog-api-key] header, those of the
    plain server are POSTs whose only header is the content type, the
    key being in the URL alone. *)
Theorem requests_go_to_the_provider :
  (forall path h (req_body : jsval) (s : state W),
      In (path, h) auto_select_routes ->
      Forall (fun x => auto_select_request (fst x))
        (added s (snd (run respond (h req_body) s)))) /\
  (forall path h (req_body : jsval) (s : state W),
      In (path, h) backend_routes ->
      Forall (fun x => backend_request (fst x))
        (added s (snd (run respond (h req_body) s)))) /\
  (forall r : request,
      auto_select_request r ->
      String.prefix provider (url_of r) = true /\
      In ("x-goog-api-key", AutoSelect.API_KEY) (headers_of r)) /\
  (forall r : request,
      backend_request r ->
      String.prefix provider (url_of r) = true /\
      is_post r = true /\
      headers_of r = [("Content-Type", "application/json")] /\
      exists model prompt,
        url_of r = provider ++ "v1beta/models/" ++ model ++ "?key="
                     ++ Backend.key_text /\
        r = Backend.generate_request model prompt).
Proof.
  split; [|split; [|split]].
  - intros path h req_body s Hin.
    apply run_sends. exact (built_auto_select path h req_body Hin).
  - intros path h req_body s Hin.
    apply run_sends. exact (built_backend path h req_body Hin).
  - intros r [(id & p & ->)|Hin].
    + split; [reflexivity|]. simpl. auto.
    + destruct Hin as [<-|[<-|[]]]; (split; [reflexivity|simpl; auto]).
  - intros r (model & p & _ & ->).
    split; [reflexivity|]. split; [reflexivity|]. split; [reflexivity|].
    exists model, p. split; reflexivity.
Qed.
End Properties.
End Destinations.

(* ================================================================== *)
(** ** The properties above on concrete runs *)

Module Instances.
Import JS Async Express Samples PageSamples Wiring Outcomes.

#[local] Existing Instance sample_env.
#[local] Existing Instance sample_page.

(** The first model of the plain server gets a success status without
    a text, the second one answers "Hi there". *)
Lemma callGeminiAPI_first_success_witness :
  Backend.GEMINI_MODELS
    = (["gemini-pro:generateContent"]
         ++ "gemini-1.5-flash:generateContent" :: [])%list /\
  Backend.usable (ok200 (JObj [])) = false /\
  Backend.verdict hi_there = Some (JStr "Hi there") /\
  fst (run scripted (Backend.callGeminiAPI "Hello world") empty_then_text)
    = Returned (JStr "Hi there") /\
  truthy (JStr "Hi there") = true /\
  trace (snd (run scripted (Backend.callGeminiAPI "Hello world")
                empty_then_text))
    = (trace empty_then_text
         ++ combine (Backend.attempts_on
                       (["gemini-pro:generateContent"]
                          ++ ["gemini-1.5-flash:generateContent"])
                       "Hello world")
                    ([ok200 (JObj [])] ++ [hi_there]))%list /\
  net (snd (run scripted (Backend.callGeminiAPI "Hello world")
              empty_then_text)) = [] /\
  cachedModel (snd (run scripted (Backend.callGeminiAPI "Hello world")
                      empty_then_text)) = cachedModel empty_then_text.
Proof.
  split; [reflexivity|]. split; [reflexivity|]. split; [reflexivity|].
  apply (PlainServer.callGeminiAPI_first_success scripted
           ["gemini-pro:generateContent"] []
           "gemini-1.5-flash:generateContent" "Hello world" empty_then_text
           [ok200 (JObj [])] hi_there [] (JStr "Hi there")); reflexivity.
Defined.

(** Nothing can be reached: both models of the plain server are
    tried. *)
Lemma callGeminiAPI_exhausts_the_list_witness :
  replies scripted (net offline)
    (Backend.attempts_on Backend.GEMINI_MODELS "Hello world")
    = ([refused; refused], []) /\
  fst (run scripted (Backend.callGeminiAPI "Hello world") offline)
    = Thrown Backend.all_failed /\
  trace (snd (run scripted (Backend.callGeminiAPI "Hello world") offline))
    = (trace offline
         ++ combine (Backend.attempts_on Backend.GEMINI_MODELS "Hello world")
                    [refused; refused])%list /\
  length [refused; refused] = length Backend.GEMINI_MODELS /\
  cachedModel (snd (run scripted (Backend.callGeminiAPI "Hello world") offline))
    = cachedModel offline.
Proof.
  split; [reflexivity|].
  apply (PlainServer.callGeminiAPI_exhausts_the_list scripted "Hello world"
           offline [refused; refused] []); reflexivity.
Defined.

(** The answer "Hi there" is a success for both servers. *)
Lemma plain_success_is_auto_select_success_witness :
  Backend.verdict hi_there = Some (JStr "Hi there") /\
  AutoSelect.usable hi_there = true /\
  AutoSelect.text (AutoSelect.attempt_of hi_there) = Some (JStr "Hi there").
Proof.
  split; [reflexivity|].
  apply (proj1 PlainServer.plain_success_is_auto_select_success hi_there
           (JStr "Hi there")); reflexivity.
Defined.

(** /api/humanize of both servers with nothing reachable: nine
    exchanges in the auto-selecting server, two in the plain one. *)
Lemma exchanges_bounded_witness :
  In ("/api/humanize", AutoSelect.humanize) auto_select_routes /\
  In ("/api/humanize", Backend.humanize) backend_routes /\
  length (added offline
            (snd (run scripted (AutoSelect.humanize (Some (JObj [("text", JStr "x")])))
                    offline))) <= 9 /\
  length (added offline
            (snd (run scripted (Backend.humanize (Some (JObj [("text", JStr "x")])))
                    offline))) <= 2.
Proof.
  assert (H1 : In ("/api/humanize", AutoSelect.humanize) auto_select_routes)
    by (left; reflexivity).
  assert (H2 : In ("/api/humanize", Backend.humanize) backend_routes)
    by (left; reflexivity).
  split; [exact H1|]. split; [exact H2|]. split.
  - exact (proj1 (Budget.exchanges_bounded scripted) "/api/humanize"
             AutoSelect.humanize (Some (JObj [("text", JStr "x")])) offline H1).
  - exact (proj1 (proj2 (Budget.exchanges_bounded scripted)) "/api/humanize"
             Backend.humanize (Some (JObj [("text", JStr "x")])) offline H2).
Defined.

(** Two calls in flight at once leave in the cache a candidate on
    which an attempt among their exchanges succeeded. *)
Lemma cachedModel_holds_a_model_witness :
  let s' := snd (run_schedule scripted (overlapping_calls sample_env) []
                   overlapping_answers) in
  AutoSelect.only_calls (overlapping_calls sample_env) /\
  cachedModel s' = JStr "gemini-2.5-flash" /\
  (cachedModel s' = cachedModel overlapping_answers \/
   cacheable (added overlapping_answers s') (cachedModel s')).
Proof.
  cbv zeta.
  assert (H : AutoSelect.only_calls (overlapping_calls sample_env)).
  { repeat constructor; eexists; reflexivity. }
  split; [exact H|]. split; [reflexivity|].
  exact (proj1 (CacheContents.cachedModel_holds_a_model scripted)
           (overlapping_calls sample_env) overlapping_answers H).
Defined.

(** After a first call has cached "gemini-2.5-pro" nothing answers any
    more: two further calls send one request each, for that model. *)
Lemma cached_model_is_never_dropped_witness :
  let s := snd (run scripted (AutoSelect.callGemini "Hello world")
                  first_answers) in
  truthy (cachedModel s) = true /\
  to_string (cachedModel s) = Some "gemini-2.5-pro" /\
  cachedModel (AutoSelect.run_calls scripted ["Again"; "Once more"] s)
    = cachedModel s /\
  map fst (added s (AutoSelect.run_calls scripted ["Again"; "Once more"] s))
    = map (fun p => AutoSelect.generate_request "gemini-2.5-pro" p)
        ["Again"; "Once more"].
Proof.
  cbv zeta.
  assert (Ht : truthy (cachedModel
                         (snd (run scripted
                                 (AutoSelect.callGemini "Hello world")
                                 first_answers))) = true) by reflexivity.
  assert (Hid : to_string (cachedModel
                             (snd (run scripted
                                     (AutoSelect.callGemini "Hello world")
                                     first_answers)))
                = Some "gemini-2.5-pro") by reflexivity.
  split; [exact Ht|]. split; [exact Hid|].
  exact (proj2 (Pinned.cached_model_is_never_dropped scripted
                  "gemini-2.5-pro" _ Ht Hid) ["Again"; "Once more"]).
Defined.

(** /api/humanize of the plain server when the second model answers
    "Hi there". *)
Lemma ok_answer_carries_the_text_witness :
  let req_body := JObj [("text", JStr "x")] in
  let resp := {| status := 200; body := JObj [("result", JStr "Hi there")] |} in
  In ("/api/humanize", Backend.humanize) backend_routes /\
  fst (run scripted (Backend.humanize (Some req_body)) empty_then_text)
    = Returned resp /\
  status resp = 200%Z /\
  exists v : json,
    body resp = JObj [("result", v)] /\
    truthy v = true /\
    (exists tr r o,
        added empty_then_text
          (snd (run scripted (Backend.humanize (Some req_body)) empty_then_text))
          = (tr ++ [(r, o)])%list /\
        is_post r = true /\
        Backend.verdict o = Some v) /\
    Frontend.extractTextFromResponse (body resp) = v /\
    FrontendPlain.shown (body resp) = Some v.
Proof.
  cbv zeta.
  assert (H : In ("/api/humanize", Backend.humanize) backend_routes)
    by (left; reflexivity).
  assert (Hrun : fst (run scripted
                        (Backend.humanize (Some (JObj [("text", JStr "x")])))
                        empty_then_text)
                 = Returned {| status := 200;
                               body := JObj [("result", JStr "Hi there")] |})
    by reflexivity.
  split; [exact H|]. split; [exact Hrun|]. split; [reflexivity|].
  exact (proj2 (Answers.ok_answer_carries_the_text scripted) "/api/humanize"
           Backend.humanize (Some (JObj [("text", JStr "x")])) empty_then_text
           {| status := 200; body := JObj [("result", JStr "Hi there")] |}
           H Hrun eq_refl).
Defined.

(** A request with the text "x" and the mode "loud", with nothing
    reachable. *)
Lemma valid_request_reaches_the_model_witness :
  let req_body := JObj [("text", JStr "x"); ("mode", JStr "loud")] in
  get_prop req_body "text" = Some (JStr "x") /\
  truthy (JStr "x") = true /\
  to_string (JStr "x") = Some "x" /\
  reaches scripted (AutoSelect.humanize (Some req_body))
    (AutoSelect.humanize_prompt "x") offline.
Proof.
  cbv zeta. split; [reflexivity|]. split; [reflexivity|].
  split; [reflexivity|].
  exact (proj1 (proj1 (Accepted.valid_request_reaches_the_model scripted
                         (JObj [("text", JStr "x"); ("mode", JStr "loud")])
                         (JStr "x") offline eq_refl eq_refl)
                  "x" eq_refl)).
Defined.

(** The body [{ result: "Hi there" }] of the plain server. *)
Lemma extractTextFromResponse_falsy_only_for_falsy_witness :
  let data := JObj [("result", JStr "Hi there")] in
  Frontend.JSON_stringify data <> "" /\
  truthy (Frontend.extractTextFromResponse data) = truthy data.
Proof.
  cbv zeta.
  assert (H : Frontend.JSON_stringify (JObj [("result", JStr "Hi there")])
              <> "") by (vm_compute; discriminate).
  split; [exact H|].
  exact (proj1 (PageFacts.extractTextFromResponse_falsy_only_for_falsy
                  (JObj [("result", JStr "Hi there")]) H)).
Defined.

(** The input "  Hello  " with the tab "formal". *)
Lemma processText_request_is_accepted_witness :
  Frontend.processText_request "  Hello  " (Some "formal")
    = Frontend.Sent "/api/tone"
        (JObj [("text", JStr "Hello"); ("mode", JStr "formal")]) /\
  Frontend.trim "  Hello  " <> "".
Proof.
  assert (H : Frontend.processText_request "  Hello  " (Some "formal")
              = Frontend.Sent "/api/tone"
                  (JObj [("text", JStr "Hello"); ("mode", JStr "formal")]))
    by reflexivity.
  split; [exact H|].
  exact (proj1 (PageFacts.processText_request_is_accepted scripted
                  "  Hello  " (Some "formal") "/api/tone"
                  (JObj [("text", JStr "Hello"); ("mode", JStr "formal")])
                  offline H)).
Defined.

(** The provider answers with the number 42 where the text should be:
    the auto-selecting server sends it on with status 200, and the
    page reports a backend out of reach. *)
Lemma processText_shows_strings_only_witness :
  fst (run scripted (AutoSelect.humanize (Some (JObj [("text", JStr "x")])))
         number_for_text)
    = Returned {| status := 200;
                  body := JObj [("original", JStr "x");
                                ("humanized", JNum "42")] |} /\
  In "humanized" ["humanized"; "summary"; "toned"] /\
  truthy (JNum "42") = true /\
  Frontend.processText_shows
    (JObj [("original", JStr "x"); ("humanized", JNum "42")])
    = Frontend.processText_shows (JObj [("result", JNum "42")]) /\
  Frontend.processText_shows (JObj [("result", JNum "42")])
    = Frontend.Unreachable.
Proof.
  assert (H : In "humanized" ["humanized"; "summary"; "toned"])
    by (left; reflexivity).
  split; [reflexivity|]. split; [exact H|]. split; [reflexivity|].
  exact (PageFacts.processText_shows_strings_only (JStr "x") (JNum "42")
           "humanized" H eq_refl).
Defined.

(** The text "Hello" with the tab "casual". *)
Lemma runAI_request_is_accepted_witness :
  "Hello" <> "" /\
  FrontendPlain.path_of (Some "casual") = "/api/tone" /\
  reaches scripted
    (AutoSelect.tone (Some (FrontendPlain.payload "Hello" (Some "casual"))))
    (AutoSelect.tone_prompt "Casual" "Hello") offline /\
  reaches scripted
    (Backend.tone (Some (FrontendPlain.payload "Hello" (Some "casual"))))
    (Backend.tone_prompt "casual" "Hello") offline.
Proof.
  assert (H : "Hello" <> "") by discriminate.
  split; [exact H|].
  exact (proj1 (proj2 (proj2 (PageFacts.runAI_request_is_accepted scripted
                                "Hello" offline H)))
           "casual" (or_intror eq_refl)).
Defined.

(** /api/humanize of the plain server answers the same, whether an
    earlier request has left a model in the cache or not. *)
Lemma plain_server_is_stateless_witness :
  let req_body := JObj [("text", JStr "x")] in
  let s' := set_cache (JStr "gemini-2.5-pro") empty_then_text in
  In ("/api/humanize", Backend.humanize) backend_routes /\
  net empty_then_text = net s' /\
  fst (run scripted (Backend.humanize (Some req_body)) empty_then_text)
    = fst (run scripted (Backend.humanize (Some req_body)) s').
Proof.
  cbv zeta.
  assert (H : In ("/api/humanize", Backend.humanize) backend_routes)
    by (left; reflexivity).
  split; [exact H|]. split; [reflexivity|].
  exact (proj1 (Stateless.plain_server_is_stateless scripted "/api/humanize"
                  Backend.humanize (Some (JObj [("text", JStr "x")]))
                  empty_then_text
                  (set_cache (JStr "gemini-2.5-pro") empty_then_text)
                  H eq_refl)).
Defined.

(** /api/humanize of the plain server when both models refuse the
    connection: two exchanges, then an answer. *)
Lemma handlers_always_answer_witness :
  let req_body := Some (JObj [("text", JStr "x")]) in
  In ("/api/humanize", Backend.humanize) backend_routes /\
  map snd (added offline
             (snd (run scripted (Backend.humanize req_body) offline)))
    = [refused; refused] /\
  exists resp,
    fst (run scripted (Backend.humanize req_body) offline) = Returned resp /\
    Limits.known_status resp.
Proof.
  cbv zeta.
  assert (H : In ("/api/humanize", Backend.humanize) backend_routes)
    by (left; reflexivity).
  split; [exact H|]. split; [reflexivity|].
  exact (proj1 (Handlers.handlers_always_answer scripted)
           "/api/humanize" Backend.humanize
           (Some (JObj [("text", JStr "x")])) offline H).
Defined.

(** /api/summarize of the auto-selecting server with nothing
    reachable: all nine requests are its own. *)
Lemma requests_go_to_the_provider_witness :
  In ("/api/summarize", AutoSelect.summarize) auto_select_routes /\
  Forall (fun x => auto_select_request (fst x))
    (added offline
       (snd (run scripted (AutoSelect.summarize (Some (JObj [("text", JStr "x")])))
               offline))).
Proof.
  assert (H : In ("/api/summarize", AutoSelect.summarize) auto_select_routes)
    by (right; left; reflexivity).
  split; [exact H|].
  exact (proj1 (Destinations.requests_go_to_the_provider scripted)
           "/api/summarize" AutoSelect.summarize (Some (JObj [("text", JStr "x")]))
           offline H).
Defined.

End Instances.
